(** * ExWiFi: the WPS PIN search core of [ErrorX.py]

    A shallow embedding of the address codec ([NetworkAddress]), the PIN
    generator ([EnhancedWPSpin]), the trace classifier
    ([EnhancedCompanion.__handle_wpas]), one attack session
    ([__wps_connection]) and the two-phase bruteforce
    ([__first_half_bruteforce], [__second_half_bruteforce],
    [smart_bruteforce]), followed by the properties of the specification
    that concern them.

    Python values are modelled as the code has them: [int] is [Z]
    (unbounded), [str] is [string] restricted to ASCII, a raised exception
    is the [Raise] case of [res], and the loops whose termination depends
    on run-time data take a fuel argument and report [OutOfFuel]. *)

From Stdlib Require Import ZArith List Ascii String Bool Lia.
Import ListNotations.

Open Scope string_scope.
Open Scope Z_scope.

(** ** Results of Python calls *)

Inductive exn : Type :=
| ValueError (msg : string)
| IndexError
| TypeError.

Inductive res (A : Type) : Type :=
| Ok (a : A)
| Raise (e : exn)
| KeyboardInterrupt
| OutOfFuel.

Arguments Ok {A} a.
Arguments Raise {A} e.
Arguments KeyboardInterrupt {A}.
Arguments OutOfFuel {A}.

Definition bind {A B : Type} (m : res A) (k : A -> res B) : res B :=
  match m with
  | Ok a => k a
  | Raise e => Raise e
  | KeyboardInterrupt => KeyboardInterrupt
  | OutOfFuel => OutOfFuel
  end.

Notation "x <- m ;; k" := (bind m (fun x => k))
  (at level 61, m at next level, right associativity).

(** [try: ... except Exception as e: handler]: [KeyboardInterrupt] is a
    [BaseException] and passes through. *)
Definition try_except {A : Type} (m : res A) (handler : exn -> res A) : res A :=
  match m with
  | Raise e => handler e
  | other => other
  end.

Definition of_option {A : Type} (e : exn) (o : option A) : res A :=
  match o with
  | Some a => Ok a
  | None => Raise e
  end.

(** ** Python string primitives (ASCII) *)

Module PyStr.

Definition nl : ascii := ascii_of_nat 10.

Definition code (c : ascii) : N := N_of_ascii c.

Definition between (lo hi : N) (c : ascii) : bool :=
  (N.leb lo (code c) && N.leb (code c) hi)%bool.

(** [str.isspace] on ASCII: TAB..CR, FS..US and the blank. *)
Definition is_space (c : ascii) : bool :=
  (between 9 13 c || between 28 32 c)%bool.

Definition is_digit (c : ascii) : bool := between 48 57 c.
Definition is_lower (c : ascii) : bool := between 97 122 c.
Definition is_upper (c : ascii) : bool := between 65 90 c.

Definition upper_char (c : ascii) : ascii :=
  if is_lower c then ascii_of_N (code c - 32) else c.

Fixpoint upper (s : string) : string :=
  match s with
  | "" => ""
  | String c r => String (upper_char c) (upper r)
  end.

(** [s.replace(c, by)] for a one-character pattern [c]. *)
Fixpoint replace (c : ascii) (by_ : string) (s : string) : string :=
  match s with
  | "" => ""
  | String a r =>
      if Ascii.eqb a c then by_ ++ replace c by_ r
      else String a (replace c by_ r)
  end.

Fixpoint startswith (p s : string) : bool :=
  match p, s with
  | "", _ => true
  | String _ _, "" => false
  | String a p', String b s' => (Ascii.eqb a b && startswith p' s')%bool
  end.

(** [sub in s]. *)
Fixpoint contains (sub s : string) : bool :=
  (startswith sub s ||
   match s with
   | "" => false
   | String _ r => contains sub r
   end)%bool.

Fixpoint lstrip (s : string) : string :=
  match s with
  | "" => ""
  | String c r => if is_space c then lstrip r else s
  end.

Fixpoint rstrip (s : string) : string :=
  match s with
  | "" => ""
  | String c r =>
      match rstrip r with
      | "" => if is_space c then "" else String c ""
      | r' => String c r'
      end
  end.

Definition strip (s : string) : string := rstrip (lstrip s).

(** [s.rstrip(c)] for a one-character set. *)
Fixpoint rstrip_char (c : ascii) (s : string) : string :=
  match s with
  | "" => ""
  | String a r =>
      match rstrip_char c r with
      | "" => if Ascii.eqb a c then "" else String a ""
      | r' => String a r'
      end
  end.

(** [s.split(c)] for a one-character separator: the fields, in order. *)
Fixpoint split_char (c : ascii) (s : string) : list string :=
  match s with
  | "" => [""]
  | String a r =>
      if Ascii.eqb a c then "" :: split_char c r
      else match split_char c r with
           | [] => [String a ""]
           | f :: fs => String a f :: fs
           end
  end.

(** [s.split(c, maxsplit)]. *)
Fixpoint split_char_max (c : ascii) (maxsplit : nat) (s : string) : list string :=
  match maxsplit with
  | O => [s]
  | S m =>
      match s with
      | "" => [""]
      | String a r =>
          if Ascii.eqb a c then "" :: split_char_max c m r
          else match split_char_max c maxsplit r with
               | [] => [String a ""]
               | f :: fs => String a f :: fs
               end
      end
  end.

(** [s.split(sep)] for a non-empty separator string.  [skip] counts the
    characters of a separator occurrence still to be dropped. *)
Fixpoint split_sub_aux (sep : string) (skip : nat) (s : string) : list string :=
  match s with
  | "" => [""]
  | String a r =>
      match skip with
      | S k => split_sub_aux sep k r
      | O =>
          if startswith sep s
          then "" :: split_sub_aux sep (String.length sep - 1) r
          else match split_sub_aux sep O r with
               | [] => [String a ""]
               | f :: fs => String a f :: fs
               end
      end
  end.

Definition split_sub (sep s : string) : list string := split_sub_aux sep O s.

Fixpoint join (sep : string) (l : list string) : string :=
  match l with
  | [] => ""
  | [x] => x
  | x :: r => x ++ sep ++ join sep r
  end.

(** [s[i:j]] for [0 <= i <= j]: slices clip at the end of the string. *)
Definition slice (s : string) (i j : nat) : string := substring i (j - i) s.

Fixpoint zeros (n : nat) : string :=
  match n with
  | O => ""
  | S k => String "0" (zeros k)
  end.

(** [s.zfill(width)]: the padding goes after a leading sign. *)
Definition zfill (width : nat) (s : string) : string :=
  let pad := zeros (width - String.length s) in
  match s with
  | String "+" r => String "+" (pad ++ r)
  | String "-" r => String "-" (pad ++ r)
  | _ => pad ++ s
  end.

(** The digit characters of [str] and [hex]: lower case beyond 9. *)
Definition digit_char (d : Z) : ascii :=
  if d <? 10 then ascii_of_N (48 + Z.to_N d) else ascii_of_N (87 + Z.to_N d).

(** The value of a digit character for [int(s, base)], case-insensitive. *)
Definition digit_val (c : ascii) : option Z :=
  if is_digit c then Some (Z.of_N (code c) - 48)
  else if is_lower c then Some (Z.of_N (code c) - 87)
  else if is_upper c then Some (Z.of_N (code c) - 55)
  else None.

(** Positional digits of [n >= 0], most significant first.  The loop
    stops when the quotient is 0; the fuel bounds the number of digits. *)
Fixpoint digits_loop (fuel : nat) (base n : Z) (acc : string) : string :=
  match fuel with
  | O => acc
  | S f =>
      let acc' := String (digit_char (n mod base)) acc in
      if n / base =? 0 then acc' else digits_loop f base (n / base) acc'
  end.

Definition digits (base n : Z) : string :=
  digits_loop (S (Z.to_nat (Z.log2 n))) base n "".

(** [str(n)] for an int. *)
Definition py_str (n : Z) : string :=
  if n <? 0 then String "-" (digits 10 (- n)) else digits 10 n.

(** [hex(n)]. *)
Definition py_hex (n : Z) : string :=
  if n <? 0 then "-0x" ++ digits 16 (- n) else "0x" ++ digits 16 n.

(** The digit part of an int literal: digits below [base]; a single
    underscore may separate digits or follow a base prefix; the literal
    ends on a digit.  [us_ok]: an underscore may come next; [end_ok]: the
    literal may end here. *)
Fixpoint int_digits (base acc : Z) (us_ok end_ok : bool) (s : string) : option Z :=
  match s with
  | "" => if end_ok then Some acc else None
  | String c r =>
      if Ascii.eqb c "_"
      then (if us_ok then int_digits base acc false false r else None)
      else match digit_val c with
           | Some d => if d <? base
                       then int_digits base (acc * base + d) true true r
                       else None
           | None => None
           end
  end.

(** The optional sign of an int literal. *)
Definition split_sign (s : string) : bool * string :=
  match s with
  | String "-" r => (true, r)
  | String "+" r => (false, r)
  | _ => (false, s)
  end.

(** The optional [0x] prefix, accepted when the base is 16. *)
Definition split_prefix (base : Z) (s : string) : bool * string :=
  if base =? 16 then
    match s with
    | String "0" (String "x" r) => (true, r)
    | String "0" (String "X" r) => (true, r)
    | _ => (false, s)
    end
  else (false, s).

(** The blanks [int()] skips at either end of its argument: TAB..CR and
    the blank.  The separators FS..US, which [str.strip()] removes, are
    not among them: [int()] refuses a text that holds one. *)
Definition is_int_space (c : ascii) : bool :=
  (between 9 13 c || between 32 32 c)%bool.

Fixpoint int_lstrip (s : string) : string :=
  match s with
  | "" => ""
  | String c r => if is_int_space c then int_lstrip r else s
  end.

Fixpoint int_rstrip (s : string) : string :=
  match s with
  | "" => ""
  | String c r =>
      match int_rstrip r with
      | "" => if is_int_space c then "" else String c ""
      | r' => String c r'
      end
  end.

Definition int_strip (s : string) : string := int_rstrip (int_lstrip s).

(** [int(s, base)] for base 10 or 16; [None] stands for [ValueError]. *)
Definition py_int (base : Z) (s : string) : option Z :=
  let '(neg, s2) := split_sign (int_strip s) in
  let '(pref, s3) := split_prefix base s2 in
  match int_digits base 0 pref false s3 with
  | Some v => Some (if neg then - v else v)
  | None => None
  end.

End PyStr.

Import PyStr.

(** ** [class NetworkAddress] *)

(** The argument of [NetworkAddress(mac)]: an [int], a [str], or any other
    object. *)
Inductive pyarg : Type :=
| PInt (n : Z)
| PStr (s : string)
| PObj.

Module NetworkAddress.

Record t : Type := mk { _str_repr : string; _int_repr : Z }.

Definition string_ (a : t) : string := _str_repr a.
Definition integer (a : t) : Z := _int_repr a.

(** The character class [[0-9A-Fa-f]]. *)
Definition is_hex_char (c : ascii) : bool :=
  (between 48 57 c || between 65 70 c || between 97 102 c)%bool.

(** [n] repetitions of [[0-9A-Fa-f]{2}[:-]]; the rest of the subject. *)
Fixpoint match_octets (n : nat) (s : string) : option string :=
  match n with
  | O => Some s
  | S k =>
      match s with
      | String a (String b (String d r)) =>
          if (is_hex_char a && is_hex_char b &&
              (Ascii.eqb d ":" || Ascii.eqb d "-"))%bool
          then match_octets k r else None
      | _ => None
      end
  end.

(** [re.match('^([0-9A-Fa-f]{2}[:-]){5}([0-9A-Fa-f]{2})$', mac)]: the
    pattern's [$] also matches before one final newline. *)
Definition _is_valid_mac (mac : string) : bool :=
  match match_octets 5 mac with
  | Some (String a (String b r)) =>
      (is_hex_char a && is_hex_char b &&
       (String.eqb r "" || String.eqb r (String nl "")))%bool
  | _ => false
  end.

Definition _mac2int (mac : string) : res Z :=
  of_option (ValueError "invalid literal for int() with base 16")
            (py_int 16 (replace ":" "" mac)).

Definition _int2mac (mac : Z) : string :=
  let mac := upper (last (split_char "x" (py_hex mac)) "") in
  let mac := zfill 12 mac in
  join ":" (map (fun i => slice mac i (i + 2)) [0; 2; 4; 6; 8; 10]%nat).

Definition __init__ (mac : pyarg) : res t :=
  match mac with
  | PInt n => Ok (mk (_int2mac n) n)
  | PStr s =>
      let str_repr := upper (replace "." ":" (replace "-" ":" s)) in
      if negb (_is_valid_mac str_repr)
      then Raise (ValueError "Invalid MAC address format")
      else int_repr <- _mac2int s ;; Ok (mk str_repr int_repr)
  | PObj => Raise (ValueError "MAC address must be string or integer")
  end.

(** The [integer] setter. *)
Definition set_integer (a : t) (value : Z) : t := mk (_int2mac value) value.

(** The [string] setter. *)
Definition set_string (a : t) (value : string) : res t :=
  if negb (_is_valid_mac value)
  then Raise (ValueError "Invalid MAC address")
  else int_repr <- _mac2int value ;; Ok (mk value int_repr).

Definition __iadd__ (a : t) (other : Z) : t := set_integer a (integer a + other).
Definition __isub__ (a : t) (other : Z) : t := set_integer a (integer a - other).

End NetworkAddress.

(** ** [class EnhancedWPSpin] *)

(** What a generator function or [generate] hands back: an [int], a [str]
    or [None]. *)
Inductive pyval : Type :=
| VInt (n : Z)
| VStr (s : string)
| VNone.

Module EnhancedWPSpin.

Inductive mode : Type := ALGO_MAC | ALGO_EMPTY | ALGO_STATIC.

Record algo : Type :=
  { name : string; amode : mode; gen : NetworkAddress.t -> res pyval }.

(** The [while pin:] loop of [checksum].  [int(pin / 10)] truncates the
    float quotient toward zero, which is [Z.quot] as long as the float
    division is exact to the unit (|pin| < 2^52, far above any PIN). *)
Fixpoint checksum_loop (fuel : nat) (accum pin : Z) : res Z :=
  match fuel with
  | O => OutOfFuel
  | S f =>
      if pin =? 0 then Ok accum
      else
        let accum := accum + 3 * (pin mod 10) in
        let pin := Z.quot pin 10 in
        let accum := accum + pin mod 10 in
        let pin := Z.quot pin 10 in
        checksum_loop f accum pin
  end.

Definition checksum_fuel (pin : Z) : nat := S (S (Z.to_nat (Z.log2 (Z.abs pin)))).

Definition checksum (pin : Z) : res Z :=
  accum <- checksum_loop (checksum_fuel pin) 0 pin ;;
  Ok ((10 - accum mod 10) mod 10).

Definition pin24 (mac : NetworkAddress.t) : res pyval :=
  Ok (VInt (Z.land (NetworkAddress.integer mac) 0xFFFFFF)).

Definition pin28 (mac : NetworkAddress.t) : res pyval :=
  Ok (VInt (Z.land (NetworkAddress.integer mac) 0xFFFFFFF)).

Definition pin32 (mac : NetworkAddress.t) : res pyval :=
  Ok (VInt (NetworkAddress.integer mac mod 0x100000000)).

Definition pinDLink (mac : NetworkAddress.t) : res pyval :=
  let nic := Z.land (NetworkAddress.integer mac) 0xFFFFFF in
  let pin := Z.lxor nic 0x55AA55 in
  let pin := Z.lxor pin
               (Z.shiftl (Z.land pin 0xF) 4 +
                Z.shiftl (Z.land pin 0xF) 8 +
                Z.shiftl (Z.land pin 0xF) 12 +
                Z.shiftl (Z.land pin 0xF) 16 +
                Z.shiftl (Z.land pin 0xF) 20) in
  let pin := pin mod 10000000 in
  let pin := if pin <? 1000000 then pin + ((pin mod 9) * 1000000) + 1000000 else pin in
  Ok (VInt pin).

Definition pinDLink1 (mac : NetworkAddress.t) : res pyval :=
  let mac := NetworkAddress.__iadd__ mac 1 in
  pinDLink mac.

(** [[int(i, 16) for i in mac.string.split(':')]]. *)
Fixpoint octets (l : list string) : res (list Z) :=
  match l with
  | [] => Ok []
  | x :: r =>
      v <- of_option (ValueError "invalid literal for int() with base 16")
                     (py_int 16 x) ;;
      vs <- octets r ;;
      Ok (v :: vs)
  end.

(** [b[i]] for [i >= 0]. *)
Definition item (b : list Z) (i : nat) : res Z :=
  of_option IndexError (nth_error b i).

Definition pinASUS_digit (b : list Z) (i : nat) : res string :=
  bi <- item b (i mod 6) ;;
  b5 <- item b 5 ;;
  b1 <- item b 1 ;;
  b2 <- item b 2 ;;
  b3 <- item b 3 ;;
  b4 <- item b 4 ;;
  Ok (py_str ((bi + b5) mod (10 - (Z.of_nat i + b1 + b2 + b3 + b4 + b5) mod 7))).

Fixpoint pinASUS_loop (b : list Z) (idx : list nat) (pin : string) : res string :=
  match idx with
  | [] => Ok pin
  | i :: r => d <- pinASUS_digit b i ;; pinASUS_loop b r (pin ++ d)
  end.

Definition pinASUS (mac : NetworkAddress.t) : res pyval :=
  b <- octets (split_char ":" (NetworkAddress.string_ mac)) ;;
  pin <- pinASUS_loop b (seq 0 7) "" ;;
  v <- of_option (ValueError "invalid literal for int() with base 10")
                 (py_int 10 pin) ;;
  Ok (VInt v).

Definition pinAirocon (mac : NetworkAddress.t) : res pyval :=
  b <- octets (split_char ":" (NetworkAddress.string_ mac)) ;;
  b0 <- item b 0 ;;
  b1 <- item b 1 ;;
  b5 <- item b 5 ;;
  b4 <- item b 4 ;;
  b3 <- item b 3 ;;
  b2 <- item b 2 ;;
  Ok (VInt (((b0 + b1) mod 10)
            + (((b5 + b0) mod 10) * 10)
            + (((b4 + b5) mod 10) * 100)
            + (((b3 + b4) mod 10) * 1000)
            + (((b2 + b3) mod 10) * 10000)
            + (((b1 + b2) mod 10) * 100000)
            + (((b0 + b1) mod 10) * 1000000))).

Definition static (nm : string) (pin : Z) : algo :=
  {| name := nm; amode := ALGO_STATIC; gen := fun _ => Ok (VInt pin) |}.

(** [self.algos]: a dict, kept in insertion order. *)
Definition algos : list (string * algo) :=
  [ ("pin24", {| name := "24-bit PIN"; amode := ALGO_MAC; gen := pin24 |});
    ("pin28", {| name := "28-bit PIN"; amode := ALGO_MAC; gen := pin28 |});
    ("pin32", {| name := "32-bit PIN"; amode := ALGO_MAC; gen := pin32 |});
    ("pinDLink", {| name := "D-Link PIN"; amode := ALGO_MAC; gen := pinDLink |});
    ("pinDLink1", {| name := "D-Link PIN +1"; amode := ALGO_MAC; gen := pinDLink1 |});
    ("pinASUS", {| name := "ASUS PIN"; amode := ALGO_MAC; gen := pinASUS |});
    ("pinAirocon", {| name := "Airocon Realtek"; amode := ALGO_MAC; gen := pinAirocon |});
    ("pinEmpty", {| name := "Empty PIN"; amode := ALGO_EMPTY; gen := fun _ => Ok (VStr "") |});
    ("pinCisco", static "Cisco" 1234567);
    ("pinBrcm1", static "Broadcom 1" 2017252);
    ("pinBrcm2", static "Broadcom 2" 4626484);
    ("pinBrcm3", static "Broadcom 3" 7622990);
    ("pinBrcm4", static "Broadcom 4" 6232714);
    ("pinBrcm5", static "Broadcom 5" 1086411);
    ("pinBrcm6", static "Broadcom 6" 3195719);
    ("pinAirc1", static "Airocon 1" 3043203);
    ("pinAirc2", static "Airocon 2" 7141225);
    ("pinDSL2740R", static "DSL-2740R" 6817554);
    ("pinRealtek1", static "Realtek 1" 9566146);
    ("pinRealtek2", static "Realtek 2" 9571911);
    ("pinRealtek3", static "Realtek 3" 4856371);
    ("pinUpvel", static "Upvel" 2085483);
    ("pinUR814AC", static "UR-814AC" 4397768);
    ("pinUR825AC", static "UR-825AC" 529417);
    ("pinOnlime", static "Onlime" 9995604);
    ("pinEdimax", static "Edimax" 3561153);
    ("pinThomson", static "Thomson" 6795814);
    ("pinHG532x", static "HG532x" 3425928);
    ("pinH108L", static "H108L" 9422988);
    ("pinONO", static "CBN ONO" 9575521) ].

(** [self.algos[algo]] / [algo in self.algos]. *)
Fixpoint lookup (k : string) (d : list (string * algo)) : option algo :=
  match d with
  | [] => None
  | (k', v) :: r => if String.eqb k k' then Some v else lookup k r
  end.

(** The statements of [generate] inside its [try]. *)
Definition generate_body (algo : string) (mac : pyarg) : res pyval :=
  mac <- NetworkAddress.__init__ mac ;;
  match lookup algo algos with
  | None => Raise (ValueError "Invalid WPS pin algorithm")
  | Some a =>
      pin <- gen a mac ;;
      if String.eqb algo "pinEmpty" then Ok pin
      else
        match pin with
        | VInt pin =>
            let pin := pin mod 10000000 in
            c <- checksum pin ;;
            let pin := py_str pin ++ py_str c in
            Ok (VStr (zfill 8 pin))
        | _ => Raise TypeError
        end
  end.

(** [generate]: every [Exception] of the body is logged and turned into
    a normal return of [None]. *)
Definition generate (algo : string) (mac : pyarg) : res pyval :=
  try_except (generate_body algo mac) (fun _ => Ok VNone).

End EnhancedWPSpin.

(** ** Handshake data and connection status *)

(** [get_hex(line)]: the third colon-separated field, blanks removed. *)
Definition get_hex (line : string) : string :=
  let a := split_char_max ":" 3 line in
  if (3 <=? List.length a)%nat then upper (replace " " "" (nth 2 a ""))
  else "".

Module PixiewpsData.

Record t : Type :=
  mk { pke : string; pkr : string; e_hash1 : string; e_hash2 : string;
       authkey : string; e_nonce : string }.

Definition init : t := mk "" "" "" "" "" "".

(** Python's [a and b] on strings: [a] when [a] is empty, else [b]. *)
Definition py_and (a b : string) : string :=
  match a with
  | "" => a
  | _ => b
  end.

Definition truthy (s : string) : bool := negb (String.eqb s "").

(** [got_all] returns the value of the [and] chain; callers test its
    truth value. *)
Definition got_all (d : t) : string :=
  py_and (py_and (py_and (py_and (py_and (pke d) (pkr d)) (e_nonce d)) (authkey d))
                 (e_hash1 d)) (e_hash2 d).

Definition set_pke (d : t) (v : string) : t :=
  mk v (pkr d) (e_hash1 d) (e_hash2 d) (authkey d) (e_nonce d).
Definition set_pkr (d : t) (v : string) : t :=
  mk (pke d) v (e_hash1 d) (e_hash2 d) (authkey d) (e_nonce d).
Definition set_e_hash1 (d : t) (v : string) : t :=
  mk (pke d) (pkr d) v (e_hash2 d) (authkey d) (e_nonce d).
Definition set_e_hash2 (d : t) (v : string) : t :=
  mk (pke d) (pkr d) (e_hash1 d) v (authkey d) (e_nonce d).
Definition set_authkey (d : t) (v : string) : t :=
  mk (pke d) (pkr d) (e_hash1 d) (e_hash2 d) v (e_nonce d).
Definition set_e_nonce (d : t) (v : string) : t :=
  mk (pke d) (pkr d) (e_hash1 d) (e_hash2 d) (authkey d) v.

End PixiewpsData.

Module ConnectionStatus.

(** The values the code stores in [status]: [''], ['WSC_NACK'],
    ['WPS_FAIL'], ['GOT_PSK'], ['scanning'], ['authenticating'],
    ['associating'], ['eapol_start']. *)
Inductive status_t : Type :=
| Unset
| WSC_NACK
| WPS_FAIL
| GOT_PSK
| scanning
| authenticating
| associating
| eapol_start.

Definition status_eqb (a b : status_t) : bool :=
  match a, b with
  | Unset, Unset | WSC_NACK, WSC_NACK | WPS_FAIL, WPS_FAIL
  | GOT_PSK, GOT_PSK | scanning, scanning
  | authenticating, authenticating | associating, associating
  | eapol_start, eapol_start => true
  | _, _ => false
  end.

Record t : Type :=
  mk { status : status_t; last_m_message : Z; essid : string; wpa_psk : string }.

Definition init : t := mk Unset 0 "" "".

Definition isFirstHalfValid (c : t) : bool := 5 <? last_m_message c.

Definition set_status (c : t) (s : status_t) : t :=
  mk s (last_m_message c) (essid c) (wpa_psk c).
Definition set_last_m_message (c : t) (n : Z) : t :=
  mk (status c) n (essid c) (wpa_psk c).
Definition set_essid (c : t) (e : string) : t :=
  mk (status c) (last_m_message c) e (wpa_psk c).
Definition set_wpa_psk (c : t) (p : string) : t :=
  mk (status c) (last_m_message c) (essid c) p.

End ConnectionStatus.

(** ** The trace classifier and one attack session *)

Module Companion.

Import ConnectionStatus.

(** The two objects [__handle_wpas] mutates. *)
Record state : Type :=
  mkst { pixie_creds : PixiewpsData.t; connection_status : ConnectionStatus.t }.

Definition cleared : state := mkst PixiewpsData.init ConnectionStatus.init.

Definition with_cs (st : state) (c : ConnectionStatus.t) : state :=
  mkst (pixie_creds st) c.
Definition with_pc (st : state) (p : PixiewpsData.t) : state :=
  mkst p (connection_status st).

Section Classifier.

(** The interface name of the companion, and the two decoders of the
    standard library the classifier calls on extracted text:
    [codecs.decode(.., 'unicode-escape').encode('latin1').decode('utf-8',
    errors='replace')] for a quoted network name and
    [bytes.fromhex(..).decode('utf-8', errors='replace')] for the network
    key.  [None] stands for an exception raised by the decoder. *)
Variable interface : string.
Variable decode_essid : string -> option string.
Variable decode_psk : string -> option string.

(** ["'".join(line.split("'")[1:-1])]. *)
Definition quoted (line : string) : string :=
  join "'" (removelast (tl (split_char "'" line))).

(** A hexdump branch: the field is assigned first, the length is asserted
    afterwards; a failed assertion is caught by the handler of
    [__handle_wpas], which returns [False] and leaves the field assigned. *)
Definition store_hex (st : state) (setter : PixiewpsData.t -> string -> PixiewpsData.t)
           (line : string) (nbytes : nat) : bool * state :=
  let v := get_hex line in
  (Nat.eqb (String.length v) (nbytes * 2), with_pc st (setter (pixie_creds st) v)).

Definition hexdump_of (tag line : string) : bool :=
  (contains tag line && contains "hexdump" line)%bool.

(** The status/essid update of the two "Trying to ... with" branches. *)
Definition trying (st : state) (s : status_t) (line : string) : bool * state :=
  let st1 := with_cs st (set_status (connection_status st) s) in
  if contains "SSID" line then
    match decode_essid (quoted line) with
    | Some e => (true, with_cs st1 (set_essid (connection_status st1) e))
    | None => (false, st1)
    end
  else (true, st1).

(** The body of [__handle_wpas] for a non-empty line (already stripped of
    its final newlines).  The boolean is the return value; an exception
    inside the [try] gives [False] with the state as it was when raised. *)
Definition handle_line (line : string) (st : state) : bool * state :=
  let cs := connection_status st in
  if startswith "WPS: " line then
    if contains "Building Message M" line then
      match py_int 10 (replace "D" "" (nth 1 (split_sub "Building Message M" line) "")) with
      | Some n => (true, with_cs st (set_last_m_message cs n))
      | None => (false, st)
      end
    else if contains "Received M" line then
      match py_int 10 (nth 1 (split_sub "Received M" line) "") with
      | Some n => (true, with_cs st (set_last_m_message cs n))
      | None => (false, st)
      end
    else if contains "Received WSC_NACK" line then
      (true, with_cs st (set_status cs WSC_NACK))
    else if hexdump_of "Enrollee Nonce" line then
      store_hex st PixiewpsData.set_e_nonce line 16
    else if hexdump_of "DH own Public Key" line then
      store_hex st PixiewpsData.set_pkr line 192
    else if hexdump_of "DH peer Public Key" line then
      store_hex st PixiewpsData.set_pke line 192
    else if hexdump_of "AuthKey" line then
      store_hex st PixiewpsData.set_authkey line 32
    else if hexdump_of "E-Hash1" line then
      store_hex st PixiewpsData.set_e_hash1 line 32
    else if hexdump_of "E-Hash2" line then
      store_hex st PixiewpsData.set_e_hash2 line 32
    else if hexdump_of "Network Key" line then
      let st1 := with_cs st (set_status cs GOT_PSK) in
      match decode_psk (get_hex line) with
      | Some p => (true, with_cs st1 (set_wpa_psk (connection_status st1) p))
      | None => (false, st1)
      end
    else (true, st)
  else if contains ": State: " line then
    if contains "-> SCANNING" line
    then (true, with_cs st (set_status cs scanning))
    else (true, st)
  else if (contains "WPS-FAIL" line && negb (status_eqb (status cs) Unset))%bool then
    (true, with_cs st (set_status cs WPS_FAIL))
  else if contains "Trying to authenticate with" line then
    trying st authenticating line
  else if contains "Authentication response" line then (true, st)
  else if contains "Trying to associate with" line then
    trying st associating line
  else if (contains "Associated with" line && contains interface line)%bool then
    (true, st)
  else if contains "EAPOL: txStart" line then
    (true, with_cs st (set_status cs eapol_start))
  else (true, st).

(** [__handle_wpas]: [readline()] gives [''] at the end of the stream
    ([None] here); otherwise the line is stripped of final newlines and
    classified. *)
Definition __handle_wpas (input : option string) (st : state) : bool * state :=
  match input with
  | None => (false, st)
  | Some "" => (false, st)
  | Some line => handle_line (rstrip_char nl line) st
  end.

Definition terminal (s : status_t) : bool :=
  (status_eqb s WSC_NACK || status_eqb s GOT_PSK || status_eqb s WPS_FAIL)%bool.

(** The [while True] loop of [__wps_connection] over the lines the
    supplicant still prints; the end of the list is the end of the
    stream. *)
Fixpoint pump (trace : list string) (st : state) : state :=
  match trace with
  | [] => snd (__handle_wpas None st)
  | line :: rest =>
      let '(r, st1) := __handle_wpas (Some line) st in
      if negb r then st1
      else if terminal (status (connection_status st1)) then st1
      else pump rest st1
  end.

(** [__wps_connection]: both objects are cleared, the PIN is registered
    over the control socket ([reply] is the answer, [None] when the socket
    raises; the handler of the method catches that), and the trace is
    pumped.  The command texts and [WPS_CANCEL] do not touch the state. *)
Definition __wps_connection (reply : option string) (trace : list string) : state :=
  let st := cleared in
  match reply with
  | None => st
  | Some r =>
      if negb (contains "OK" r)
      then with_cs st (set_status (connection_status st) WPS_FAIL)
      else pump trace st
  end.

End Classifier.

End Companion.

(** ** The two-phase bruteforce *)

Module Bruteforce.

Import ConnectionStatus.

(** How one call of [single_connection(bssid, pin)] ends for the
    bruteforce loops: it returns, leaving the status of the attempt in
    [self.connection_status] (its own handler catches every [Exception]),
    or a [KeyboardInterrupt] is raised inside it, which that handler lets
    through.  The end of the whole program is not an outcome here: the
    handler [main()] installs for SIGINT and SIGTERM calls [sys.exit(0)],
    and the [SystemExit] it raises passes both handlers of
    [smart_bruteforce], so a run ended that way writes no session file.
    What the two phases leave in memory at an interruption is the same
    for both exceptions. *)
Inductive outcome : Type :=
| Finished (cs : ConnectionStatus.t)
| Interrupted.

(** The companion's fields the loops read and write: [bruteforce.mask],
    [connection_status], and the PINs tried so far, oldest first.  The
    attempt counter, the timing statistics and the progress display of
    [BruteforceStatus] never feed back into control and are left out. *)
Record bf : Type :=
  mkbf { mask : string; connection_status : ConnectionStatus.t;
         attempts : list string }.

(** The value a phase returns: a [str] or [False]. *)
Inductive ret : Type :=
| RStr (s : string)
| RFalse.

Definition registerAttempt (st : bf) (m : string) : bf :=
  mkbf m (connection_status st) (attempts st).

Definition int10 (s : string) : res Z :=
  of_option (ValueError "invalid literal for int() with base 10") (py_int 10 s).

(** Sequencing inside a phase: an exception or interruption of [r] ends
    the phase with the fields as they are. *)
Definition and_then {A : Type} (r : res A) (st : bf)
           (k : A -> res ret * bf) : res ret * bf :=
  match r with
  | Ok a => k a
  | Raise e => (Raise e, st)
  | KeyboardInterrupt => (KeyboardInterrupt, st)
  | OutOfFuel => (OutOfFuel, st)
  end.

Section Engine.

(** The environment: the outcome of the attempt made after [n] finished
    attempts, with the PIN submitted. *)
Variable single_connection : nat -> string -> outcome.

(** [__first_half_bruteforce]; one unit of fuel per evaluation of the
    loop condition.  The retry on [WPS_FAIL] is the method calling itself
    with the same [f_half].  Left out of this function and of the next:
    the depth of those nested calls, which the interpreter bounds (the
    limit is 1000 frames and the program does not raise it, so that a
    long enough run of [WPS_FAIL] ends in [RecursionError]); the pause
    [time.sleep(delay)] between candidates, which raises [ValueError] on
    a negative delay, so that the functions are the methods called with
    no delay or with one that is not negative; and [connection_status]
    after an interrupted attempt, which [__wps_connection] has cleared
    and which is kept here as the attempt before left it. *)
Fixpoint __first_half_bruteforce (fuel : nat) (f_half : string) (st : bf)
  : res ret * bf :=
  match fuel with
  | O => (OutOfFuel, st)
  | S fuel' =>
      and_then (int10 f_half) st (fun v =>
      if v <? 10000 then
        and_then (int10 (f_half ++ "000")) st (fun t =>
        and_then (EnhancedWPSpin.checksum t) st (fun c =>
        let pin := f_half ++ "000" ++ py_str c in
        match single_connection (List.length (attempts st)) pin with
        | Interrupted => (KeyboardInterrupt, st)
        | Finished cs =>
            let st1 := mkbf (mask st) cs (attempts st ++ [pin]) in
            if isFirstHalfValid cs then (Ok (RStr f_half), st1)
            else if status_eqb (status cs) WPS_FAIL
            then __first_half_bruteforce fuel' f_half st1
            else
              let f_half := zfill 4 (py_str (v + 1)) in
              __first_half_bruteforce fuel' f_half (registerAttempt st1 f_half)
        end))
      else (Ok RFalse, st))
  end.

(** [__second_half_bruteforce]. *)
Fixpoint __second_half_bruteforce (fuel : nat) (f_half s_half : string) (st : bf)
  : res ret * bf :=
  match fuel with
  | O => (OutOfFuel, st)
  | S fuel' =>
      and_then (int10 s_half) st (fun v =>
      if v <? 1000 then
        and_then (int10 (f_half ++ s_half)) st (fun t =>
        and_then (EnhancedWPSpin.checksum t) st (fun c =>
        let pin := f_half ++ s_half ++ py_str c in
        match single_connection (List.length (attempts st)) pin with
        | Interrupted => (KeyboardInterrupt, st)
        | Finished cs =>
            let st1 := mkbf (mask st) cs (attempts st ++ [pin]) in
            if 6 <? last_m_message cs then (Ok (RStr pin), st1)
            else if status_eqb (status cs) WPS_FAIL
            then __second_half_bruteforce fuel' f_half s_half st1
            else
              let s_half := zfill 3 (py_str (v + 1)) in
              __second_half_bruteforce fuel' f_half s_half
                (registerAttempt st1 (f_half ++ s_half))
        end))
      else (Ok RFalse, st))
  end.

(** [file.readline()]: the text up to and including the first newline. *)
Fixpoint readline (content : string) : string :=
  match content with
  | "" => ""
  | String c r => if Ascii.eqb c nl then String c "" else String c (readline r)
  end.

(** The mask [smart_bruteforce] starts from: [start_pin[:7]] when a start
    PIN of at least 4 characters is given; otherwise the stored session
    of the target when there is one and the operator accepts it
    ([restore]); otherwise ['0000']. *)
Definition initial_mask (start_pin session : option string) (restore : bool) : string :=
  let restored :=
    match session with
    | Some content => if restore then strip (readline content) else "0000"
    | None => "0000"
    end in
  match start_pin with
  | Some p => if (String.length p <? 4)%nat then restored else slice p 0 7
  | None => restored
  end.

(** What a run of [smart_bruteforce] leaves behind: how the phases ended,
    the session file it wrote (if any), and the companion's fields. *)
Record run : Type :=
  mkrun { ended : res ret; saved : option string; final : bf }.

(** The phases of [smart_bruteforce] (the inner [try] up to the
    [raise KeyboardInterrupt]).  Each phase gets the whole fuel. *)
Definition phases (fuel : nat) (m : string) (st : bf) : res ret * bf :=
  if (String.length m =? 4)%nat then
    match __first_half_bruteforce fuel m st with
    | (Ok (RStr f_half), st1) =>
        if (PixiewpsData.truthy f_half &&
            negb (status_eqb (status (connection_status st1)) GOT_PSK))%bool
        then __second_half_bruteforce fuel f_half "001" st1
        else (Ok (RStr f_half), st1)
    | other => other
    end
  else if (String.length m =? 7)%nat then
    __second_half_bruteforce fuel (slice m 0 4) (substring 4 (String.length m - 4) m) st
  else (Ok RFalse, st).

(** [smart_bruteforce]: after the phases the method raises
    [KeyboardInterrupt] itself, so a normal end and a [KeyboardInterrupt]
    raised in an attempt both reach the handler that writes
    [bruteforce.mask] to the session file.  Any other exception is logged
    by the outer handler and nothing is written. *)
Definition smart_bruteforce (fuel : nat) (start_pin session : option string)
           (restore : bool) : run :=
  let m := initial_mask start_pin session restore in
  let st := mkbf m ConnectionStatus.init [] in
  let '(r, st1) := phases fuel m st in
  match r with
  | Ok _ | KeyboardInterrupt => mkrun r (Some (mask st1)) st1
  | _ => mkrun r None st1
  end.

End Engine.

(** The attempt environment given by a simulated control channel: for the
    attempt number and the PIN, the reply to the registration and the
    trace lines that follow, or an interruption. *)
Definition session_of (interface : string)
           (decode_essid decode_psk : string -> option string)
           (channel : nat -> string -> option (option string * list string))
  : nat -> string -> outcome :=
  fun n pin =>
    match channel n pin with
    | None => Interrupted
    | Some (reply, trace) =>
        Finished (Companion.connection_status
                    (Companion.__wps_connection interface decode_essid decode_psk
                                                reply trace))
    end.

End Bruteforce.

(** * More of the program *)

(** ** [EnhancedWPSpin.getAll], [getList] *)

Module PinLists.

Import EnhancedWPSpin.

Definition mode_eqb (a b : mode) : bool :=
  match a, b with
  | ALGO_MAC, ALGO_MAC | ALGO_EMPTY, ALGO_EMPTY | ALGO_STATIC, ALGO_STATIC => true
  | _, _ => false
  end.

Definition is_none (v : pyval) : bool :=
  match v with VNone => true | _ => false end.

(** The em dash of the item names, in UTF-8. *)
Definition em_dash : string :=
  String (ascii_of_nat 226) (String (ascii_of_nat 128) (String (ascii_of_nat 148) "")).

(** The dict one entry of [getAll] is. *)
Record pin_item : Type := mk_item { item_id : string; item_name : string; item_pin : pyval }.

Definition item_name_of (a : algo) : string :=
  if mode_eqb (amode a) ALGO_STATIC
  then "Static PIN " ++ em_dash ++ " " ++ name a
  else name a.

(** The loop of [getAll] over [self.algos.items()], with the list [res]
    built so far.  An [Exception] raised in the loop is logged by the
    handler around it, and [return res] gives what was collected. *)
Fixpoint getAll_loop (items : list (string * algo)) (mac : pyarg)
    (get_static : bool) (res_ : list pin_item) : res (list pin_item) :=
  match items with
  | [] => Ok res_
  | (ID, a) :: r =>
      if (mode_eqb (amode a) ALGO_STATIC && negb get_static)%bool
      then getAll_loop r mac get_static res_
      else
        match generate ID mac with
        | Ok pin =>
            getAll_loop r mac get_static
              (if is_none pin then res_
               else (res_ ++ [mk_item ID (item_name_of a) pin])%list)
        | Raise _ => Ok res_
        | KeyboardInterrupt => KeyboardInterrupt
        | OutOfFuel => OutOfFuel
        end
  end.

Definition getAll (mac : pyarg) (get_static : bool) : res (list pin_item) :=
  getAll_loop algos mac get_static [].

(** The loop of [getList], of the same shape. *)
Fixpoint getList_loop (items : list (string * algo)) (mac : pyarg)
    (get_static : bool) (res_ : list pyval) : res (list pyval) :=
  match items with
  | [] => Ok res_
  | (ID, a) :: r =>
      if (mode_eqb (amode a) ALGO_STATIC && negb get_static)%bool
      then getList_loop r mac get_static res_
      else
        match generate ID mac with
        | Ok pin =>
            getList_loop r mac get_static
              (if is_none pin then res_ else (res_ ++ [pin])%list)
        | Raise _ => Ok res_
        | KeyboardInterrupt => KeyboardInterrupt
        | OutOfFuel => OutOfFuel
        end
  end.

Definition getList (mac : pyarg) (get_static : bool) : res (list pyval) :=
  getList_loop algos mac get_static [].

End PinLists.

(** ** [EnhancedWPSpin._suggest], [getSuggestedList], [getLikely] *)

Module Suggest.

Import EnhancedWPSpin PinLists.

(** The dict [algorithms] of [_suggest]: for each algorithm id, the
    address prefixes it is known for, in the order of the source. *)
Definition algorithms : list (string * list string) :=
  [ ("pin24",
      ["04BF6D"; "0E5D4E"; "107BEF"; "14A9E3"; "28285D"; "2A285D"; "32B2DC";
       "381766"; "404A03"; "4E5D4E"; "5067F0"; "5CF4AB"; "6A285D"; "8E5D4E";
       "AA285D"; "B0B2DC"; "C86C87"; "CC5D4E"; "CE5D4E"; "EA285D"; "E243F6";
       "EC43F6"; "EE43F6"; "F2B2DC"; "FCF528"; "FEF528"; "4C9EFF"; "0014D1";
       "D8EB97"; "1C7EE5"; "84C9B2"; "FC7516"; "14D64D"; "9094E4"; "BCF685";
       "C4A81D"; "00664B"; "087A4C"; "14B968"; "2008ED"; "346BD3"; "4CEDDE";
       "786A89"; "88E3AB"; "D46E5C"; "E8CD2D"; "EC233D"; "ECCB30"; "F49FF3";
       "20CF30"; "90E6BA"; "E0CB4E"; "D4BF7F4"; "F8C091"; "001CDF"; "002275";
       "08863B"; "00B00C"; "081075"; "C83A35"; "0022F7"; "001F1F"; "00265B";
       "68B6CF"; "788DF7"; "BC1401"; "202BC1"; "308730"; "5C4CA9"; "62233D";
       "623CE4"; "623DFF"; "6253D4"; "62559C"; "626BD3"; "627D5E"; "6296BF";
       "62A8E4"; "62B686"; "62C06F"; "62C61F"; "62C714"; "62CBA8"; "62CDBE";
       "62E87B"; "6416F0"; "6A1D67"; "6A233D"; "6A3DFF"; "6A53D4"; "6A559C";
       "6A6BD3"; "6A96BF"; "6A7D5E"; "6AA8E4"; "6AC06F"; "6AC61F"; "6AC714";
       "6ACBA8"; "6ACDBE"; "6AD15E"; "6AD167"; "721D67"; "72233D"; "723CE4";
       "723DFF"; "7253D4"; "72559C"; "726BD3"; "727D5E"; "7296BF"; "72A8E4";
       "72C06F"; "72C61F"; "72C714"; "72CBA8"; "72CDBE"; "72D15E"; "72E87B";
       "0026CE"; "9897D1"; "E04136"; "B246FC"; "E24136"; "00E020"; "5CA39D";
       "D86CE9"; "DC7144"; "801F02"; "E47CF9"; "000CF6"; "00A026"; "A0F3C1";
       "647002"; "B0487A"; "F81A67"; "F8D111"; "34BA9A"; "B4944E"]);
    ("pin28",
      ["200BC7"; "4846FB"; "D46AA8"; "F84ABF"]);
    ("pin32",
      ["000726"; "D8FEE3"; "FC8B97"; "1062EB"; "1C5F2B"; "48EE0C"; "802689";
       "908D78"; "E8CC18"; "2CAB25"; "10BF48"; "14DAE9"; "3085A9"; "50465D";
       "5404A6"; "C86000"; "F46D04"; "3085A9"; "801F02"]);
    ("pinDLink",
      ["14D64D"; "1C7EE5"; "28107B"; "84C9B2"; "A0AB1B"; "B8A386"; "C0A0BB";
       "CCB255"; "FC7516"; "0014D1"; "D8EB97"]);
    ("pinDLink1",
      ["0018E7"; "00195B"; "001CF0"; "001E58"; "002191"; "0022B0"; "002401";
       "00265A"; "14D64D"; "1C7EE5"; "340804"; "5CD998"; "84C9B2"; "B8A386";
       "C8BE19"; "C8D3A3"; "CCB255"; "0014D1"]);
    ("pinASUS",
      ["049226"; "04D9F5"; "08606E"; "0862669"; "107B44"; "10BF48"; "10C37B";
       "14DDA9"; "1C872C"; "1CB72C"; "2C56DC"; "2CFDA1"; "305A3A"; "382C4A";
       "38D547"; "40167E"; "50465D"; "54A050"; "6045CB"; "60A44C"; "704D7B";
       "74D02B"; "7824AF"; "88D7F6"; "9C5C8E"; "AC220B"; "AC9E17"; "B06EBF";
       "BCEE7B"; "C860007"; "D017C2"; "D850E6"; "E03F49"; "F0795978";
       "F832E4"; "00072624"; "0008A1D3"; "00177C"; "001EA6"; "00304FB";
       "00E04C0"; "048D38"; "081077"; "081078"; "081079"; "083E5D";
       "10FEED3C"; "181E78"; "1C4419"; "2420C7"; "247F20"; "2CAB25";
       "3085A98C"; "3C1E04"; "40F201"; "44E9DD"; "48EE0C"; "5464D9";
       "54B80A"; "587BE906"; "60D1AA21"; "64517E"; "64D954"; "6C198F";
       "6C7220"; "6CFDB9"; "78D99FD"; "7C2664"; "803F5DF6"; "84A423";
       "88A6C6"; "8C10D4"; "8C882B00"; "904D4A"; "907282"; "90F65290";
       "94FBB2"; "A01B29"; "A0F3C1E"; "A8F7E00"; "ACA213"; "B85510";
       "B8EE0E"; "BC3400"; "BC9680"; "C891F9"; "D00ED90"; "D084B0"; "D8FEE3";
       "E4BEED"; "E894F6F6"; "EC1A5971"; "EC4C4D"; "F42853"; "F43E61";
       "F46BEF"; "F8AB05"; "FC8B97"; "7062B8"; "78542E"; "C0A0BB8C";
       "C412F5"; "C4A81D"; "E8CC18"; "EC2280"; "F8E903F4"]);
    ("pinAirocon",
      ["0007262F"; "000B2B4A"; "000EF4E7"; "001333B"; "00177C"; "001AEF";
       "00E04BB3"; "02101801"; "0810734"; "08107710"; "1013EE0"; "2CAB25C7";
       "788C54"; "803F5DF6"; "94FBB2"; "BC9680"; "F43E61"; "FC8B97"]);
    ("pinEmpty",
      ["E46F13"; "EC2280"; "58D56E"; "1062EB"; "10BEF5"; "1C5F2B"; "802689";
       "A0AB1B"; "74DADA"; "9CD643"; "68A0F6"; "0C96BF"; "20F3A3"; "ACE215";
       "C8D15E"; "000E8F"; "D42122"; "3C9872"; "788102"; "7894B4"; "D460E3";
       "E06066"; "004A77"; "2C957F"; "64136C"; "74A78E"; "88D274"; "702E22";
       "74B57E"; "789682"; "7C3953"; "8C68C8"; "D476EA"; "344DEA"; "38D82F";
       "54BE53"; "709F2D"; "94A7B7"; "981333"; "CAA366"; "D0608C"]);
    ("pinCisco",
      ["001A2B"; "00248C"; "002618"; "344DEB"; "7071BC"; "E06995"; "E0CB4E";
       "7054F5"]);
    ("pinBrcm1",
      ["ACF1DF"; "BCF685"; "C8D3A3"; "988B5D"; "001AA9"; "14144B"; "EC6264"]);
    ("pinBrcm2",
      ["14D64D"; "1C7EE5"; "28107B"; "84C9B2"; "B8A386"; "BCF685"; "C8BE19"]);
    ("pinBrcm3",
      ["14D64D"; "1C7EE5"; "28107B"; "B8A386"; "BCF685"; "C8BE19"; "7C034C"]);
    ("pinBrcm4",
      ["14D64D"; "1C7EE5"; "28107B"; "84C9B2"; "B8A386"; "BCF685"; "C8BE19";
       "C8D3A3"; "CCB255"; "FC7516"; "204E7F"; "4C17EB"; "18622C"; "7C03D8";
       "D86CE9"]);
    ("pinBrcm5",
      ["14D64D"; "1C7EE5"; "28107B"; "84C9B2"; "B8A386"; "BCF685"; "C8BE19";
       "C8D3A3"; "CCB255"; "FC7516"; "204E7F"; "4C17EB"; "18622C"; "7C03D8";
       "D86CE9"]);
    ("pinBrcm6",
      ["14D64D"; "1C7EE5"; "28107B"; "84C9B2"; "B8A386"; "BCF685"; "C8BE19";
       "C8D3A3"; "CCB255"; "FC7516"; "204E7F"; "4C17EB"; "18622C"; "7C03D8";
       "D86CE9"]);
    ("pinAirc1",
      ["181E78"; "40F201"; "44E9DD"; "D084B0"]);
    ("pinAirc2",
      ["84A423"; "8C10D4"; "88A6C6"]);
    ("pinDSL2740R",
      ["00265A"; "1CBDB9"; "340804"; "5CD998"; "84C9B2"; "FC7516"]);
    ("pinRealtek1",
      ["0014D1"; "000C42"; "000EE8"]);
    ("pinRealtek2",
      ["007263"; "E4BEED"]);
    ("pinRealtek3",
      ["08C6B3"]);
    ("pinUpvel",
      ["784476"; "D4BF7F0"; "F8C091"]);
    ("pinUR814AC",
      ["D4BF7F60"]);
    ("pinUR825AC",
      ["D4BF7F5"]);
    ("pinOnlime",
      ["D4BF7F"; "F8C091"; "144D67"; "784476"; "0014D1"]);
    ("pinEdimax",
      ["801F02"; "00E04C"]);
    ("pinThomson",
      ["002624"; "4432C8"; "88F7C7"; "CC03FA"]);
    ("pinHG532x",
      ["00664B"; "086361"; "087A4C"; "0C96BF"; "14B968"; "2008ED"; "2469A5";
       "346BD3"; "786A89"; "88E3AB"; "9CC172"; "ACE215"; "D07AB5"; "CCA223";
       "E8CD2D"; "F80113"; "F83DFF"]);
    ("pinH108L",
      ["4C09B4"; "4CAC0A"; "84742A4"; "9CD24B"; "B075D5"; "C864C7"; "DC028E";
       "FCC897"]);
    ("pinONO",
      ["5C353B"; "DC537C"]) ].

(** The inner loop of [_suggest]: does some mask start [mac]?  The loop
    [break]s at the first one. *)
Fixpoint any_mask (mac : string) (masks : list string) : bool :=
  match masks with
  | [] => false
  | mask :: r => if startswith mask mac then true else any_mask mac r
  end.

(** The outer loop, over [algorithms.items()]. *)
Fixpoint suggest_loop (mac : string) (table : list (string * list string))
    (res_ : list string) : list string :=
  match table with
  | [] => res_
  | (algo_id, masks) :: r =>
      suggest_loop mac r
        (if any_mask mac masks then (res_ ++ [algo_id])%list else res_)
  end.

(** [_suggest(mac)] for a [str]: nothing in its body raises on one. *)
Definition _suggest (mac : string) : list string :=
  let mac := upper (replace ":" "" mac) in
  suggest_loop mac algorithms [].

(** The loop of [getSuggestedList]. *)
Fixpoint suggested_pins (ids : list string) (mac : string)
    (res_ : list pyval) : res (list pyval) :=
  match ids with
  | [] => Ok res_
  | algo :: r =>
      pin <- generate algo (PStr mac) ;;
      suggested_pins r mac (if is_none pin then res_ else (res_ ++ [pin])%list)
  end.

Definition getSuggestedList (mac : string) : res (list pyval) :=
  try_except (suggested_pins (_suggest mac) mac []) (fun _ => Ok []).

Definition getLikely (mac : string) : res pyval :=
  try_except
    (res_ <- getSuggestedList mac ;;
     match res_ with
     | [] => Ok VNone
     | pin :: _ => Ok pin
     end)
    (fun _ => Ok VNone).

(** Truth value of what [getLikely] may return. *)
Definition val_truthy (v : pyval) : bool :=
  match v with
  | VInt n => negb (n =? 0)
  | VStr s => negb (String.eqb s "")
  | VNone => false
  end.

(** [self.generator.getLikely(bssid) or '12345670'], the PIN
    [single_connection] starts from in pixie mode when no stored PIN is
    used. *)
Definition likely_or_default (bssid : string) : res pyval :=
  pin <- getLikely bssid ;;
  Ok (if val_truthy pin then pin else VStr "12345670").

End Suggest.

(** ** [recvuntil] *)

Module Pipe.

(** The loop of [recvuntil]: [pipe] is what the stream still holds,
    [read(1)] takes its first character and gives [''] at its end; [s] is
    the text received so far. *)
Fixpoint recvuntil_loop (pipe what s : string) : string :=
  match pipe with
  | "" => s
  | String inp rest =>
      let s := s ++ String inp "" in
      if contains what s then s else recvuntil_loop rest what s
  end.

Definition recvuntil (pipe what : string) : string :=
  recvuntil_loop pipe what "".

End Pipe.

(** ** [__runPixiewps]: the PIN in the output of pixiewps *)

Module PixieOutput.

(** [line.split(':')[-1].strip()], with ['<empty>'] turned into two
    quotes. *)
Definition pin_of_line (line : string) : string :=
  let pin := strip (last (split_char ":" line) "") in
  if String.eqb pin "<empty>" then "''" else pin.

(** The loop over the lines of the output: the first line that holds both
    ['[+]'] and ['WPS pin'] gives the PIN. *)
Fixpoint scan (lines : list string) : Bruteforce.ret :=
  match lines with
  | [] => Bruteforce.RFalse
  | line :: r =>
      if (contains "[+]" line && contains "WPS pin" line)%bool
      then Bruteforce.RStr (pin_of_line line)
      else scan r
  end.

(** What [__runPixiewps] returns for the exit status and the output lines
    of the program. *)
Definition __runPixiewps (returncode : Z) (lines : list string) : Bruteforce.ret :=
  if returncode =? 0 then scan lines else Bruteforce.RFalse.

End PixieOutput.

(** ** [EnhancedWiFiScanner.iw_scanner]: the helpers *)

Module Scanner.

(** What a line matched by one of the three security patterns gives the
    handler: [group(1)], and [group(2)] for a capability line. *)
Inductive sec_line : Type :=
| capability (group2 : string)
| RSN
| WPA.

(** [handle_securityType]: the new ['Security type'] of the last
    network. *)
Definition handle_securityType (sec : string) (result : sec_line) : string :=
  match result with
  | capability g2 => if contains "Privacy" g2 then "WEP" else "Open"
  | _ =>
      if String.eqb sec "WEP" then
        match result with
        | RSN => "WPA2"
        | WPA => "WPA"
        | _ => sec
        end
      else if String.eqb sec "WPA" then
        match result with
        | RSN => "WPA/WPA2"
        | _ => sec
        end
      else if String.eqb sec "WPA2" then
        match result with
        | WPA => "WPA/WPA2"
        | _ => sec
        end
      else sec
  end.

(** [s[:k]] for any integer [k]: a negative [k] counts from the end. *)
Definition slice_to (s : string) (k : Z) : string :=
  if k <? 0 then substring 0 (Z.to_nat (Z.of_nat (String.length s) + k)) s
  else substring 0 (Z.to_nat k) s.

(** [truncateStr(s, length, postfix)]. *)
Definition truncateStr (s : string) (length : nat) (postfix : string) : string :=
  if (length <? String.length s)%nat then
    let k := Z.of_nat length - Z.of_nat (String.length postfix) in
    slice_to s k ++ postfix
  else s.

End Scanner.

(** ** [BruteforceStatus]: the attempt counter *)

Module BruteforceStatus.

(** The mask, the counter, and the masks [display_status] was called
    with, oldest first.  The times are left out. *)
Record t : Type :=
  mk { mask : string; counter : Z; displayed : list string }.

Definition statistics_period : Z := 5.

Definition init : t := mk "" 0 [].

Definition registerAttempt (b : t) (m : string) : t :=
  let c := counter b + 1 in
  if c =? statistics_period
  then mk m 0 (displayed b ++ [m])
  else mk m c (displayed b).

End BruteforceStatus.

(** * Definitions used by the properties *)

(** Case analysis over the 256 characters. *)
Ltac each_char c :=
  destruct c as [[] [] [] [] [] [] [] []].

(** Strings made of digits below the base, and their value. *)
Fixpoint is_lit (base : Z) (s : string) : bool :=
  match s with
  | "" => true
  | String c r =>
      match digit_val c with
      | Some d => (d <? base) && is_lit base r
      | None => false
      end
  end.

Fixpoint lit_value (base acc : Z) (s : string) : Z :=
  match s with
  | "" => acc
  | String c r =>
      lit_value base (acc * base + match digit_val c with Some d => d | None => 0 end) r
  end.

(** [c in s] for one character. *)
Fixpoint has (c : ascii) (s : string) : bool :=
  match s with
  | "" => false
  | String a r => (Ascii.eqb a c || has c r)%bool
  end.

(** The specification's wording of the checksum: over the digit pairs of
    [p], three times the units digit plus the tens digit. *)
Fixpoint wps_accum (pairs : nat) (p : Z) : Z :=
  match pairs with
  | O => 0
  | S k => 3 * (p mod 10) + (p / 10) mod 10 + wps_accum k (p / 100)
  end.

Definition wps_checksum (p : Z) : Z := (10 - wps_accum 7 p mod 10) mod 10.

Import Bruteforce ConnectionStatus.

(** The zero-padded decimal text of a candidate number. *)
Definition cand (width : nat) (k : Z) : string := zfill width (py_str k).

(** The PIN phase 1 submits for first half [k]. *)
Definition pin1 (k : Z) : string :=
  cand 4 k ++ "000" ++ py_str (wps_checksum (k * 1000)).

(** The PIN phase 2 submits for first half [k] and second half [s]. *)
Definition pin2 (k s : Z) : string :=
  cand 4 k ++ cand 3 s ++ py_str (wps_checksum (k * 1000 + s)).

(** The candidate numbers [k, k+1, .., k+n-1]. *)
Definition upto (k : Z) (n : nat) : list Z :=
  map (fun i => k + Z.of_nat i) (seq 0 n).

(** What [__first_half_bruteforce] does with the outcome of the attempt on
    candidate [k]. *)
Definition first_half_after (sc : nat -> string -> outcome) (fuel : nat) (k : Z) (st : bf) (o : outcome)
  : res ret * bf :=
  match o with
  | Interrupted => (KeyboardInterrupt, st)
  | Finished cs =>
      let st1 := mkbf (mask st) cs (attempts st ++ [pin1 k]) in
      if isFirstHalfValid cs then (Ok (RStr (cand 4 k)), st1)
      else if status_eqb (status cs) WPS_FAIL
      then __first_half_bruteforce sc fuel (cand 4 k) st1
      else __first_half_bruteforce sc fuel (cand 4 (k + 1))
             (registerAttempt st1 (cand 4 (k + 1)))
  end.

(** The same for [__second_half_bruteforce], first half [k], candidate [s]. *)
Definition second_half_after (sc : nat -> string -> outcome) (fuel : nat) (k s : Z) (st : bf) (o : outcome)
  : res ret * bf :=
  match o with
  | Interrupted => (KeyboardInterrupt, st)
  | Finished cs =>
      let st1 := mkbf (mask st) cs (attempts st ++ [pin2 k s]) in
      if 6 <? last_m_message cs then (Ok (RStr (pin2 k s)), st1)
      else if status_eqb (status cs) WPS_FAIL
      then __second_half_bruteforce sc fuel (cand 4 k) (cand 3 s) st1
      else __second_half_bruteforce sc fuel (cand 4 k) (cand 3 (s + 1))
             (registerAttempt st1 (cand 4 k ++ cand 3 (s + 1)))
  end.

(** The companion's fields when [smart_bruteforce] starts from mask [m]. *)
Definition st_init (m : string) : bf := mkbf m ConnectionStatus.init [].


(** ** Simulated control channels *)

Module Simulated.

Definition iface : string := "wlan0".

(** Stand-ins for the two decoders: they hand the text back unchanged, so
    that [essid] and [wpa_psk] of a simulated session hold the text as
    extracted, not decoded.  Neither field is read by the bruteforce. *)
Definition plain (s : string) : option string := Some s.

Definition nack_trace : list string :=
  ["WPS: Building Message M4"; "WPS: Received WSC_NACK"].

Definition first_half_trace : list string :=
  ["WPS: Building Message M4"; "WPS: Received M5";
   "WPS: Building Message M6"; "WPS: Received WSC_NACK"].

Definition success_trace : list string :=
  ["WPS: Building Message M4"; "WPS: Received M5"; "WPS: Building Message M6";
   "WPS: Received M7"; "WPS: Building Message M8"].

Definition psk_only_trace : list string :=
  ["WPS: Network Key - hexdump(len=8): 31 32 33 34 35 36 37 38"].

Definition session (channel : nat -> string -> option (option string * list string))
  : nat -> string -> outcome :=
  session_of iface plain plain channel.

(** The access point accepts the first half 1234 and no other. *)
Definition channel_1234 (n : nat) (pin : string) : option (option string * list string) :=
  Some (Some "OK",
        if String.eqb (substring 0 4 pin) "1234" then first_half_trace else nack_trace).

(** Three rejected attempts, then the fourth is interrupted. *)
Definition channel_interrupt_at_3 (n : nat) (pin : string)
  : option (option string * list string) :=
  if (n <? 3)%nat then Some (Some "OK", nack_trace) else None.




(** The first attempt shows only the network key; later ones succeed. *)
Definition channel_psk_first (n : nat) (pin : string)
  : option (option string * list string) :=
  if (n =? 0)%nat then Some (Some "OK", psk_only_trace)
  else Some (Some "OK", success_trace).

End Simulated.

(** The specification's wording of completeness: every field holds the
    hex text of exactly its mandated number of bytes. *)
Definition decodes_to (nbytes : nat) (s : string) : bool :=
  ((String.length s =? 2 * nbytes)%nat &&
   forallb NetworkAddress.is_hex_char (list_ascii_of_string s))%bool.

Definition complete_and_sized (d : PixiewpsData.t) : bool :=
  (decodes_to 16 (PixiewpsData.e_nonce d) &&
   decodes_to 192 (PixiewpsData.pke d) &&
   decodes_to 192 (PixiewpsData.pkr d) &&
   decodes_to 32 (PixiewpsData.authkey d) &&
   decodes_to 32 (PixiewpsData.e_hash1 d) &&
   decodes_to 32 (PixiewpsData.e_hash2 d))%bool.

(** A hexdump payload of [n] bytes. *)
Fixpoint hexdump (n : nat) : string :=
  match n with
  | O => ""
  | S k => " 5e" ++ hexdump k
  end.

(** The hex text [get_hex] makes of [hexdump n]. *)
Fixpoint hex_text (n : nat) : string :=
  match n with
  | O => ""
  | S k => "5E" ++ hex_text k
  end.

(** Five hexdump lines, each of the size its branch asserts. *)
Definition sized_lines : list string :=
  [ "WPS: Enrollee Nonce - hexdump(len=16):" ++ hexdump 16;
    "WPS: DH own Public Key - hexdump(len=192):" ++ hexdump 192;
    "WPS: DH peer Public Key - hexdump(len=192):" ++ hexdump 192;
    "WPS: AuthKey - hexdump(len=32):" ++ hexdump 32;
    "WPS: E-Hash1 - hexdump(len=32):" ++ hexdump 32 ].

(** The fields after [sized_lines]. *)
Definition sized_fields : PixiewpsData.t :=
  PixiewpsData.mk (hex_text 192) (hex_text 192) (hex_text 32) "" (hex_text 32)
                  (hex_text 16).

(** The line of the sixth field, with a payload of [k] bytes. *)
Definition hash2_line (k : nat) : string :=
  "WPS: E-Hash2 - hexdump(len=32):" ++ hexdump k.

(** The five lines, then the sixth field with [k] bytes. *)
Definition hash_trace (k : nat) : list string :=
  (sized_lines ++ [hash2_line k])%list.

(** A trace whose last hexdump is two bytes long instead of 32. *)
Definition short_hash_trace : list string := hash_trace 2.

(** A line of the supplicant on WPS message [n]: received from the access
    point, or built for it. *)
Definition message_line (received : bool) (n : Z) : string :=
  if received then "WPS: Received M" ++ py_str n
  else "WPS: Building Message M" ++ py_str n.

Definition nack_line : string := "WPS: Received WSC_NACK".

(** The lines of the messages [ms], in order, then the NACK of the access
    point. *)
Definition messages_then_nack (ms : list (bool * Z)) : list string :=
  (map (fun m => message_line (fst m) (snd m)) ms ++ [nack_line])%list.

(** ** Definitions used by the further properties *)

(** The [w] low digits of [n] in the given base, most significant first:
    what [zfill(w)] makes of the digits of a number below [base ^ w]. *)
Fixpoint fixed_digits (w : nat) (base n : Z) : string :=
  match w with
  | O => ""
  | S k => fixed_digits k base (n / base) ++ String (digit_char (n mod base)) ""
  end.

(** The last step of [_int2mac]: the first twelve characters in pairs,
    joined by colons. *)
Definition colon_form (digits12 : string) : string :=
  join ":" (map (fun i => slice digits12 i (i + 2)) [0; 2; 4; 6; 8; 10]%nat).

(** ** Proof steps of the further properties *)

(** Rewrite with the equations of the context, as long as one applies. *)
Ltac use_facts :=
  repeat match goal with
         | E : ?l = _ |- context [?l] => rewrite E
         end.

(** Decompose [H : is_lit _ s = true] on an explicit string [s] into
    facts on its characters; [cons] inverts [is_lit] on one character and
    [facts] gives what is known of a digit. *)
Ltac lit_chars cons facts H :=
  repeat match type of H with
         | is_lit _ (String ?c _) = true =>
             let d := fresh "d" in let Hd := fresh "Hd" in
             let Hlt := fresh "Hlt" in let F := fresh "F" in
             apply cons in H; destruct H as (d & Hd & Hlt & H);
             pose proof (facts c d Hd Hlt) as F;
             destruct F as (? & ? & ? & ? & ?)
         end.

(** One character of a text known by its upper-case form [E]: a hex
    digit, by [Ha]. *)
Ltac hex_char cons_inv hex_lit E Ha :=
  let c := fresh "c" in let d := fresh "d" in
  let Hd := fresh "Hd" in let Hlt := fresh "Hlt" in
  apply cons_inv in E as (c & ? & -> & <- & E);
  apply hex_lit in Ha as (d & Hd & Hlt).

(** The same for a delimiter, in a text [Hd] says holds no dash. *)
Ltac sep_char cons_inv sep E Hs Hd :=
  let c := fresh "c" in
  apply cons_inv in E as (c & ? & -> & <- & E);
  cbn [has] in Hd;
  apply orb_false_iff in Hd as [_ Hd];
  apply orb_false_iff in Hd as [_ Hd];
  let Hc := fresh "Hc" in
  apply orb_false_iff in Hd as [Hc Hd];
  (destruct Hs as [Hs|Hs]; apply sep in Hs; subst c;
   [clear Hc|discriminate Hc]).

(** One round [M] of the address pattern on such a text. *)
Ltac octet step cons_inv hex_lit sep M E Hd :=
  let a := fresh "a" in let b := fresh "b" in let d := fresh "d" in
  let u := fresh "u" in let E' := fresh "E" in
  let Ha := fresh "Ha" in let Hb := fresh "Hb" in let Hs := fresh "Hs" in
  apply step in M as (a & b & d & u & E' & Ha & Hb & Hs & M);
  rewrite E' in E; clear E';
  hex_char cons_inv hex_lit E Ha; hex_char cons_inv hex_lit E Hb;
  sep_char cons_inv sep E Hs Hd.

(** ** What the lists of PINs and of suggestions hold *)

Module Shapes.

Import EnhancedWPSpin PinLists Suggest.

(** A PIN text: empty, or eight decimal digits. *)
Definition pin_shaped (v : pyval) : Prop :=
  exists s, v = VStr s /\
    (s = "" \/ (String.length s = 8%nat /\ is_lit 10 s = true)).

(** The entries the loops do not skip. *)
Definition kept (get_static : bool) (items : list (string * algo)) :
    list (string * algo) :=
  filter (fun e => negb (mode_eqb (amode (snd e)) ALGO_STATIC && negb get_static))
         items.

(** The ids a table gives for [mac]. *)
Definition matching (mac : string) (table : list (string * list string)) :
    list string :=
  map fst (filter (fun e => any_mask mac (snd e)) table).

End Shapes.

(** ** The hexdump fields of a session *)

Module Handshake.

(** A field as [__handle_wpas] leaves it when the line was accepted:
    still empty, or the hex text of [nbytes] bytes. *)
Definition field_sized (nbytes : nat) (s : string) : bool :=
  (String.eqb s "" || Nat.eqb (String.length s) (nbytes * 2))%bool.

Definition sized (d : PixiewpsData.t) : bool :=
  (field_sized 16 (PixiewpsData.e_nonce d) &&
   field_sized 192 (PixiewpsData.pkr d) &&
   field_sized 192 (PixiewpsData.pke d) &&
   field_sized 32 (PixiewpsData.authkey d) &&
   field_sized 32 (PixiewpsData.e_hash1 d) &&
   field_sized 32 (PixiewpsData.e_hash2 d))%bool.

End Handshake.

(** Walk the branches of [handle_line] along an equation [E : r = ..]. *)
Ltac walk E :=
  unfold Companion.handle_line, Companion.store_hex, Companion.trying,
    Companion.hexdump_of in E;
  cbv zeta in E;
  repeat match type of E with
         | _ = (if ?b then _ else _) => destruct b eqn:?
         | _ = match ?x with Some _ => _ | None => _ end => destruct x eqn:?
         end.

(** A well-formed WPS PIN: eight decimal digits, the last one the
    checksum of the number the first seven spell. *)
Definition valid_pin (pin : string) : bool :=
  (Nat.eqb (String.length pin) 8 && is_lit 10 pin &&
   (wps_checksum (lit_value 10 0 pin / 10) =? lit_value 10 0 pin mod 10))%bool.

(** The PINs of a list of attempts are all well formed. *)
Definition all_valid (pins : list string) : Prop :=
  Forall (fun p => valid_pin p = true) pins.

Module SimulatedMore.

(** The access point rejects every PIN. *)
Definition channel_always_nack (n : nat) (pin : string)
  : option (option string * list string) :=
  Some (Some "OK", Simulated.nack_trace).

End SimulatedMore.

(** * Properties *)

(** ** The primitives on sample inputs *)

Example py_int_examples :
  py_int 16 "0a1B" = Some 2587 /\ py_int 16 "0x" = None /\
  py_int 16 "0x_ff" = Some 255 /\ py_int 16 "f__f" = None /\
  py_int 16 "ff_" = None /\ py_int 16 " -fF " = Some (-255) /\
  py_int 10 "0012" = Some 12 /\ py_int 10 "1a" = None /\
  py_int 16 "00-11" = None.
Proof. repeat split; reflexivity. Qed.

Example py_int_blanks :
  py_int 10 (String (ascii_of_nat 9) " 12 " ++ String nl "") = Some 12 /\
  py_int 10 (String (ascii_of_nat 28) "12") = None /\
  py_int 10 ("12" ++ String (ascii_of_nat 31) "") = None /\
  strip (String (ascii_of_nat 28) "12") = "12".
Proof. repeat split; reflexivity. Qed.

Example py_str_examples :
  py_str 0 = "0" /\ py_str 1234567 = "1234567" /\ py_str (-42) = "-42" /\
  py_hex 255 = "0xff" /\ py_hex (-255) = "-0xff" /\
  zfill 4 "12" = "0012" /\ zfill 4 "-12" = "-012" /\ zfill 2 "123" = "123".
Proof. repeat split; reflexivity. Qed.

Example split_examples :
  split_sub "Received M" "WPS: Received M5" = ["WPS: "; "5"] /\
  split_char ":" "a:b::c" = ["a"; "b"; ""; "c"] /\
  split_char_max ":" 3 "a: b:c d:e:f" = ["a"; " b"; "c d"; "e:f"] /\
  strip "  ab c  " = "ab c" /\ upper "a1:fz" = "A1:FZ".
Proof. repeat split; reflexivity. Qed.

Example int2mac_examples :
  NetworkAddress._int2mac 0x0014D1ABCDEF = "00:14:D1:AB:CD:EF" /\
  NetworkAddress._int2mac 255 = "00:00:00:00:00:FF" /\
  NetworkAddress.__init__ (PStr "00:14:d1:ab:cd:ef")
    = Ok (NetworkAddress.mk "00:14:D1:AB:CD:EF" 0x0014D1ABCDEF).
Proof. repeat split; reflexivity. Qed.

Lemma status_eqb_eq (a b : ConnectionStatus.status_t) :
  ConnectionStatus.status_eqb a b = true <-> a = b.
Proof. destruct a, b; simpl; split; intro H; congruence. Qed.

Example generate_examples :
  EnhancedWPSpin.generate "pinCisco" (PStr "00:11:22:33:44:55") = Ok (VStr "12345670") /\
  EnhancedWPSpin.generate "pinUR825AC" (PInt 0) = Ok (VStr "05294176") /\
  EnhancedWPSpin.generate "pin24" (PStr "00:14:D1:AB:CD:EF") = Ok (VStr "12593750") /\
  EnhancedWPSpin.generate "pinASUS" (PStr "04:92:26:AB:CD:EF") = Ok (VStr "01424232") /\
  EnhancedWPSpin.generate "pinEmpty" (PInt 5) = Ok (VStr "").
Proof. repeat split; vm_compute; reflexivity. Qed.

(** ** Facts about the string primitives *)

Module PyStrFacts.

Lemma digit_val_upper_char (c : ascii) : digit_val (upper_char c) = digit_val c.
Proof. each_char c; reflexivity. Qed.

Lemma digit_val_special (c : ascii) (d : Z) :
  digit_val c = Some d -> d < 16 ->
  is_space c = false /\ c <> "-"%char /\ c <> "+"%char /\ c <> "_"%char /\
  c <> "x"%char /\ c <> "X"%char /\ c <> ":"%char.
Proof.
  intros Hv Hd.
  each_char c; vm_compute in Hv; try discriminate Hv;
    injection Hv as <-; try (exfalso; lia);
    repeat split; try reflexivity; discriminate.
Qed.

Lemma digit_val_digit_char (d : Z) :
  0 <= d < 16 -> digit_val (digit_char d) = Some d.
Proof.
  intros H.
  assert (E : d = 0 \/ d = 1 \/ d = 2 \/ d = 3 \/ d = 4 \/ d = 5 \/ d = 6 \/ d = 7 \/
              d = 8 \/ d = 9 \/ d = 10 \/ d = 11 \/ d = 12 \/ d = 13 \/ d = 14 \/ d = 15)
    by lia.
  repeat (destruct E as [-> | E]; [reflexivity|]); subst; reflexivity.
Qed.

Lemma is_lit_cons base c r :
  is_lit base (String c r) = true ->
  exists d, digit_val c = Some d /\ d < base /\ is_lit base r = true.
Proof.
  simpl. destruct (digit_val c) as [d|]; [|discriminate].
  rewrite andb_true_iff, Z.ltb_lt. intros [H1 H2]. eauto.
Qed.

Lemma is_lit_app base a b :
  is_lit base (a ++ b) = (is_lit base a && is_lit base b)%bool.
Proof.
  induction a as [|c a IH]; simpl; [reflexivity|].
  destruct (digit_val c); [|reflexivity].
  rewrite IH, andb_assoc. reflexivity.
Qed.

Lemma lit_value_app base acc a b :
  lit_value base acc (a ++ b) = lit_value base (lit_value base acc a) b.
Proof. revert acc; induction a as [|c a IH]; intros acc; simpl; [reflexivity|apply IH]. Qed.

Lemma lit_value_shift base acc s :
  lit_value base acc s
  = acc * base ^ Z.of_nat (String.length s) + lit_value base 0 s.
Proof.
  revert acc; induction s as [|c s IH]; intros acc.
  - simpl. lia.
  - cbn [lit_value String.length]. rewrite IH.
    rewrite (IH (0 * base + _)).
    rewrite Nat2Z.inj_succ, Z.pow_succ_r by lia. ring.
Qed.

Lemma str_length_app (a b : string) :
  String.length (a ++ b) = (String.length a + String.length b)%nat.
Proof. induction a as [|c a IH]; simpl; [reflexivity|now rewrite IH]. Qed.

Lemma upper_length s : String.length (upper s) = String.length s.
Proof. induction s as [|c s IH]; simpl; [reflexivity|now rewrite IH]. Qed.

Lemma is_lit_upper base s : is_lit base (upper s) = is_lit base s.
Proof.
  induction s as [|c s IH]; simpl; [reflexivity|].
  rewrite digit_val_upper_char, IH. reflexivity.
Qed.

Lemma lit_value_upper base acc s : lit_value base acc (upper s) = lit_value base acc s.
Proof.
  revert acc; induction s as [|c s IH]; intros acc; simpl; [reflexivity|].
  rewrite digit_val_upper_char. apply IH.
Qed.



Lemma int_space_is_space c : is_space c = false -> is_int_space c = false.
Proof. each_char c; intros H; try reflexivity; discriminate H. Qed.

Lemma int_rstrip_lit base s : base <= 16 -> is_lit base s = true -> int_rstrip s = s.
Proof.
  intros Hb. induction s as [|c s IH]; intros H; [reflexivity|].
  destruct (is_lit_cons _ _ _ H) as (d & Hd & Hlt & Hr).
  simpl. rewrite (IH Hr).
  destruct (digit_val_special c d Hd ltac:(lia)) as (Hsp & _).
  apply int_space_is_space in Hsp.
  destruct s; [rewrite Hsp|]; reflexivity.
Qed.

Lemma int_strip_lit base s : base <= 16 -> is_lit base s = true -> int_strip s = s.
Proof.
  intros Hb H. unfold int_strip.
  assert (E : int_lstrip s = s).
  { destruct s as [|c s]; [reflexivity|].
    destruct (is_lit_cons _ _ _ H) as (d & Hd & Hlt & Hr).
    destruct (digit_val_special c d Hd ltac:(lia)) as (Hsp & _).
    apply int_space_is_space in Hsp.
    simpl. now rewrite Hsp. }
  rewrite E. eapply int_rstrip_lit; eauto.
Qed.

Lemma split_sign_other c r :
  c <> "-"%char -> c <> "+"%char -> split_sign (String c r) = (false, String c r).
Proof.
  intros H1 H2. each_char c; try reflexivity; congruence.
Qed.

Lemma split_prefix_other base c1 c2 r :
  c2 <> "x"%char -> c2 <> "X"%char ->
  split_prefix base (String c1 (String c2 r)) = (false, String c1 (String c2 r)).
Proof.
  intros H1 H2. unfold split_prefix. destruct (base =? 16); [|reflexivity].
  each_char c1; try reflexivity; each_char c2; try reflexivity; congruence.
Qed.

Lemma split_prefix_single base c :
  split_prefix base (String c "") = (false, String c "").
Proof.
  unfold split_prefix. destruct (base =? 16); [|reflexivity].
  each_char c; reflexivity.
Qed.

Lemma int_digits_lit base s : forall acc u e,
  base <= 16 -> is_lit base s = true ->
  int_digits base acc u e s
  = match s with
    | "" => if e then Some acc else None
    | _ => Some (lit_value base acc s)
    end.
Proof.
  induction s as [|c s IH]; intros acc u e Hb H; [reflexivity|].
  destruct (is_lit_cons _ _ _ H) as (d & Hd & Hlt & Hr).
  destruct (digit_val_special c d Hd ltac:(lia)) as (_ & _ & _ & Hus & _).
  cbn [int_digits lit_value].
  destruct (Ascii.eqb_spec c "_"); [contradiction|].
  rewrite Hd. apply Z.ltb_lt in Hlt. rewrite Hlt.
  rewrite (IH _ true true Hb Hr). destruct s; reflexivity.
Qed.

Lemma py_int_lit base s :
  base <= 16 -> is_lit base s = true -> s <> "" ->
  py_int base s = Some (lit_value base 0 s).
Proof.
  intros Hb H Hne. unfold py_int. rewrite (int_strip_lit base s Hb H).
  destruct s as [|c s]; [congruence|].
  destruct (is_lit_cons _ _ _ H) as (d & Hd & Hlt & Hr).
  destruct (digit_val_special c d Hd ltac:(lia)) as (_ & Hm & Hp & _).
  rewrite split_sign_other by assumption.
  assert (E : split_prefix base (String c s) = (false, String c s)).
  { destruct s as [|c2 s]; [apply split_prefix_single|].
    destruct (is_lit_cons _ _ _ Hr) as (d2 & Hd2 & Hlt2 & _).
    destruct (digit_val_special c2 d2 Hd2 ltac:(lia)) as (_ & _ & _ & _ & Hx & HX & _).
    now apply split_prefix_other. }
  rewrite E. rewrite (int_digits_lit base _ 0 false false Hb H). reflexivity.
Qed.

(** [digits]: every iteration emits one digit, the fuel is enough, and the
    digits read back as the number. *)
Section Digits.

Variable base : Z.
Hypothesis base_lo : 2 <= base.
Hypothesis base_hi : base <= 16.

Lemma digit_step_lit n : 0 <= n ->
  exists d, digit_val (digit_char (n mod base)) = Some d /\ d = n mod base /\ d < base.
Proof.
  intros Hn. pose proof (Z.mod_pos_bound n base ltac:(lia)) as Hm.
  exists (n mod base). split; [apply digit_val_digit_char; lia|lia].
Qed.

Lemma digits_loop_lit fuel : forall n acc,
  0 <= n -> is_lit base acc = true ->
  is_lit base (digits_loop fuel base n acc) = true.
Proof.
  induction fuel as [|f IH]; intros n acc Hn Hacc; [exact Hacc|].
  cbn [digits_loop].
  assert (Hacc' : is_lit base (String (digit_char (n mod base)) acc) = true).
  { destruct (digit_step_lit n Hn) as (d & Hd & _ & Hlt).
    simpl. rewrite Hd, Hacc. apply Z.ltb_lt in Hlt. now rewrite Hlt. }
  destruct (n / base =? 0); [exact Hacc'|].
  apply IH; [apply Z.div_pos; lia|exact Hacc'].
Qed.

Lemma digits_loop_nonempty fuel n acc : digits_loop (S fuel) base n acc <> "".
Proof.
  revert n acc. induction fuel as [|f IH]; intros n acc.
  - cbn. destruct (n / base =? 0); discriminate.
  - cbn [digits_loop]. destruct (n / base =? 0); [discriminate|].
    apply IH.
Qed.

Lemma half_bound n f : 0 <= n < 2 ^ Z.of_nat (S f) -> 0 <= n / base < 2 ^ Z.of_nat f.
Proof.
  intros [H0 H1]. rewrite Nat2Z.inj_succ, Z.pow_succ_r in H1 by lia.
  split; [apply Z.div_pos; lia|].
  apply Z.div_lt_upper_bound; [lia|].
  assert (0 < 2 ^ Z.of_nat f) by (apply Z.pow_pos_nonneg; lia). nia.
Qed.

Lemma digits_loop_value fuel : forall n acc,
  0 <= n < 2 ^ Z.of_nat (S fuel) ->
  lit_value base 0 (digits_loop (S fuel) base n acc)
  = n * base ^ Z.of_nat (String.length acc) + lit_value base 0 acc.
Proof.
  induction fuel as [|f IH]; intros n acc Hn.
  - assert (E : n / base = 0) by (apply Z.div_small; simpl in Hn; lia).
    cbn [digits_loop]. rewrite E. cbn [Z.eqb lit_value].
    rewrite lit_value_shift.
    destruct (digit_step_lit n (proj1 Hn)) as (d & Hd & -> & _). rewrite Hd.
    rewrite Z.mod_small by (simpl in Hn; lia). ring.
  - remember (S f) as f1. cbn [digits_loop].
    destruct (digit_step_lit n (proj1 Hn)) as (d & Hd & Hdv & _).
    destruct (Z.eqb_spec (n / base) 0) as [E|E].
    + cbn [lit_value]. rewrite lit_value_shift, Hd, Hdv.
      rewrite (Z.div_mod n base) at 2 by lia. rewrite E. ring.
    + subst f1. rewrite IH by (apply half_bound; exact Hn).
      cbn [String.length lit_value]. rewrite (lit_value_shift base (0 * base + _)).
      rewrite Hd, Hdv, Nat2Z.inj_succ, Z.pow_succ_r by lia.
      rewrite (Z.div_mod n base) at 3 by lia. ring.
Qed.

Lemma digits_loop_length fuel : forall n acc k,
  0 <= n < 2 ^ Z.of_nat (S fuel) ->
  base ^ Z.of_nat k <= n < base ^ Z.of_nat (S k) ->
  String.length (digits_loop (S fuel) base n acc) = (S k + String.length acc)%nat.
Proof.
  induction fuel as [|f IH]; intros n acc k Hn Hk.
  - assert (E : n / base = 0) by (apply Z.div_small; simpl in Hn; lia).
    cbn [digits_loop]. rewrite E. cbn [Z.eqb String.length].
    destruct k as [|k]; [reflexivity|].
    exfalso. rewrite Nat2Z.inj_succ, Z.pow_succ_r in Hk by lia.
    assert (0 < base ^ Z.of_nat k) by (apply Z.pow_pos_nonneg; lia).
    simpl in Hn. nia.
  - remember (S f) as f1. cbn [digits_loop].
    destruct (Z.eqb_spec (n / base) 0) as [E|E].
    + cbn [String.length]. destruct k as [|k]; [reflexivity|].
      exfalso. rewrite Nat2Z.inj_succ, Z.pow_succ_r in Hk by lia.
      assert (0 < base ^ Z.of_nat k) by (apply Z.pow_pos_nonneg; lia).
      assert (n < base) by (apply Z.div_small_iff in E; lia). nia.
    + subst f1. destruct k as [|k].
      * exfalso. apply E. apply Z.div_small. simpl in Hk. lia.
      * rewrite (IH _ _ k); [cbn [String.length]; lia|apply half_bound; exact Hn|].
        rewrite !Nat2Z.inj_succ, !Z.pow_succ_r in * by lia.
        assert (0 < base ^ Z.of_nat k) by (apply Z.pow_pos_nonneg; lia).
        split; [apply Z.div_le_lower_bound; lia|apply Z.div_lt_upper_bound; lia].
Qed.

Lemma digits_fuel_enough n :
  0 <= n -> 0 <= n < 2 ^ Z.of_nat (S (Z.to_nat (Z.log2 n))).
Proof.
  intros Hn. split; [exact Hn|].
  rewrite Nat2Z.inj_succ, Z2Nat.id by apply Z.log2_nonneg.
  destruct (Z.eq_dec n 0) as [->|Hz]; [reflexivity|].
  apply Z.log2_spec. lia.
Qed.

Lemma digits_lit n : 0 <= n -> is_lit base (digits base n) = true.
Proof. intros Hn. apply digits_loop_lit; [exact Hn|reflexivity]. Qed.

Lemma digits_nonempty n : digits base n <> "".
Proof. apply digits_loop_nonempty. Qed.

Lemma digits_value n : 0 <= n -> lit_value base 0 (digits base n) = n.
Proof.
  intros Hn. unfold digits.
  rewrite digits_loop_value by (apply digits_fuel_enough; exact Hn).
  simpl. lia.
Qed.

Lemma digits_length n k :
  base ^ Z.of_nat k <= n < base ^ Z.of_nat (S k) ->
  String.length (digits base n) = S k.
Proof.
  intros Hk.
  assert (0 < base ^ Z.of_nat k) by (apply Z.pow_pos_nonneg; lia).
  unfold digits. rewrite (digits_loop_length _ _ _ k);
    [simpl; lia|apply digits_fuel_enough; lia|exact Hk].
Qed.

Lemma digits_small n : 0 <= n < base -> digits base n = String (digit_char n) "".
Proof.
  intros Hn. unfold digits. cbn [digits_loop].
  rewrite Z.div_small, Z.mod_small by lia. reflexivity.
Qed.

End Digits.

(** [zfill] on digit strings. *)
Lemma zeros_lit base n : 0 < base -> is_lit base (zeros n) = true.
Proof.
  intros Hb. induction n as [|n IH]; [reflexivity|].
  simpl. change (digit_val "0") with (Some 0). rewrite IH.
  apply Z.ltb_lt in Hb. now rewrite Hb.
Qed.

Lemma zeros_value base acc n : lit_value base acc (zeros n) = acc * base ^ Z.of_nat n.
Proof.
  revert acc. induction n as [|n IH]; intros acc.
  - simpl. lia.
  - cbn [zeros lit_value]. change (digit_val "0") with (Some 0). rewrite IH.
    rewrite Nat2Z.inj_succ, Z.pow_succ_r by lia. ring.
Qed.

Lemma zeros_length n : String.length (zeros n) = n.
Proof. induction n as [|n IH]; simpl; [reflexivity|now rewrite IH]. Qed.

Lemma zfill_lit base w s :
  base <= 16 -> is_lit base s = true ->
  zfill w s = zeros (w - String.length s) ++ s.
Proof.
  intros Hb H. unfold zfill. destruct s as [|c s]; [reflexivity|].
  destruct (is_lit_cons _ _ _ H) as (d & Hd & Hlt & _).
  destruct (digit_val_special c d Hd ltac:(lia)) as (_ & Hm & Hp & _).
  each_char c; try reflexivity; congruence.
Qed.

Lemma str_app_assoc (a b c : string) : (a ++ b) ++ c = a ++ (b ++ c).
Proof. induction a as [|x a IH]; simpl; [reflexivity|now rewrite IH]. Qed.

Section DigitsStep.

Variable base : Z.
Hypothesis base_lo : 2 <= base.
Hypothesis base_hi : base <= 16.

Lemma digits_loop_acc fuel : forall n acc,
  digits_loop fuel base n acc = digits_loop fuel base n "" ++ acc.
Proof.
  induction fuel as [|f IH]; intros n acc; [reflexivity|].
  cbn [digits_loop]. destruct (n / base =? 0); [reflexivity|].
  rewrite IH, (IH _ (String _ "")), str_app_assoc. reflexivity.
Qed.

Lemma digits_loop_fuel f1 : forall f2 n acc,
  0 <= n < 2 ^ Z.of_nat (S f1) -> n < 2 ^ Z.of_nat (S f2) ->
  digits_loop (S f1) base n acc = digits_loop (S f2) base n acc.
Proof.
  induction f1 as [|f1 IH]; intros f2 n acc H1 H2.
  - assert (E : n / base = 0) by (apply Z.div_small; simpl in H1; lia).
    cbn [digits_loop]. rewrite E. reflexivity.
  - remember (S f1) as g1. cbn [digits_loop].
    destruct (Z.eqb_spec (n / base) 0) as [E|E]; [reflexivity|].
    destruct f2 as [|f2].
    + exfalso. apply E. apply Z.div_small. simpl in H2. lia.
    + subst g1. apply IH.
      * apply (half_bound base); try assumption.
      * apply (half_bound base); try assumption. lia.
Qed.

Lemma digits_loop_unfold f n acc :
  digits_loop (S f) base n acc
  = if n / base =? 0 then String (digit_char (n mod base)) acc
    else digits_loop f base (n / base) (String (digit_char (n mod base)) acc).
Proof. reflexivity. Qed.

(** The last digit comes off by division: the usual recurrence. *)
Lemma digits_step n :
  base <= n ->
  digits base n = digits base (n / base) ++ String (digit_char (n mod base)) "".
Proof.
  intros Hn. unfold digits at 1.
  pose proof (digits_fuel_enough n ltac:(lia)) as Hf.
  set (F := Z.to_nat (Z.log2 n)) in *.
  assert (Hq : n / base <> 0).
  { intros E. apply Z.div_small_iff in E; lia. }
  destruct F as [|F'] eqn:EF.
  { exfalso. simpl in Hf. lia. }
  rewrite digits_loop_unfold.
  destruct (Z.eqb_spec (n / base) 0) as [E|_]; [contradiction|].
  rewrite digits_loop_acc. f_equal.
  unfold digits. apply digits_loop_fuel.
  - apply (half_bound base); try assumption.
  - apply digits_fuel_enough. apply Z.div_pos; lia.
Qed.

End DigitsStep.

(** ** Decimal strings *)

Lemma py_str_nonneg n : 0 <= n -> py_str n = digits 10 n.
Proof. intros H. unfold py_str. destruct (Z.ltb_spec n 0); [lia|reflexivity]. Qed.

Lemma py_str_lit n : 0 <= n -> is_lit 10 (py_str n) = true.
Proof. intros H. rewrite py_str_nonneg by exact H. apply digits_lit; lia. Qed.

Lemma py_str_value n : 0 <= n -> lit_value 10 0 (py_str n) = n.
Proof. intros H. rewrite py_str_nonneg by exact H. apply digits_value; lia. Qed.

Lemma py_str_digit c : 0 <= c < 10 -> py_str c = String (digit_char c) "".
Proof. intros H. rewrite py_str_nonneg by lia. apply digits_small; lia. Qed.

Lemma py_int_py_str n : 0 <= n -> py_int 10 (py_str n) = Some n.
Proof.
  intros H. rewrite py_int_lit; [now rewrite py_str_value|lia|now apply py_str_lit|].
  rewrite py_str_nonneg by exact H. apply digits_nonempty.
Qed.

Lemma substring_app_l a b : substring 0 (String.length a) (a ++ b) = a.
Proof.
  induction a as [|c a IH]; simpl; [destruct b; reflexivity|now rewrite IH].
Qed.

Lemma substring_app_r a b : substring (String.length a) (String.length b) (a ++ b) = b.
Proof.
  induction a as [|c a IH]; simpl; [|exact IH].
  induction b as [|c b IHb]; simpl; [reflexivity|now rewrite IHb].
Qed.

(** Characters a text does not hold. *)
Lemma replace_absent c by_ s : has c s = false -> replace c by_ s = s.
Proof.
  induction s as [|a s IH]; [reflexivity|].
  cbn [has replace]. intros H. apply orb_false_iff in H as [-> H].
  now rewrite IH.
Qed.

Lemma replace_app c by_ a b :
  replace c by_ (a ++ b) = replace c by_ a ++ replace c by_ b.
Proof.
  induction a as [|x a IH]; [reflexivity|].
  cbn [append replace]. destruct (Ascii.eqb x c).
  - now rewrite IH, str_app_assoc.
  - cbn [append]. now rewrite IH.
Qed.

Lemma has_app c a b : has c (a ++ b) = (has c a || has c b)%bool.
Proof.
  induction a as [|x a IH]; [reflexivity|].
  cbn [append has]. now rewrite IH, orb_assoc.
Qed.

End PyStrFacts.

Import PyStrFacts.

(** ** The WPS checksum *)

Module ChecksumFacts.

Import EnhancedWPSpin.

Lemma wps_accum_0 k : wps_accum k 0 = 0.
Proof.
  induction k as [|k IH]; [reflexivity|].
  cbn [wps_accum]. change (0 / 100) with 0. rewrite IH. reflexivity.
Qed.

Lemma pow100_succ k : 100 ^ Z.of_nat (S k) = 100 * 100 ^ Z.of_nat k.
Proof. rewrite Nat2Z.inj_succ, Z.pow_succ_r by lia. reflexivity. Qed.

Lemma wps_accum_stable k : forall k' p,
  0 <= p < 100 ^ Z.of_nat k -> 0 <= p < 100 ^ Z.of_nat k' ->
  wps_accum k p = wps_accum k' p.
Proof.
  induction k as [|k IH]; intros k' p Hk Hk'.
  - assert (p = 0) by (simpl in Hk; lia). subst p. rewrite !wps_accum_0. reflexivity.
  - destruct k' as [|k'].
    + assert (p = 0) by (simpl in Hk'; lia). subst p. rewrite !wps_accum_0. reflexivity.
    + cbn [wps_accum]. rewrite pow100_succ in Hk, Hk'.
      rewrite (IH k' (p / 100)); [reflexivity| |];
        (split; [apply Z.div_pos; lia|apply Z.div_lt_upper_bound; lia]).
Qed.

Lemma checksum_loop_enough k : forall fuel accum p,
  0 <= p < 100 ^ Z.of_nat k -> (k < fuel)%nat ->
  checksum_loop fuel accum p = Ok (accum + wps_accum k p).
Proof.
  induction k as [|k IH]; intros fuel accum p Hp Hf.
  - assert (p = 0) by (simpl in Hp; lia). subst p.
    destruct fuel; [lia|]. simpl. f_equal. lia.
  - destruct fuel as [|fuel]; [lia|]. cbn [checksum_loop].
    destruct (Z.eqb_spec p 0) as [->|Hz].
    + rewrite wps_accum_0. f_equal. lia.
    + rewrite pow100_succ in Hp.
      rewrite !Z.quot_div_nonneg by (try apply Z.div_pos; lia).
      rewrite Z.div_div by lia. change (10 * 10) with 100.
      rewrite (IH fuel); [|split; [apply Z.div_pos; lia|apply Z.div_lt_upper_bound; lia]|lia].
      cbn [wps_accum]. f_equal. ring.
Qed.

Lemma checksum_value k p :
  0 <= p < 100 ^ Z.of_nat k ->
  checksum p = Ok ((10 - wps_accum k p mod 10) mod 10).
Proof.
  intros Hp. unfold checksum, checksum_fuel. rewrite Z.abs_eq by lia.
  set (K := S (Z.to_nat (Z.log2 p))).
  assert (HK : 0 <= p < 100 ^ Z.of_nat K).
  { split; [lia|].
    destruct (digits_fuel_enough p ltac:(lia)) as [_ H2].
    eapply Z.lt_le_trans; [exact H2|].
    apply Z.pow_le_mono_l. lia. }
  rewrite (checksum_loop_enough K) by (auto; lia).
  cbn [bind]. rewrite (wps_accum_stable K k) by assumption.
  reflexivity.
Qed.

Lemma checksum_7digit p :
  0 <= p <= 9999999 -> checksum p = Ok (wps_checksum p).
Proof. intros Hp. apply (checksum_value 7). simpl. lia. Qed.

Lemma wps_checksum_range p : 0 <= wps_checksum p < 10.
Proof. unfold wps_checksum. apply Z.mod_pos_bound. lia. Qed.



End ChecksumFacts.

Import ChecksumFacts.

(** C1. For a 7-digit [p], [generate] on a registered algorithm whose raw
    value reduces to [p] modulo 10,000,000 returns an 8-character string:
    its first 7 characters read back as [p], and its 8th character is the
    digit [checksum(p)], which is [(10 - sum mod 10) mod 10] for [sum] the
    accumulation of 3 x (units digit) + (tens digit) over the digit pairs
    of [p]. *)
Theorem generate_appends_checksum
  (algo : string) (mac : pyarg) (a : EnhancedWPSpin.algo)
  (m : NetworkAddress.t) (raw p : Z) :
  NetworkAddress.__init__ mac = Ok m ->
  EnhancedWPSpin.lookup algo EnhancedWPSpin.algos = Some a ->
  String.eqb algo "pinEmpty" = false ->
  EnhancedWPSpin.gen a m = Ok (VInt raw) ->
  raw mod 10000000 = p ->
  1000000 <= p <= 9999999 ->
  exists s c,
    EnhancedWPSpin.generate algo mac = Ok (VStr s) /\
    String.length s = 8%nat /\
    py_int 10 (substring 0 7 s) = Some p /\
    EnhancedWPSpin.checksum p = Ok c /\
    c = wps_checksum p /\
    substring 7 1 s = String (digit_char c) "".
Proof.
  intros Hinit Hlook Hne Hgen Hraw Hp.
  pose proof (wps_checksum_range p) as Hc.
  assert (Hlen : String.length (py_str p) = 7%nat).
  { rewrite py_str_nonneg by lia. apply (digits_length 10); simpl; lia. }
  assert (Hpin : zfill 8 (py_str p ++ py_str (wps_checksum p))
                 = py_str p ++ String (digit_char (wps_checksum p)) "").
  { rewrite (py_str_digit (wps_checksum p)) by exact Hc.
    rewrite (zfill_lit 10); [|lia|].
    - rewrite str_length_app, Hlen. reflexivity.
    - rewrite is_lit_app, py_str_lit by lia. simpl.
      rewrite digit_val_digit_char by lia.
      destruct (Z.ltb_spec (wps_checksum p) 10); [reflexivity|lia]. }
  exists (py_str p ++ String (digit_char (wps_checksum p)) ""), (wps_checksum p).
  split; [|split; [|split; [|split; [|split]]]].
  - unfold EnhancedWPSpin.generate, EnhancedWPSpin.generate_body.
    rewrite Hinit. cbn [bind]. rewrite Hlook, Hgen. cbn [bind]. rewrite Hne, Hraw.
    rewrite checksum_7digit by lia. cbn [bind try_except]. now rewrite Hpin.
  - rewrite str_length_app, Hlen. reflexivity.
  - rewrite <- Hlen, substring_app_l. apply py_int_py_str. lia.
  - apply checksum_7digit. lia.
  - reflexivity.
  - rewrite <- Hlen.
    change 1%nat with (String.length (String (digit_char (wps_checksum p)) "")).
    apply substring_app_r.
Qed.

Lemma generate_appends_checksum_witness :
  exists s c,
    EnhancedWPSpin.generate "pin24" (PInt 1234567) = Ok (VStr s) /\
    String.length s = 8%nat /\
    py_int 10 (substring 0 7 s) = Some 1234567 /\
    EnhancedWPSpin.checksum 1234567 = Ok c /\
    c = wps_checksum 1234567 /\
    substring 7 1 s = String (digit_char c) "".
Proof.
  apply (generate_appends_checksum "pin24" (PInt 1234567)
           {| EnhancedWPSpin.name := "24-bit PIN";
              EnhancedWPSpin.amode := EnhancedWPSpin.ALGO_MAC;
              EnhancedWPSpin.gen := EnhancedWPSpin.pin24 |}
           (NetworkAddress.mk "00:00:00:12:D6:87" 1234567) 1234567 1234567);
    [reflexivity|reflexivity|reflexivity|reflexivity|reflexivity|lia].
Defined.

(** ** [NetworkAddress] *)

Module AddressFacts.

Import NetworkAddress.

Lemma split_char_lit base sep s :
  base <= 16 -> is_lit base s = true ->
  (sep = "x" \/ sep = ":")%char ->
  split_char sep s = [s].
Proof.
  intros Hb H Hsep. induction s as [|c s IH]; [reflexivity|].
  destruct (is_lit_cons _ _ _ H) as (d & Hd & Hlt & Hr).
  destruct (digit_val_special c d Hd ltac:(lia)) as (_ & _ & _ & _ & Hx & _ & Hc).
  cbn [split_char]. rewrite (IH Hr).
  destruct (Ascii.eqb_spec c sep) as [->|_]; [destruct Hsep; congruence|reflexivity].
Qed.

Lemma hex_field m :
  0 <= m -> last (split_char "x" (py_hex m)) "" = digits 16 m.
Proof.
  intros Hm. unfold py_hex. destruct (Z.ltb_spec m 0); [lia|].
  cbn [append split_char Ascii.eqb Bool.eqb].
  rewrite (split_char_lit 16 "x" (digits 16 m));
    [reflexivity|lia|apply digits_lit; lia|now left].
Qed.

Lemma no_colon c d : digit_val c = Some d -> d < 16 -> Ascii.eqb c ":" = false.
Proof.
  intros Hd Hlt.
  destruct (digit_val_special c d Hd Hlt) as (_ & _ & _ & _ & _ & _ & Hc).
  now apply Ascii.eqb_neq.
Qed.

Lemma replace_other c by_ a r :
  Ascii.eqb a c = false -> replace c by_ (String a r) = String a (replace c by_ r).
Proof. intros E. cbn [replace]. now rewrite E. Qed.

Lemma replace_same c r : replace c "" (String c r) = replace c "" r.
Proof. cbn [replace]. now rewrite Ascii.eqb_refl. Qed.

(** Twelve hex characters, cut in pairs and joined by colons, give the
    same twelve characters back once the colons are removed; characters
    beyond the twelfth are dropped. *)
Lemma pairs_of_twelve s t :
  is_lit 16 s = true -> String.length s = 12%nat ->
  replace ":" ""
    (join ":" (map (fun i => slice (s ++ t) i (i + 2)) [0; 2; 4; 6; 8; 10]%nat)) = s.
Proof.
  intros H Hlen.
  do 12 (destruct s as [|? s]; [discriminate Hlen|]).
  destruct s; [|discriminate Hlen]. clear Hlen.
  repeat match type of H with
         | is_lit _ (String _ _) = true =>
             let d := fresh "d" in let Hd := fresh "Hd" in
             let Hlt := fresh "Hlt" in
             apply is_lit_cons in H; destruct H as (d & Hd & Hlt & H);
             apply (no_colon _ _ Hd) in Hlt
         end.
  cbn [map slice substring Nat.add Nat.sub join append].
  repeat (rewrite replace_same || rewrite replace_other by assumption).
  destruct t; reflexivity.
Qed.

Lemma upper_app a b : upper (a ++ b) = upper a ++ upper b.
Proof. induction a as [|c a IH]; simpl; [reflexivity|now rewrite IH]. Qed.

(** The hex digits of a 13-digit number: twelve digits of [m / 16], then
    the last one. *)
Lemma hex13 m :
  2 ^ 48 <= m < 2 ^ 52 ->
  upper (digits 16 m)
  = upper (digits 16 (m / 16)) ++ String (upper_char (digit_char (m mod 16))) "" /\
  String.length (upper (digits 16 (m / 16))) = 12%nat /\
  is_lit 16 (upper (digits 16 (m / 16))) = true /\
  is_lit 16 (upper (digits 16 m)) = true.
Proof.
  intros Hm.
  assert (H16 : 0 <= m / 16) by (apply Z.div_pos; lia).
  repeat split.
  - rewrite (digits_step 16) by lia. apply upper_app.
  - rewrite upper_length. apply (digits_length 16); try lia.
    change (16 ^ Z.of_nat 11) with (2 ^ 44). change (16 ^ Z.of_nat 12) with (2 ^ 48).
    change (2 ^ 44) with 17592186044416. change (2 ^ 48) with 281474976710656 in *.
    change (2 ^ 52) with 4503599627370496 in *.
    Z.div_mod_to_equations. lia.
  - rewrite is_lit_upper. apply digits_lit; lia.
  - rewrite is_lit_upper. apply digits_lit; lia.
Qed.

End AddressFacts.

Import AddressFacts.

(** C10. For [2^48 <= m < 2^52], [NetworkAddress(m)] keeps [m] as its
    integer but its string holds only the first 12 of the 13 hex digits of
    [m]; read back with [_mac2int] the string gives [m / 16], which is not
    the integer the object holds. *)
Theorem int2mac_drops_last_hex_digit (m : Z) :
  2 ^ 48 <= m < 2 ^ 52 ->
  exists a,
    NetworkAddress.__init__ (PInt m) = Ok a /\
    NetworkAddress.integer a = m /\
    String.length (upper (digits 16 m)) = 13%nat /\
    replace ":" "" (NetworkAddress.string_ a) = substring 0 12 (upper (digits 16 m)) /\
    NetworkAddress._mac2int (NetworkAddress.string_ a) = Ok (m / 16) /\
    m / 16 <> NetworkAddress.integer a.
Proof.
  intros Hm.
  destruct (hex13 m Hm) as (Hsplit & Hlen & Hlit & Hlitm).
  assert (Hstr : replace ":" "" (NetworkAddress._int2mac m) = upper (digits 16 (m / 16))).
  { unfold NetworkAddress._int2mac. rewrite hex_field by lia.
    rewrite (zfill_lit 16) by (try lia; exact Hlitm).
    rewrite Hsplit, str_length_app, Hlen.
    cbn [String.length Nat.add Nat.sub zeros append].
    apply pairs_of_twelve; assumption. }
  exists (NetworkAddress.mk (NetworkAddress._int2mac m) m).
  cbn [NetworkAddress.integer NetworkAddress.string_ NetworkAddress._int_repr
       NetworkAddress._str_repr].
  repeat split.
  - rewrite Hsplit, str_length_app, Hlen. reflexivity.
  - rewrite Hstr, Hsplit, <- Hlen. symmetry. apply substring_app_l.
  - unfold NetworkAddress._mac2int. rewrite Hstr.
    rewrite (py_int_lit 16); [|lia|exact Hlit|].
    + rewrite lit_value_upper, (digits_value 16) by (try lia; apply Z.div_pos; lia).
      reflexivity.
    + intros E. rewrite E in Hlen. discriminate Hlen.
  - change (2 ^ 48) with 281474976710656 in Hm. Z.div_mod_to_equations. lia.
Qed.

Lemma int2mac_drops_last_hex_digit_witness :
  exists a,
    NetworkAddress.__init__ (PInt (2 ^ 48)) = Ok a /\
    NetworkAddress.integer a = 2 ^ 48 /\
    String.length (upper (digits 16 (2 ^ 48))) = 13%nat /\
    replace ":" "" (NetworkAddress.string_ a) = substring 0 12 (upper (digits 16 (2 ^ 48))) /\
    NetworkAddress._mac2int (NetworkAddress.string_ a) = Ok (2 ^ 48 / 16) /\
    2 ^ 48 / 16 <> NetworkAddress.integer a.
Proof.
  apply (int2mac_drops_last_hex_digit (2 ^ 48)). vm_compute. split; congruence.
Defined.

(** The overflow is reached by the integer increment of the MAC + 1
    generator on the highest address. *)
Example iadd_at_48_bit_boundary :
  NetworkAddress.__init__ (PStr "FF:FF:FF:FF:FF:FF")
    = Ok (NetworkAddress.mk "FF:FF:FF:FF:FF:FF" (2 ^ 48 - 1)) /\
  NetworkAddress.__iadd__ (NetworkAddress.mk "FF:FF:FF:FF:FF:FF" (2 ^ 48 - 1)) 1
    = NetworkAddress.mk "10:00:00:00:00:00" (2 ^ 48) /\
  NetworkAddress._mac2int "10:00:00:00:00:00" = Ok (2 ^ 44).
Proof. repeat split; reflexivity. Qed.

(** ** Dash and dot delimiters *)

Module DelimiterFacts.

Import AddressFacts.

Import NetworkAddress.

Lemma has_replace_other c x s :
  c <> x -> has c (replace x "" s) = has c s.
Proof.
  intros Hne. induction s as [|a s IH]; [reflexivity|].
  cbn [replace has]. destruct (Ascii.eqb_spec a x) as [->|Hax].
  - cbn [append]. rewrite IH.
    destruct (Ascii.eqb_spec x c); [congruence|reflexivity].
  - cbn [has]. now rewrite IH.
Qed.

Lemma has_lstrip c s : is_space c = false -> has c (lstrip s) = has c s.
Proof.
  intros Hc. induction s as [|a s IH]; [reflexivity|].
  cbn [lstrip]. destruct (is_space a) eqn:Ea; [|reflexivity].
  rewrite IH. cbn [has].
  destruct (Ascii.eqb_spec a c) as [->|_]; [congruence|reflexivity].
Qed.

Lemma has_rstrip c s : is_space c = false -> has c (rstrip s) = has c s.
Proof.
  intros Hc. induction s as [|a s IH]; [reflexivity|].
  cbn [rstrip has]. rewrite <- IH.
  destruct (rstrip s) as [|b r'].
  - destruct (is_space a) eqn:Ea; cbn [has]; [|reflexivity].
    destruct (Ascii.eqb_spec a c) as [->|_]; [congruence|reflexivity].
  - reflexivity.
Qed.

Lemma has_int_lstrip c s : is_int_space c = false -> has c (int_lstrip s) = has c s.
Proof.
  intros Hc. induction s as [|a s IH]; [reflexivity|].
  cbn [int_lstrip]. destruct (is_int_space a) eqn:Ea; [|reflexivity].
  rewrite IH. cbn [has].
  destruct (Ascii.eqb_spec a c) as [->|_]; [congruence|reflexivity].
Qed.

Lemma has_int_rstrip c s : is_int_space c = false -> has c (int_rstrip s) = has c s.
Proof.
  intros Hc. induction s as [|a s IH]; [reflexivity|].
  cbn [int_rstrip has]. rewrite <- IH.
  destruct (int_rstrip s) as [|b r'].
  - destruct (is_int_space a) eqn:Ea; cbn [has]; [|reflexivity].
    destruct (Ascii.eqb_spec a c) as [->|_]; [congruence|reflexivity].
  - reflexivity.
Qed.

Lemma int_rstrip_cons c r :
  is_int_space c = false -> exists r1, int_rstrip (String c r) = String c r1.
Proof.
  intros Hc. cbn [int_rstrip]. destruct (int_rstrip r); [rewrite Hc|]; eauto.
Qed.

Lemma has_split_sign c s :
  c <> "-"%char -> c <> "+"%char -> has c (snd (split_sign s)) = has c s.
Proof.
  intros H1 H2. destruct s as [|a r]; [reflexivity|].
  destruct (Ascii.eqb_spec a "-") as [->|Hm].
  { change (snd (split_sign (String "-" r))) with r. cbn [has].
    destruct (Ascii.eqb_spec "-"%char c); [congruence|reflexivity]. }
  destruct (Ascii.eqb_spec a "+") as [->|Hp].
  { change (snd (split_sign (String "+" r))) with r. cbn [has].
    destruct (Ascii.eqb_spec "+"%char c); [congruence|reflexivity]. }
  now rewrite split_sign_other.
Qed.

Lemma has_split_prefix base c s :
  c <> "0"%char -> c <> "x"%char -> c <> "X"%char ->
  has c (snd (split_prefix base s)) = has c s.
Proof.
  intros H0 Hx HX. unfold split_prefix. destruct (base =? 16); [|reflexivity].
  destruct s as [|a [|b r]]; [reflexivity|each_char a; reflexivity|].
  destruct (Ascii.eqb_spec a "0") as [->|Ha].
  - destruct (Ascii.eqb_spec b "x") as [->|Hb].
    { change (snd (true, r)) with r. cbn [has].
      destruct (Ascii.eqb_spec "0"%char c); [congruence|].
      destruct (Ascii.eqb_spec "x"%char c); [congruence|reflexivity]. }
    destruct (Ascii.eqb_spec b "X") as [->|Hb'].
    { change (snd (true, r)) with r. cbn [has].
      destruct (Ascii.eqb_spec "0"%char c); [congruence|].
      destruct (Ascii.eqb_spec "X"%char c); [congruence|reflexivity]. }
    each_char b; try reflexivity; congruence.
  - each_char a; try reflexivity; congruence.
Qed.

Lemma int_digits_has base c s : forall acc u e,
  has c s = true -> digit_val c = None -> c <> "_"%char ->
  int_digits base acc u e s = None.
Proof.
  induction s as [|a s IH]; intros acc u e H Hv Hus; [discriminate H|].
  cbn [has] in H. cbn [int_digits].
  destruct (Ascii.eqb_spec a c) as [->|Hac].
  - destruct (Ascii.eqb_spec c "_"); [contradiction|]. now rewrite Hv.
  - cbn [orb] in H.
    destruct (Ascii.eqb a "_").
    + destruct u; [apply IH; assumption|reflexivity].
    + destruct (digit_val a) as [d|]; [|reflexivity].
      destruct (d <? base); [apply IH; assumption|reflexivity].
Qed.

(** [int(t, base)] refuses a text with a dot anywhere, and a text with a
    dash after a first character that is a hex digit. *)
Lemma py_int_dot base t : has "." t = true -> py_int base t = None.
Proof.
  intros H. unfold py_int.
  assert (H1 : has "." (snd (split_sign (int_strip t))) = true).
  { rewrite has_split_sign by discriminate. unfold int_strip.
    rewrite has_int_rstrip, has_int_lstrip by reflexivity. exact H. }
  destruct (split_sign (int_strip t)) as [neg s2]. cbn [snd] in H1.
  assert (H2 : has "." (snd (split_prefix base s2)) = true).
  { rewrite has_split_prefix by discriminate. exact H1. }
  destruct (split_prefix base s2) as [pref s3]. cbn [snd] in H2.
  rewrite (int_digits_has base "." s3) by (auto; discriminate). reflexivity.
Qed.

Lemma hex_char_plain c :
  is_hex_char c = true ->
  is_space c = false /\ c <> "-"%char /\ c <> "+"%char /\ c <> ":"%char.
Proof.
  intros H. each_char c; try discriminate H; repeat split; try reflexivity; discriminate.
Qed.

Lemma py_int_dash base c r :
  is_hex_char c = true -> has "-" (String c r) = true ->
  py_int base (String c r) = None.
Proof.
  intros Hc H. destruct (hex_char_plain c Hc) as (Hsp & Hm & Hp & _).
  apply int_space_is_space in Hsp.
  unfold py_int, int_strip. cbn [int_lstrip]. rewrite Hsp.
  assert (H1 : has "-" (int_rstrip (String c r)) = true)
    by (rewrite has_int_rstrip by reflexivity; exact H).
  destruct (int_rstrip_cons c r Hsp) as [r1 E]. rewrite E in *.
  rewrite split_sign_other by assumption.
  assert (H2 : has "-" (snd (split_prefix base (String c r1))) = true).
  { rewrite has_split_prefix by discriminate. exact H1. }
  destruct (split_prefix base (String c r1)) as [pref s3]. cbn [snd] in H2.
  rewrite (int_digits_has base "-" s3) by (auto; discriminate). reflexivity.
Qed.

Lemma valid_first_hex x y : _is_valid_mac (String x y) = true -> is_hex_char x = true.
Proof.
  unfold _is_valid_mac. cbn [match_octets].
  destruct y as [|b [|d r]]; try discriminate.
  destruct (is_hex_char x); [reflexivity|discriminate].
Qed.

Lemma normalized_first c r :
  exists x y,
    upper (replace "." ":" (replace "-" ":" (String c r))) = String x y /\
    (is_hex_char x = true -> is_hex_char c = true).
Proof.
  cbn [replace]. destruct (Ascii.eqb_spec c "-") as [->|Hm].
  { cbn [append replace Ascii.eqb Bool.eqb upper]. eexists _, _.
    split; [reflexivity|discriminate]. }
  cbn [replace]. destruct (Ascii.eqb_spec c ".") as [->|Hd].
  { cbn [append upper]. eexists _, _. split; [reflexivity|discriminate]. }
  cbn [upper]. eexists _, _. split; [reflexivity|].
  clear. each_char c; intros H; try reflexivity; discriminate H.
Qed.

(** A text that passes validation after normalization starts with a hex
    digit. *)
Lemma valid_starts_with_hex s :
  _is_valid_mac (upper (replace "." ":" (replace "-" ":" s))) = true ->
  exists c r, s = String c r /\ is_hex_char c = true.
Proof.
  destruct s as [|c r]; [discriminate|]. intros V. exists c, r. split; [reflexivity|].
  destruct (normalized_first c r) as (x & y & E & Hx). rewrite E in V.
  apply Hx. eapply valid_first_hex. exact V.
Qed.

Lemma init_ok_no_dash_or_dot s a :
  __init__ (PStr s) = Ok a -> has "-" s = false /\ has "." s = false.
Proof.
  cbn [__init__]. intros H.
  destruct (_is_valid_mac _) eqn:V; [|discriminate H]. cbn [negb] in H.
  unfold _mac2int in H.
  destruct (py_int 16 (replace ":" "" s)) as [v|] eqn:E; [|discriminate H].
  split.
  - destruct (valid_starts_with_hex s V) as (c & r & -> & Hc).
    destruct (hex_char_plain c Hc) as (_ & _ & _ & Hcol).
    rewrite <- (has_replace_other "-" ":") by discriminate.
    rewrite replace_other in * by (now apply Ascii.eqb_neq).
    destruct (has "-" (String c (replace ":" "" r))) eqn:Hd; [|reflexivity].
    rewrite (py_int_dash 16 c _ Hc Hd) in E. discriminate E.
  - rewrite <- (has_replace_other "." ":") by discriminate.
    destruct (has "." (replace ":" "" s)) eqn:Hd; [|reflexivity].
    rewrite (py_int_dot 16 _ Hd) in E. discriminate E.
Qed.

End DelimiterFacts.

Import DelimiterFacts.

(** C6. [__init__] validates the normalized text but hands the text as
    given to [_mac2int], which only removes colons: a well-formed
    dash- or dot-delimited address passes validation and is then refused
    by [int(.., 16)], while the same address with colons is accepted.
    No text with a dash or a dot in it is ever accepted. *)
Theorem init_refuses_dash_delimited :
  NetworkAddress._is_valid_mac
    (upper (replace "." ":" (replace "-" ":" "00-11-22-aa-bb-cc"))) = true /\
  NetworkAddress.__init__ (PStr "00-11-22-aa-bb-cc")
    = Raise (ValueError "invalid literal for int() with base 16") /\
  NetworkAddress.__init__ (PStr "00.11.22.aa.bb.cc")
    = Raise (ValueError "invalid literal for int() with base 16") /\
  NetworkAddress.__init__ (PStr "00:11:22:aa:bb:cc")
    = Ok (NetworkAddress.mk "00:11:22:AA:BB:CC" 0x001122AABBCC) /\
  (forall s a, NetworkAddress.__init__ (PStr s) = Ok a ->
     has "-" s = false /\ has "." s = false).
Proof.
  repeat split; try reflexivity; eapply init_ok_no_dash_or_dot; eassumption.
Qed.

Lemma init_refuses_dash_delimited_witness :
  has "-" "00:11:22:aa:bb:cc" = false /\ has "." "00:11:22:aa:bb:cc" = false.
Proof.
  apply (proj2 (proj2 (proj2 (proj2 init_refuses_dash_delimited)))
           "00:11:22:aa:bb:cc" (NetworkAddress.mk "00:11:22:AA:BB:CC" 0x001122AABBCC)).
  reflexivity.
Defined.

(** C7 as stated fails: for an unregistered id the caller gets a normal
    return, not an error. *)
Lemma generate_unknown_algo_not_raised :
  EnhancedWPSpin.lookup "pinNope" EnhancedWPSpin.algos = None /\
  ~ (exists e, EnhancedWPSpin.generate "pinNope" (PStr "00:11:22:33:44:55") = Raise e).
Proof.
  split; [reflexivity|]. intros [e H]. vm_compute in H. discriminate H.
Qed.

Lemma init_ok_or_raise (mac : pyarg) :
  (exists a, NetworkAddress.__init__ mac = Ok a) \/
  (exists e, NetworkAddress.__init__ mac = Raise e).
Proof.
  destruct mac as [n|s|]; cbn [NetworkAddress.__init__]; eauto.
  destruct (negb _); eauto.
  unfold NetworkAddress._mac2int. destruct (py_int 16 _); cbn; eauto.
Qed.

(** C7, amended. For an algorithm id that is not registered and any MAC
    argument, [generate] returns [None]: its body raises (the
    [ValueError] for the unknown algorithm, or the error of the address
    constructor when the MAC is refused first) and [generate] itself
    catches that. *)
Theorem generate_unknown_algo_returns_none (algo : string) (mac : pyarg) :
  EnhancedWPSpin.lookup algo EnhancedWPSpin.algos = None ->
  EnhancedWPSpin.generate algo mac = Ok VNone /\
  exists e,
    EnhancedWPSpin.generate_body algo mac = Raise e /\
    (e = ValueError "Invalid WPS pin algorithm" \/
     NetworkAddress.__init__ mac = Raise e).
Proof.
  intros Hl. unfold EnhancedWPSpin.generate, EnhancedWPSpin.generate_body.
  destruct (init_ok_or_raise mac) as [[a ->]|[e ->]]; cbn [bind try_except].
  - rewrite Hl. split; [reflexivity|]. eexists. split; [reflexivity|now left].
  - split; [reflexivity|]. exists e. split; [reflexivity|now right].
Qed.

Lemma generate_unknown_algo_returns_none_witness :
  EnhancedWPSpin.generate "pinNope" (PStr "00:11:22:33:44:55") = Ok VNone /\
  exists e,
    EnhancedWPSpin.generate_body "pinNope" (PStr "00:11:22:33:44:55") = Raise e /\
    (e = ValueError "Invalid WPS pin algorithm" \/
     NetworkAddress.__init__ (PStr "00:11:22:33:44:55") = Raise e).
Proof.
  apply (generate_unknown_algo_returns_none "pinNope" (PStr "00:11:22:33:44:55")).
  reflexivity.
Defined.

(** ** Bruteforce candidates *)

Module CandidateFacts.

Import Bruteforce.

Lemma cand_eq width k :
  0 <= k -> cand width k = zeros (width - String.length (py_str k)) ++ py_str k.
Proof. intros H. apply (zfill_lit 10); [lia|now apply py_str_lit]. Qed.

Lemma cand_lit width k : 0 <= k -> is_lit 10 (cand width k) = true.
Proof.
  intros H. rewrite cand_eq, is_lit_app, zeros_lit, py_str_lit by lia. reflexivity.
Qed.

Lemma cand_value width k : 0 <= k -> lit_value 10 0 (cand width k) = k.
Proof.
  intros H. rewrite cand_eq, lit_value_app, zeros_value by lia.
  rewrite Z.mul_0_l. now apply py_str_value.
Qed.

Lemma cand_nonempty width k : 0 <= k -> cand width k <> "".
Proof.
  intros H E. rewrite cand_eq in E by exact H.
  assert (N : py_str k <> "") by (rewrite py_str_nonneg by exact H; apply digits_nonempty).
  destruct (zeros _); [simpl in E; contradiction|discriminate E].
Qed.

Lemma digits_length_le k : forall n,
  0 <= n < 10 ^ Z.of_nat (S k) -> (String.length (digits 10 n) <= S k)%nat.
Proof.
  induction k as [|k IH]; intros n Hn.
  - rewrite digits_small by (simpl in Hn; lia). simpl. lia.
  - destruct (Z.lt_ge_cases n (10 ^ Z.of_nat (S k))) as [Hlt|Hge].
    + specialize (IH n ltac:(lia)). lia.
    + rewrite (digits_length 10 ltac:(lia) ltac:(lia) n (S k)) by lia. lia.
Qed.

Lemma cand_length k n :
  0 <= n < 10 ^ Z.of_nat (S k) -> String.length (cand (S k) n) = S k.
Proof.
  intros Hn. rewrite cand_eq, str_length_app, zeros_length by lia.
  pose proof (digits_length_le k n Hn) as Hle.
  rewrite py_str_nonneg by lia. lia.
Qed.

Lemma int10_lit s :
  is_lit 10 s = true -> s <> "" -> int10 s = Ok (lit_value 10 0 s).
Proof. intros H N. unfold int10. rewrite (py_int_lit 10) by (auto; lia). reflexivity. Qed.

Lemma int10_cand width k : 0 <= k -> int10 (cand width k) = Ok k.
Proof.
  intros H. rewrite int10_lit by (auto using cand_lit, cand_nonempty).
  now rewrite cand_value.
Qed.

Lemma app_nonempty (a b : string) : a <> "" -> a ++ b <> "".
Proof. destruct a; [congruence|discriminate]. Qed.

Lemma int10_first_half_t k :
  0 <= k -> int10 (cand 4 k ++ "000") = Ok (k * 1000).
Proof.
  intros H. rewrite int10_lit.
  - rewrite lit_value_app, cand_value by exact H.
    change (lit_value 10 k "000") with (((k * 10 + 0) * 10 + 0) * 10 + 0).
    f_equal. lia.
  - rewrite is_lit_app, cand_lit by exact H. reflexivity.
  - apply app_nonempty. now apply cand_nonempty.
Qed.

Lemma int10_second_half_t k s :
  0 <= k -> 0 <= s < 1000 -> int10 (cand 4 k ++ cand 3 s) = Ok (k * 1000 + s).
Proof.
  intros Hk Hs. rewrite int10_lit.
  - rewrite lit_value_app, lit_value_shift, cand_value, cand_value by lia.
    rewrite (cand_length 2) by (simpl; lia). reflexivity.
  - rewrite is_lit_app, !cand_lit by lia. reflexivity.
  - apply app_nonempty. now apply cand_nonempty.
Qed.

Lemma checksum_first_half k :
  0 <= k < 10000 -> EnhancedWPSpin.checksum (k * 1000) = Ok (wps_checksum (k * 1000)).
Proof. intros H. apply checksum_7digit. lia. Qed.

Lemma checksum_second_half k s :
  0 <= k < 10000 -> 0 <= s < 1000 ->
  EnhancedWPSpin.checksum (k * 1000 + s) = Ok (wps_checksum (k * 1000 + s)).
Proof. intros Hk Hs. apply checksum_7digit. lia. Qed.

Lemma upto_succ k n : upto k (S n) = k :: upto (k + 1) n.
Proof.
  unfold upto. cbn [seq map]. f_equal; [lia|].
  rewrite <- seq_shift, map_map. apply map_ext. intros i. lia.
Qed.

Lemma upto_length k n : List.length (upto k n) = n.
Proof. unfold upto. now rewrite length_map, length_seq. Qed.

End CandidateFacts.

(** ** The phases, one iteration at a time *)

Module EngineFacts.

Import Bruteforce ConnectionStatus CandidateFacts.

Section Steps.

Variable sc : nat -> string -> outcome.

Lemma first_half_step fuel k st :
  0 <= k < 10000 ->
  __first_half_bruteforce sc (S fuel) (cand 4 k) st
  = first_half_after sc fuel k st (sc (List.length (attempts st)) (pin1 k)).
Proof.
  intros Hk. cbn [__first_half_bruteforce].
  rewrite int10_cand by lia. cbn [and_then].
  destruct (Z.ltb_spec k 10000); [|lia].
  rewrite int10_first_half_t by lia. cbn [and_then].
  rewrite checksum_first_half by lia. cbn [and_then].
  reflexivity.
Qed.

Lemma first_half_exhausted fuel k st :
  10000 <= k -> __first_half_bruteforce sc (S fuel) (cand 4 k) st = (Ok RFalse, st).
Proof.
  intros Hk. cbn [__first_half_bruteforce].
  rewrite int10_cand by lia. cbn [and_then].
  destruct (Z.ltb_spec k 10000); [lia|reflexivity].
Qed.

Lemma second_half_step fuel k s st :
  0 <= k < 10000 -> 0 <= s < 1000 ->
  __second_half_bruteforce sc (S fuel) (cand 4 k) (cand 3 s) st
  = second_half_after sc fuel k s st (sc (List.length (attempts st)) (pin2 k s)).
Proof.
  intros Hk Hs. cbn [__second_half_bruteforce].
  rewrite int10_cand by lia. cbn [and_then].
  destruct (Z.ltb_spec s 1000); [|lia].
  rewrite int10_second_half_t by lia. cbn [and_then].
  rewrite checksum_second_half by lia. cbn [and_then].
  reflexivity.
Qed.

Lemma second_half_exhausted fuel f s st :
  1000 <= s -> __second_half_bruteforce sc (S fuel) f (cand 3 s) st = (Ok RFalse, st).
Proof.
  intros Hs. cbn [__second_half_bruteforce].
  rewrite int10_cand by lia. cbn [and_then].
  destruct (Z.ltb_spec s 1000); [lia|reflexivity].
Qed.

Lemma upto_snoc k n : upto k (S n) = (upto k n ++ [k + Z.of_nat n])%list.
Proof. unfold upto. rewrite seq_S, map_app. reflexivity. Qed.

(** [n] candidates in a row, from [k], each rejected by an attempt that
    ends neither with the first half valid nor in [WPS_FAIL]: the loop is
    back at its head on candidate [k + n], having registered it. *)
Lemma first_half_advance n : forall k st fuel,
  0 <= k -> k + Z.of_nat n <= 10000 ->
  (forall i, (i < n)%nat -> exists cs,
      sc (List.length (attempts st) + i) (pin1 (k + Z.of_nat i)) = Finished cs /\
      isFirstHalfValid cs = false /\ status cs <> WPS_FAIL) ->
  exists st',
    __first_half_bruteforce sc (n + fuel) (cand 4 k) st
    = __first_half_bruteforce sc fuel (cand 4 (k + Z.of_nat n)) st' /\
    attempts st' = (attempts st ++ map pin1 (upto k n))%list /\
    mask st' = match n with O => mask st | S _ => cand 4 (k + Z.of_nat n) end.
Proof.
  induction n as [|n IH]; intros k st fuel Hk Hn H.
  - exists st. rewrite Z.add_0_r, app_nil_r. auto.
  - destruct (H O ltac:(lia)) as (cs & Hsc & Hv & Hs).
    rewrite Nat.add_0_r, Z.add_0_r in Hsc.
    cbn [Nat.add]. rewrite first_half_step by lia. rewrite Hsc.
    cbn [first_half_after]. rewrite Hv.
    destruct (status_eqb (status cs) WPS_FAIL) eqn:E;
      [apply status_eqb_eq in E; contradiction|].
    set (st1 := registerAttempt _ _).
    destruct (IH (k + 1) st1 fuel ltac:(lia) ltac:(lia)) as (st' & Hrun & Hatt & Hmask).
    { intros i Hi. destruct (H (S i) ltac:(lia)) as (cs' & Hsc' & Hrest).
      exists cs'. split; [|exact Hrest].
      subst st1. cbn [registerAttempt attempts]. rewrite length_app. cbn [List.length].
      replace (List.length (attempts st) + 1 + i)%nat
        with (List.length (attempts st) + S i)%nat by lia.
      replace (k + 1 + Z.of_nat i) with (k + Z.of_nat (S i)) by lia. exact Hsc'. }
    exists st'. replace (k + Z.of_nat (S n)) with (k + 1 + Z.of_nat n) by lia.
    split; [exact Hrun|]. split.
    + rewrite Hatt. subst st1. cbn [registerAttempt attempts].
      rewrite upto_succ, <- app_assoc. reflexivity.
    + rewrite Hmask. destruct n; [|reflexivity].
      subst st1. cbn [registerAttempt mask]. f_equal. lia.
Qed.





(** Phase 2 hands back a PIN only from an attempt that ended with a
    message number above 6, and the PIN is the one of that attempt. *)
Lemma second_half_returns fuel : forall f s st x st',
  __second_half_bruteforce sc fuel f s st = (Ok (RStr x), st') ->
  6 < last_m_message (connection_status st') /\ last (attempts st') "" = x.
Proof.
  induction fuel as [|fuel IH]; intros f s st x st' H; [discriminate H|].
  cbn [__second_half_bruteforce] in H.
  destruct (int10 s) as [v| | |]; cbn [and_then] in H; try discriminate H.
  destruct (v <? 1000); [|discriminate H].
  destruct (int10 (f ++ s)) as [t| | |]; cbn [and_then] in H; try discriminate H.
  destruct (EnhancedWPSpin.checksum t) as [c| | |]; cbn [and_then] in H;
    try discriminate H.
  destruct (sc _ _) as [cs|]; [|discriminate H].
  destruct (Z.ltb_spec 6 (last_m_message cs)) as [Hm|Hm].
  - injection H as <- <-. cbn [connection_status attempts].
    split; [exact Hm|apply last_last].
  - destruct (status_eqb (status cs) WPS_FAIL); eapply IH; exact H.
Qed.

End Steps.

End EngineFacts.

Import CandidateFacts EngineFacts.


Section EngineClaims.

Variable sc : nat -> string -> outcome.

(** C2. When the attempts report the first half valid at candidate 1234
    and nowhere else (and no attempt ends in [WPS_FAIL] or with the
    passphrase), phase 1 from mask "0000" makes exactly the 1235
    attempts on first halves 0000..1234, in increasing order, each with
    the PIN first-half + "000" + checksum(first-half x 1000); it returns
    "1234" and [smart_bruteforce] goes on with phase 2 at second half
    "001". *)
Theorem phase1_stops_at_1234 (fuel : nat) :
  (forall n k, 0 <= k < 10000 -> exists cs,
      sc n (pin1 k) = Finished cs /\
      status cs <> WPS_FAIL /\ status cs <> GOT_PSK /\
      isFirstHalfValid cs = (k =? 1234)) ->
  (1235 <= fuel)%nat ->
  exists st1,
    __first_half_bruteforce sc fuel "0000" (st_init "0000") = (Ok (RStr "1234"), st1) /\
    attempts st1 = map pin1 (upto 0 1235) /\
    List.length (attempts st1) = 1235%nat /\
    (forall k, 0 <= k < 10000 ->
       pin1 k = cand 4 k ++ "000" ++ py_str (wps_checksum (k * 1000)) /\
       EnhancedWPSpin.checksum (k * 1000) = Ok (wps_checksum (k * 1000))) /\
    initial_mask None None false = "0000" /\
    phases sc fuel "0000" (st_init "0000")
    = __second_half_bruteforce sc fuel "1234" "001" st1.
Proof.
  intros H Hfuel.
  replace fuel with (1234 + S (fuel - 1235))%nat at 1 by lia.
  destruct (first_half_advance sc 1234 0 (st_init "0000") (S (fuel - 1235)))
    as (st' & Hrun & Hatt & _); [lia|lia| |].
  { intros i Hi. destruct (H (List.length (attempts (st_init "0000")) + i)%nat
                             (0 + Z.of_nat i) ltac:(lia))
      as (cs & Hsc & Hf & _ & Hv).
    exists cs. repeat split; try assumption.
    rewrite Hv. apply Z.eqb_neq. lia. }
  change (cand 4 0) with "0000" in Hrun.
  change (0 + Z.of_nat 1234) with 1234 in Hrun.
  destruct (H (List.length (attempts st')) 1234 ltac:(lia)) as (cs & Hsc & Hf & Hp & Hv).
  rewrite first_half_step, Hsc in Hrun by lia.
  cbn [first_half_after] in Hrun. rewrite Hv in Hrun.
  change (1234 =? 1234) with true in Hrun. cbv iota in Hrun.
  change (cand 4 1234) with "1234" in Hrun.
  set (st1 := mkbf (mask st') cs (attempts st' ++ [pin1 1234])) in *.
  assert (Hatt1 : attempts st1 = map pin1 (upto 0 1235)).
  { subst st1. cbn [attempts]. rewrite Hatt. cbn [st_init attempts app].
    rewrite (upto_snoc 0 1234), map_app. reflexivity. }
  assert (Hfirst : __first_half_bruteforce sc fuel "0000" (st_init "0000")
                   = (Ok (RStr "1234"), st1)).
  { replace fuel with (1234 + S (fuel - 1235))%nat at 1 by lia. exact Hrun. }
  exists st1. split; [exact Hfirst|].
  split; [exact Hatt1|].
  split; [rewrite Hatt1, length_map; apply upto_length|].
  split; [intros k Hk; split; [reflexivity|now apply checksum_first_half]|].
  split; [reflexivity|].
  unfold phases. change (String.length "0000" =? 4)%nat with true. cbv iota.
  rewrite Hfirst. cbv iota beta.
  change (PixiewpsData.truthy "1234") with true. cbn [andb].
  subst st1. cbn [connection_status].
  destruct (status_eqb (status cs) GOT_PSK) eqn:E;
    [apply status_eqb_eq in E; contradiction|].
  reflexivity.
Qed.



(** C9, amended. Phase 2 returns a PIN exactly from an attempt that ends
    with a message number above 6; an attempt that ends with a message
    number of at most 6 and not in [WPS_FAIL] (the status [GOT_PSK]
    included) moves the search to the next second half and registers it;
    at second half 1000 the phase returns [False]. *)
Theorem second_half_stops_on_message_number
  (fuel : nat) (k s : Z) (st : bf) (cs : ConnectionStatus.t) :
  0 <= k < 10000 -> 0 <= s < 1000 ->
  sc (List.length (attempts st)) (pin2 k s) = Finished cs ->
  let st1 := mkbf (mask st) cs (attempts st ++ [pin2 k s]) in
  __second_half_bruteforce sc (S fuel) (cand 4 k) (cand 3 s) st
  = (if 6 <? last_m_message cs then (Ok (RStr (pin2 k s)), st1)
     else if status_eqb (status cs) WPS_FAIL
     then __second_half_bruteforce sc fuel (cand 4 k) (cand 3 s) st1
     else __second_half_bruteforce sc fuel (cand 4 k) (cand 3 (s + 1))
            (registerAttempt st1 (cand 4 k ++ cand 3 (s + 1)))) /\
  (forall f s0 st0 x st',
     __second_half_bruteforce sc fuel f s0 st0 = (Ok (RStr x), st') ->
     6 < last_m_message (connection_status st') /\ last (attempts st') "" = x) /\
  __second_half_bruteforce sc (S fuel) (cand 4 k) (cand 3 1000) st = (Ok RFalse, st).
Proof.
  intros Hk Hs Hsc st1.
  split; [|split].
  - rewrite second_half_step, Hsc by lia. reflexivity.
  - apply second_half_returns.
  - apply second_half_exhausted. lia.
Qed.

End EngineClaims.

(** ** The simulated channels meet the assumptions *)

Import Simulated.

Lemma substring_first_half k :
  0 <= k < 10000 -> substring 0 4 (pin1 k) = cand 4 k.
Proof.
  intros Hk. unfold pin1.
  rewrite <- (cand_length 3 k) at 1 by (simpl; lia).
  apply substring_app_l.
Qed.

Lemma cand_1234 k : 0 <= k -> String.eqb (cand 4 k) "1234" = (k =? 1234).
Proof.
  intros Hk. destruct (Z.eqb_spec k 1234) as [->|Hne]; [reflexivity|].
  apply String.eqb_neq. intros E.
  apply (f_equal (lit_value 10 0)) in E. rewrite cand_value in E by exact Hk.
  apply Hne. exact E.
Qed.

Lemma session_1234 n k :
  0 <= k < 10000 ->
  exists cs,
    session channel_1234 n (pin1 k) = Finished cs /\
    status cs <> WPS_FAIL /\ status cs <> GOT_PSK /\
    isFirstHalfValid cs = (k =? 1234).
Proof.
  intros Hk. unfold session, session_of, channel_1234.
  rewrite substring_first_half, cand_1234 by lia.
  destruct (k =? 1234); eexists; (split; [reflexivity|]);
    repeat split; discriminate.
Qed.

Lemma phase1_stops_at_1234_witness :
  exists st1,
    __first_half_bruteforce (session channel_1234) 1235 "0000" (st_init "0000")
    = (Ok (RStr "1234"), st1) /\
    attempts st1 = map pin1 (upto 0 1235) /\
    List.length (attempts st1) = 1235%nat /\
    (forall k, 0 <= k < 10000 ->
       pin1 k = cand 4 k ++ "000" ++ py_str (wps_checksum (k * 1000)) /\
       EnhancedWPSpin.checksum (k * 1000) = Ok (wps_checksum (k * 1000))) /\
    initial_mask None None false = "0000" /\
    phases (session channel_1234) 1235 "0000" (st_init "0000")
    = __second_half_bruteforce (session channel_1234) 1235 "1234" "001" st1.
Proof.
  apply (phase1_stops_at_1234 (session channel_1234) 1235).
  - intros n k Hk. apply session_1234. exact Hk.
  - lia.
Defined.







(** C9 as stated fails: the first attempt ends with the status [GOT_PSK]
    (message number 0), yet phase 2 goes on to the next second half and
    returns the PIN of the second attempt. *)
Lemma second_half_ignores_got_psk :
  session channel_psk_first 0 "12340019"
  = Finished (ConnectionStatus.mk GOT_PSK 0 "" "3132333435363738") /\
  fst (__second_half_bruteforce (session channel_psk_first) 3 "1234" "001"
         (st_init "1234"))
  = Ok (RStr "12340026") /\
  attempts (snd (__second_half_bruteforce (session channel_psk_first) 3 "1234" "001"
                   (st_init "1234")))
  = ["12340019"; "12340026"].
Proof. vm_compute. repeat split; reflexivity. Qed.

Lemma second_half_stops_on_message_number_witness :
  let st := st_init "1234" in
  let cs := ConnectionStatus.mk GOT_PSK 0 "" "3132333435363738" in
  let st1 := mkbf (mask st) cs (attempts st ++ [pin2 1234 1]) in
  __second_half_bruteforce (session channel_psk_first) (S 2) (cand 4 1234) (cand 3 1) st
  = (if 6 <? last_m_message cs then (Ok (RStr (pin2 1234 1)), st1)
     else if status_eqb (status cs) WPS_FAIL
     then __second_half_bruteforce (session channel_psk_first) 2 (cand 4 1234) (cand 3 1) st1
     else __second_half_bruteforce (session channel_psk_first) 2 (cand 4 1234)
            (cand 3 (1 + 1)) (registerAttempt st1 (cand 4 1234 ++ cand 3 (1 + 1)))) /\
  (forall f s0 st0 x st',
     __second_half_bruteforce (session channel_psk_first) 2 f s0 st0 = (Ok (RStr x), st') ->
     6 < last_m_message (connection_status st') /\ last (attempts st') "" = x) /\
  __second_half_bruteforce (session channel_psk_first) (S 2) (cand 4 1234) (cand 3 1000) st
  = (Ok RFalse, st).
Proof.
  apply (second_half_stops_on_message_number (session channel_psk_first) 2 1234 1
           (st_init "1234")
           (ConnectionStatus.mk GOT_PSK 0 "" "3132333435363738"));
    [lia|lia|reflexivity].
Defined.

(** ** The classifier *)

Module TraceFacts.

Lemma lit_has base c s :
  is_lit base s = true -> (forall v, digit_val c = Some v -> base <= v) ->
  has c s = false.
Proof.
  intros H Hc. induction s as [|a r IH]; [reflexivity|].
  destruct (is_lit_cons _ _ _ H) as (d & Hd & Hlt & Hr).
  cbn [has]. rewrite (IH Hr).
  destruct (Ascii.eqb_spec a c) as [->|_]; [|reflexivity].
  specialize (Hc d Hd). lia.
Qed.

Lemma contains_absent c p s : has c s = false -> contains (String c p) s = false.
Proof.
  induction s as [|a r IH]; intros H; [reflexivity|].
  cbn [has] in H. apply orb_false_iff in H as [Hac Hr].
  cbn [contains startswith]. rewrite (IH Hr).
  destruct (Ascii.eqb_spec c a) as [->|_]; [|reflexivity].
  rewrite Ascii.eqb_refl in Hac. discriminate Hac.
Qed.

Lemma split_sub_absent c p s :
  has c s = false -> split_sub_aux (String c p) 0 s = [s].
Proof.
  induction s as [|a r IH]; intros H; [reflexivity|].
  cbn [has] in H. apply orb_false_iff in H as [Hac Hr].
  cbn [split_sub_aux startswith]. rewrite (IH Hr).
  destruct (Ascii.eqb_spec c a) as [->|_]; [|reflexivity].
  rewrite Ascii.eqb_refl in Hac. discriminate Hac.
Qed.

Lemma rstrip_char_absent c s : has c s = false -> rstrip_char c s = s.
Proof.
  induction s as [|a r IH]; intros H; [reflexivity|].
  cbn [has] in H. apply orb_false_iff in H as [Hac Hr].
  cbn [rstrip_char]. rewrite (IH Hr), Hac. destruct r; reflexivity.
Qed.

Lemma rstrip_char_app c p s :
  rstrip_char c s = s -> s <> "" -> rstrip_char c (p ++ s) = p ++ s.
Proof.
  intros Hs Hne. induction p as [|a p IH]; [exact Hs|].
  cbn [append rstrip_char]. rewrite IH.
  destruct (p ++ s) eqn:E; [|reflexivity].
  destruct p; [cbn in E; contradiction|discriminate E].
Qed.

Lemma hexdump_has c k :
  c <> " "%char -> c <> "5"%char -> c <> "e"%char -> has c (hexdump k) = false.
Proof.
  intros H1 H2 H3. induction k as [|k IH]; [reflexivity|].
  cbn [hexdump append has]. rewrite IH.
  destruct (Ascii.eqb_spec " " c) as [E|_]; [congruence|].
  destruct (Ascii.eqb_spec "5" c) as [E|_]; [congruence|].
  destruct (Ascii.eqb_spec "e" c) as [E|_]; [congruence|].
  reflexivity.
Qed.

Lemma hexdump_hex_text k : upper (replace " " "" (hexdump k)) = hex_text k.
Proof.
  induction k as [|k IH]; [reflexivity|].
  cbn [hexdump append replace Ascii.eqb Bool.eqb upper hex_text].
  rewrite IH. reflexivity.
Qed.

Lemma hex_text_length k : String.length (hex_text k) = (2 * k)%nat.
Proof.
  induction k as [|k IH]; [reflexivity|].
  cbn [hex_text append String.length]. rewrite IH. lia.
Qed.

Lemma split_char_max_absent c s : forall m,
  has c s = false -> split_char_max c m s = [s].
Proof.
  induction s as [|a r IH]; intros m H.
  - destruct m; reflexivity.
  - destruct m as [|m]; [reflexivity|].
    cbn [has] in H. apply orb_false_iff in H as [Hac Hr].
    cbn [split_char_max]. rewrite Hac, (IH (S m) Hr). reflexivity.
Qed.

Lemma get_hex_hash2_line k :
  get_hex (hash2_line k) = hex_text k.
Proof.
  unfold get_hex, hash2_line.
  assert (S : split_char_max ":" 3 ("WPS: E-Hash2 - hexdump(len=32):" ++ hexdump k)
              = ["WPS"; " E-Hash2 - hexdump(len=32)"; hexdump k]).
  { cbn [append split_char_max Ascii.eqb Bool.eqb].
    rewrite (split_char_max_absent ":" (hexdump k) 1)
      by (apply hexdump_has; discriminate).
    reflexivity. }
  rewrite S. cbn [List.length Nat.leb nth]. apply hexdump_hex_text.
Qed.

Section Lines.

Variable interface : string.
Variable decode_essid decode_psk : string -> option string.

Lemma handle_message_line received n st :
  0 <= n ->
  Companion.handle_line interface decode_essid decode_psk (message_line received n) st
  = (true, Companion.with_cs st
             (set_last_m_message (Companion.connection_status st) n)).
Proof.
  intros Hn.
  pose proof (py_str_lit n Hn) as L.
  pose proof (py_int_py_str n Hn) as V.
  assert (HB : has "B" (py_str n) = false)
    by (apply (lit_has 10); [exact L|intros v E; vm_compute in E; injection E as <-; lia]).
  assert (HR : has "R" (py_str n) = false)
    by (apply (lit_has 10); [exact L|intros v E; vm_compute in E; injection E as <-; lia]).
  assert (HD : has "D" (py_str n) = false)
    by (apply (lit_has 10); [exact L|intros v E; vm_compute in E; injection E as <-; lia]).
  unfold message_line.
  revert L V HB HR HD. generalize (py_str n) as d. intros d L V HB HR HD.
  destruct received; unfold Companion.handle_line; cbv zeta.
  - change (startswith "WPS: " ("WPS: Received M" ++ d)) with true. cbv iota.
    assert (C1 : contains "Building Message M" ("WPS: Received M" ++ d) = false).
    { cbn [append contains startswith Ascii.eqb Bool.eqb andb orb].
      apply contains_absent. exact HB. }
    rewrite C1.
    assert (C2 : contains "Received M" ("WPS: Received M" ++ d) = true) by reflexivity.
    rewrite C2.
    assert (S : split_sub "Received M" ("WPS: Received M" ++ d) = ["WPS: "; d]).
    { unfold split_sub.
      cbn [append split_sub_aux startswith Ascii.eqb Bool.eqb andb String.length Nat.sub].
      rewrite (split_sub_absent "R" "eceived M" d HR). reflexivity. }
    rewrite S. cbn [nth]. rewrite V. reflexivity.
  - change (startswith "WPS: " ("WPS: Building Message M" ++ d)) with true. cbv iota.
    assert (C1 : contains "Building Message M" ("WPS: Building Message M" ++ d) = true)
      by reflexivity.
    rewrite C1.
    assert (S : split_sub "Building Message M" ("WPS: Building Message M" ++ d)
                = ["WPS: "; d]).
    { unfold split_sub.
      cbn [append split_sub_aux startswith Ascii.eqb Bool.eqb andb String.length Nat.sub].
      rewrite (split_sub_absent "B" "uilding Message M" d HB). reflexivity. }
    rewrite S. cbn [nth].
    rewrite (replace_absent "D" "" d HD), V. reflexivity.
Qed.

Lemma handle_wpas_message_line received n st :
  0 <= n ->
  Companion.__handle_wpas interface decode_essid decode_psk
    (Some (message_line received n)) st
  = (true, Companion.with_cs st
             (set_last_m_message (Companion.connection_status st) n)).
Proof.
  intros Hn. rewrite <- (handle_message_line received n st Hn).
  assert (R : rstrip_char nl (message_line received n) = message_line received n).
  { assert (E : rstrip_char nl (py_str n) = py_str n).
    { apply rstrip_char_absent. apply (lit_has 10); [now apply py_str_lit|].
      intros v E. discriminate E. }
    assert (Hne : py_str n <> "")
      by (rewrite py_str_nonneg by exact Hn; apply digits_nonempty).
    unfold message_line. destruct received; now apply rstrip_char_app. }
  unfold Companion.__handle_wpas.
  rewrite R. unfold message_line. destruct received; reflexivity.
Qed.

Lemma last_shift (l : list Z) : forall a d, last (a :: l) d = last l a.
Proof.
  induction l as [|b l IH]; intros a d; [reflexivity|].
  change (last (a :: b :: l) d) with (last (b :: l) d).
  rewrite (IH b d), (IH b a). reflexivity.
Qed.

(** Message lines leave the status alone and store their number; the
    NACK line ends the session. *)
Lemma pump_messages_then_nack ms : forall st,
  Forall (fun m => 0 <= snd m) ms ->
  status (Companion.connection_status st) = Unset ->
  Companion.pump interface decode_essid decode_psk (messages_then_nack ms) st
  = Companion.with_cs st
      (ConnectionStatus.mk WSC_NACK
         (last (map snd ms) (last_m_message (Companion.connection_status st)))
         (essid (Companion.connection_status st))
         (wpa_psk (Companion.connection_status st))).
Proof.
  induction ms as [|[b n] ms IH]; intros st F U.
  - reflexivity.
  - inversion F as [|x l Hn F']; subst. cbn [snd] in Hn.
    change (messages_then_nack ((b, n) :: ms))
      with (message_line b n :: messages_then_nack ms).
    cbn [Companion.pump].
    rewrite (handle_wpas_message_line b n st Hn).
    cbn [negb Companion.with_cs Companion.connection_status set_last_m_message status].
    rewrite U. cbn [Companion.terminal status_eqb orb].
    rewrite (IH _ F') by (cbn; exact U).
    cbn [Companion.with_cs Companion.connection_status Companion.pixie_creds
         last_m_message essid wpa_psk map snd].
    rewrite last_shift. reflexivity.
Qed.

(** The last line is taken by the branch of [E-Hash2]. *)
Lemma handle_hash2_line k st :
  Companion.__handle_wpas interface decode_essid decode_psk (Some (hash2_line k)) st
  = Companion.store_hex st PixiewpsData.set_e_hash2 (hash2_line k) 32.
Proof.
  assert (R : rstrip_char nl (hash2_line k) = hash2_line k).
  { apply rstrip_char_absent. unfold hash2_line.
    rewrite has_app, (hexdump_has nl k) by discriminate. reflexivity. }
  assert (E : Companion.__handle_wpas interface decode_essid decode_psk
                (Some (hash2_line k)) st
              = Companion.handle_line interface decode_essid decode_psk
                  (rstrip_char nl (hash2_line k)) st) by reflexivity.
  rewrite E, R. clear E R.
  pose proof (hexdump_has "B" k ltac:(discriminate) ltac:(discriminate)
                ltac:(discriminate)) as HB.
  pose proof (hexdump_has "R" k ltac:(discriminate) ltac:(discriminate)
                ltac:(discriminate)) as HR.
  pose proof (hexdump_has "E" k ltac:(discriminate) ltac:(discriminate)
                ltac:(discriminate)) as HE.
  pose proof (hexdump_has "D" k ltac:(discriminate) ltac:(discriminate)
                ltac:(discriminate)) as HD.
  pose proof (hexdump_has "A" k ltac:(discriminate) ltac:(discriminate)
                ltac:(discriminate)) as HA.
  unfold hash2_line. revert HB HR HE HD HA. generalize (hexdump k) as T.
  intros T HB HR HE HD HA.
  unfold Companion.handle_line, Companion.hexdump_of. cbv zeta.
  set (line := "WPS: E-Hash2 - hexdump(len=32):" ++ T).
  assert (C0 : startswith "WPS: " line = true) by reflexivity.
  assert (C1 : contains "Building Message M" line = false).
  { subst line. cbn [append contains startswith Ascii.eqb Bool.eqb andb orb].
    now apply contains_absent. }
  assert (C2 : contains "Received M" line = false).
  { subst line. cbn [append contains startswith Ascii.eqb Bool.eqb andb orb].
    now apply contains_absent. }
  assert (C3 : contains "Received WSC_NACK" line = false).
  { subst line. cbn [append contains startswith Ascii.eqb Bool.eqb andb orb].
    now apply contains_absent. }
  assert (C4 : contains "Enrollee Nonce" line = false).
  { subst line. cbn [append contains startswith Ascii.eqb Bool.eqb andb orb].
    now apply contains_absent. }
  assert (C5 : contains "DH own Public Key" line = false).
  { subst line. cbn [append contains startswith Ascii.eqb Bool.eqb andb orb].
    now apply contains_absent. }
  assert (C6 : contains "DH peer Public Key" line = false).
  { subst line. cbn [append contains startswith Ascii.eqb Bool.eqb andb orb].
    now apply contains_absent. }
  assert (C7 : contains "AuthKey" line = false).
  { subst line. cbn [append contains startswith Ascii.eqb Bool.eqb andb orb].
    now apply contains_absent. }
  assert (C8 : contains "E-Hash1" line = false).
  { subst line. cbn [append contains startswith Ascii.eqb Bool.eqb andb orb].
    now apply contains_absent. }
  assert (C9 : contains "E-Hash2" line = true) by reflexivity.
  assert (C10 : contains "hexdump" line = true) by reflexivity.
  rewrite C0, C1, C2, C3, C4, C5, C6, C7, C8, C9, C10. reflexivity.
Qed.

Lemma pump_step line rest st st1 :
  Companion.__handle_wpas interface decode_essid decode_psk (Some line) st = (true, st1) ->
  Companion.terminal (status (Companion.connection_status st1)) = false ->
  Companion.pump interface decode_essid decode_psk (line :: rest) st
  = Companion.pump interface decode_essid decode_psk rest st1.
Proof.
  intros H T. cbn [Companion.pump]. rewrite H. cbn [negb]. rewrite T. reflexivity.
Qed.

(** The five lines are all accepted, and the loop goes on after them. *)
Lemma pump_sized_lines :
  exists s5,
    (forall tail,
       Companion.pump interface decode_essid decode_psk (sized_lines ++ tail)
         Companion.cleared
       = Companion.pump interface decode_essid decode_psk tail s5) /\
    s5 = Companion.mkst sized_fields ConnectionStatus.init.
Proof.
  eexists. split.
  - intros tail. unfold sized_lines. cbn [app].
    do 5 (erewrite pump_step; [|vm_compute; reflexivity|reflexivity]).
    reflexivity.
  - vm_compute. reflexivity.
Qed.

End Lines.

(** [got_all()] is true exactly when the six fields are all non-empty; it
    does not look at their lengths. *)
Lemma got_all_non_empty (d : PixiewpsData.t) :
  PixiewpsData.truthy (PixiewpsData.got_all d) = true <->
  (PixiewpsData.pke d <> "" /\ PixiewpsData.pkr d <> "" /\
   PixiewpsData.e_nonce d <> "" /\ PixiewpsData.authkey d <> "" /\
   PixiewpsData.e_hash1 d <> "" /\ PixiewpsData.e_hash2 d <> "").
Proof.
  destruct d as [a b c e f g]. unfold PixiewpsData.got_all, PixiewpsData.truthy.
  cbn [PixiewpsData.pke PixiewpsData.pkr PixiewpsData.e_nonce PixiewpsData.authkey
       PixiewpsData.e_hash1 PixiewpsData.e_hash2].
  destruct a, b, c, e, f, g; cbn; split; intros H;
    try discriminate H; try reflexivity;
    try (destruct H as (H1 & H2 & H3 & H4 & H5 & H6); congruence);
    repeat split; discriminate.
Qed.

End TraceFacts.

Import TraceFacts.

(** C3, amended. After a trace of message lines, received or built, with
    [WPS: Received WSC_NACK] as its last line, the status is [WSC_NACK],
    the message number is the number of the last message line (0 when
    there is none) and [isFirstHalfValid()] is true exactly when that
    number is above 5.  Receiving M5 stores 5 and does not make the first
    half valid; the line [WPS: Building Message M6] that follows the M5 of
    a valid first half does. *)
Theorem first_half_valid_iff_message_above_5
  (interface : string) (decode_essid decode_psk : string -> option string)
  (reply : string) (ms : list (bool * Z)) :
  contains "OK" reply = true ->
  Forall (fun m => 0 <= snd m) ms ->
  let cs := Companion.connection_status
              (Companion.__wps_connection interface decode_essid decode_psk
                 (Some reply) (messages_then_nack ms)) in
  status cs = WSC_NACK /\
  last_m_message cs = last (map snd ms) 0 /\
  isFirstHalfValid cs = (5 <? last (map snd ms) 0).
Proof.
  intros Hok F cs. subst cs. unfold Companion.__wps_connection.
  rewrite Hok. cbn [negb].
  rewrite (pump_messages_then_nack interface decode_essid decode_psk ms
             Companion.cleared F eq_refl).
  cbn [Companion.with_cs Companion.connection_status Companion.cleared
       ConnectionStatus.init status last_m_message].
  unfold isFirstHalfValid. cbn [last_m_message].
  split; [reflexivity|]. split; reflexivity.
Qed.

Lemma first_half_valid_iff_message_above_5_witness :
  let cs := Companion.connection_status
              (Companion.__wps_connection Simulated.iface Simulated.plain Simulated.plain
                 (Some "OK") (messages_then_nack [(true, 5); (false, 6)])) in
  status cs = WSC_NACK /\
  last_m_message cs = last (map snd [(true, 5); (false, 6)]) 0 /\
  isFirstHalfValid cs = (5 <? last (map snd [(true, 5); (false, 6)]) 0).
Proof.
  apply (first_half_valid_iff_message_above_5 Simulated.iface Simulated.plain
           Simulated.plain "OK" [(true, 5); (false, 6)]).
  - reflexivity.
  - repeat constructor; simpl; lia.
Defined.

(** C3 as stated fails: on the trace [WPS: Received M5],
    [WPS: Received WSC_NACK] the session ends with status [WSC_NACK] and
    message number 5, and [isFirstHalfValid()] is false.  The same two
    lines without the prefix [WPS: ] are not classified at all. *)
Lemma received_m5_then_nack_not_valid :
  let run := Companion.__wps_connection Simulated.iface Simulated.plain Simulated.plain
               (Some "OK") in
  messages_then_nack [(true, 5)] = ["WPS: Received M5"; "WPS: Received WSC_NACK"] /\
  Companion.connection_status (run ["WPS: Received M5"; "WPS: Received WSC_NACK"])
  = ConnectionStatus.mk WSC_NACK 5 "" "" /\
  isFirstHalfValid
    (Companion.connection_status (run ["WPS: Received M5"; "WPS: Received WSC_NACK"]))
  = false /\
  Companion.connection_status (run ["Received M5"; "Received WSC_NACK"])
  = ConnectionStatus.init /\
  isFirstHalfValid
    (Companion.connection_status (run ["Received M5"; "Received WSC_NACK"]))
  = false.
Proof. vm_compute. repeat split; reflexivity. Qed.

(** After the trace with a hash of two bytes all six fields are set and
    [got_all()] is true. *)
Example got_all_accepts_short_hash :
  let d := Companion.pixie_creds
             (Companion.__wps_connection iface plain plain (Some "OK") short_hash_trace) in
  PixiewpsData.truthy (PixiewpsData.got_all d) = true /\
  PixiewpsData.e_hash2 d = "5E5E" /\
  complete_and_sized d = false.
Proof. vm_compute. repeat split; reflexivity. Qed.

(** C4. [got_all()] does not stand for six fields of the mandated sizes.
    The branch of a hexdump line assigns the field and asserts its length
    afterwards, and the handler of [__handle_wpas] catches the failed
    assertion.  So after five well-sized fields, a line of [E-Hash2] with
    [k] bytes, [k] other than 32 and not 0, is refused ([__handle_wpas]
    returns [False] and the session ends there) and yet stored: the
    field holds [2 k] hex digits and [got_all()] is true, where before that
    line it was false with every field empty or of its size. *)
Theorem got_all_true_after_failed_length_assertion
  (interface : string) (decode_essid decode_psk : string -> option string) (k : nat) :
  (1 <= k)%nat -> k <> 32%nat ->
  let before := Companion.pump interface decode_essid decode_psk sized_lines
                  Companion.cleared in
  let st := Companion.__wps_connection interface decode_essid decode_psk (Some "OK")
              (hash_trace k) in
  let d := Companion.pixie_creds st in
  PixiewpsData.truthy (PixiewpsData.got_all (Companion.pixie_creds before)) = false /\
  Handshake.sized (Companion.pixie_creds before) = true /\
  Companion.__handle_wpas interface decode_essid decode_psk (Some (hash2_line k)) before
  = (false, st) /\
  d = PixiewpsData.set_e_hash2 (Companion.pixie_creds before) (hex_text k) /\
  String.length (PixiewpsData.e_hash2 d) = (2 * k)%nat /\
  PixiewpsData.truthy (PixiewpsData.got_all d) = true /\
  complete_and_sized d = false.
Proof.
  intros Hk Hne before st d.
  destruct (pump_sized_lines interface decode_essid decode_psk) as (s5 & P & E5).
  assert (Hb : before = s5).
  { subst before. rewrite <- (app_nil_r sized_lines), P. reflexivity. }
  assert (Hl : Companion.__handle_wpas interface decode_essid decode_psk
                 (Some (hash2_line k)) s5
               = (false, Companion.with_pc s5
                           (PixiewpsData.set_e_hash2 (Companion.pixie_creds s5)
                              (hex_text k)))).
  { rewrite handle_hash2_line. unfold Companion.store_hex. cbv zeta.
    rewrite get_hex_hash2_line, hex_text_length.
    destruct (Nat.eqb_spec (2 * k) (32 * 2)) as [E|_]; [lia|reflexivity]. }
  assert (Hst : st = Companion.with_pc s5
                       (PixiewpsData.set_e_hash2 (Companion.pixie_creds s5)
                          (hex_text k))).
  { subst st. unfold Companion.__wps_connection, hash_trace.
    change (negb (contains "OK" "OK")) with false. cbv iota.
    rewrite P. cbn [Companion.pump]. rewrite Hl. reflexivity. }
  assert (Hd : d = PixiewpsData.set_e_hash2 sized_fields (hex_text k)).
  { subst d. rewrite Hst, E5. reflexivity. }
  rewrite Hb. clearbody before st d. subst before st d s5.
  cbn [Companion.pixie_creds Companion.with_pc].
  split; [reflexivity|]. split; [vm_compute; reflexivity|].
  split; [exact Hl|]. split; [reflexivity|].
  unfold PixiewpsData.set_e_hash2, sized_fields.
  cbn [PixiewpsData.e_hash2 PixiewpsData.pke PixiewpsData.pkr PixiewpsData.e_hash1
       PixiewpsData.authkey PixiewpsData.e_nonce].
  split; [apply hex_text_length|]. split.
  - apply got_all_non_empty.
    cbn [PixiewpsData.e_hash2 PixiewpsData.pke PixiewpsData.pkr PixiewpsData.e_hash1
         PixiewpsData.authkey PixiewpsData.e_nonce].
    repeat split; try discriminate.
    destruct k; [lia|discriminate].
  - unfold complete_and_sized.
    cbn [PixiewpsData.e_hash2 PixiewpsData.pke PixiewpsData.pkr PixiewpsData.e_hash1
         PixiewpsData.authkey PixiewpsData.e_nonce].
    assert (F : decodes_to 32 (hex_text k) = false).
    { unfold decodes_to. rewrite hex_text_length.
      destruct (Nat.eqb_spec (2 * k) (2 * 32)) as [E|_]; [lia|reflexivity]. }
    rewrite F. apply andb_false_r.
Qed.

Lemma got_all_true_after_failed_length_assertion_witness :
  let before := Companion.pump Simulated.iface Simulated.plain Simulated.plain sized_lines
                  Companion.cleared in
  let st := Companion.__wps_connection Simulated.iface Simulated.plain Simulated.plain
              (Some "OK") (hash_trace 2) in
  let d := Companion.pixie_creds st in
  PixiewpsData.truthy (PixiewpsData.got_all (Companion.pixie_creds before)) = false /\
  Handshake.sized (Companion.pixie_creds before) = true /\
  Companion.__handle_wpas Simulated.iface Simulated.plain Simulated.plain
    (Some (hash2_line 2)) before
  = (false, st) /\
  d = PixiewpsData.set_e_hash2 (Companion.pixie_creds before) (hex_text 2) /\
  String.length (PixiewpsData.e_hash2 d) = (2 * 2)%nat /\
  PixiewpsData.truthy (PixiewpsData.got_all d) = true /\
  complete_and_sized d = false.
Proof.
  apply (got_all_true_after_failed_length_assertion Simulated.iface Simulated.plain
           Simulated.plain 2); [lia|discriminate].
Defined.

(** * Further properties *)

Import PyStr PyStrFacts AddressFacts DelimiterFacts ChecksumFacts.

Module FixedWidthFacts.

Lemma app_empty_r (s : string) : s ++ "" = s.
Proof. induction s as [|c s IH]; simpl; [reflexivity|now rewrite IH]. Qed.

Lemma zeros_snoc n : zeros n ++ "0" = String "0" (zeros n).
Proof. induction n as [|n IH]; simpl; [reflexivity|now rewrite IH]. Qed.

Lemma snoc_decomp (s : string) :
  s <> "" -> exists t c, s = t ++ String c "".
Proof.
  induction s as [|a s IH]; [congruence|]. intros _.
  destruct s as [|b s].
  - exists "", a. reflexivity.
  - destruct IH as (t & c & E); [discriminate|].
    exists (String a t), c. cbn [append]. now rewrite E.
Qed.

Lemma string_snoc_ind (P : string -> Prop) :
  P "" -> (forall t c, P t -> P (t ++ String c "")) -> forall s, P s.
Proof.
  intros H0 Hs s.
  assert (G : forall n s, String.length s = n -> P s).
  { clear s. induction n as [|n IH]; intros s Hl.
    - destruct s; [exact H0|discriminate Hl].
    - destruct (snoc_decomp s) as (t & c & ->); [intros ->; discriminate Hl|].
      apply Hs. apply IH. rewrite str_length_app in Hl. simpl in Hl. lia. }
  exact (G _ s eq_refl).
Qed.

Lemma digit_val_range c d : digit_val c = Some d -> 0 <= d < 36.
Proof.
  intros H. each_char c; vm_compute in H; try discriminate H;
    injection H as <-; lia.
Qed.

Lemma upper_digit_char c d :
  digit_val c = Some d -> d < 16 -> upper_char (digit_char d) = upper_char c.
Proof.
  intros H Hd. each_char c; vm_compute in H; try discriminate H;
    injection H as <-; try reflexivity; exfalso; lia.
Qed.

Lemma upper_zeros n : upper (zeros n) = zeros n.
Proof. induction n as [|n IH]; simpl; [reflexivity|]. now rewrite IH. Qed.

Lemma lit_value_snoc base acc t c :
  lit_value base acc (t ++ String c "")
  = lit_value base acc t * base + match digit_val c with Some d => d | None => 0 end.
Proof. rewrite lit_value_app. reflexivity. Qed.

Section Width.

Variable base : Z.
Hypothesis base_lo : 2 <= base.
Hypothesis base_hi : base <= 16.

Lemma fixed_digits_zero w : fixed_digits w base 0 = zeros w.
Proof.
  induction w as [|w IH]; [reflexivity|].
  cbn [fixed_digits]. rewrite Z.div_0_l, Z.mod_0_l, IH by lia.
  apply zeros_snoc.
Qed.

Lemma fixed_digits_length w : forall n, String.length (fixed_digits w base n) = w.
Proof.
  induction w as [|w IH]; intros n; [reflexivity|].
  cbn [fixed_digits]. rewrite str_length_app, IH. simpl. lia.
Qed.

Lemma fixed_digits_lit w : forall n,
  0 <= n -> is_lit base (fixed_digits w base n) = true.
Proof.
  induction w as [|w IH]; intros n Hn; [reflexivity|].
  cbn [fixed_digits]. rewrite is_lit_app, IH by (apply Z.div_pos; lia).
  pose proof (Z.mod_pos_bound n base ltac:(lia)) as Hm.
  cbn [is_lit andb]. rewrite digit_val_digit_char by lia.
  destruct (Z.ltb_spec (n mod base) base); [reflexivity|lia].
Qed.

Lemma digits_length_bound k : forall n,
  0 <= n < base ^ Z.of_nat (S k) -> (String.length (digits base n) <= S k)%nat.
Proof.
  induction k as [|k IH]; intros n Hn.
  - rewrite digits_small by (rewrite Z.pow_1_r in Hn; lia). simpl. lia.
  - destruct (Z.lt_ge_cases n (base ^ Z.of_nat (S k))) as [Hlt|Hge].
    + specialize (IH n ltac:(lia)). lia.
    + pose proof (digits_length base base_lo base_hi n (S k) ltac:(lia)) as E. lia.
Qed.

(** [zfill] of the digits of a number that fits is the fixed-width form. *)
Lemma zfill_digits w : forall n,
  0 <= n < base ^ Z.of_nat (S w) ->
  zfill (S w) (digits base n) = fixed_digits (S w) base n.
Proof.
  induction w as [|w IH]; intros n Hn.
  - rewrite Z.pow_1_r in Hn.
    rewrite digits_small by lia. cbn [fixed_digits append].
    rewrite Z.mod_small by lia.
    rewrite (zfill_lit base); [reflexivity|exact base_hi|].
    cbn [is_lit]. rewrite digit_val_digit_char by lia.
    destruct (Z.ltb_spec n base); [reflexivity|lia].
  - destruct (Z.lt_ge_cases n base) as [Hlt|Hge].
    + rewrite digits_small by lia. remember (S w) as w1.
      cbn [fixed_digits]. rewrite Z.div_small, Z.mod_small, fixed_digits_zero by lia.
      rewrite (zfill_lit base); [|exact base_hi|].
      * cbn [String.length]. replace (S w1 - 1)%nat with w1 by lia. reflexivity.
      * cbn [is_lit]. rewrite digit_val_digit_char by lia.
        destruct (Z.ltb_spec n base); [reflexivity|lia].
    + assert (Hq : 0 <= n / base < base ^ Z.of_nat (S w)).
      { rewrite (Nat2Z.inj_succ (S w)), Z.pow_succ_r in Hn by lia.
        split; [apply Z.div_pos; lia|apply Z.div_lt_upper_bound; lia]. }
      remember (S w) as w1. cbn [fixed_digits]. subst w1.
      rewrite <- IH by exact Hq.
      rewrite (digits_step base base_lo base_hi n Hge).
      pose proof (digits_length_bound w (n / base) Hq) as Hlen.
      pose proof (Z.mod_pos_bound n base ltac:(lia)) as Hm.
      assert (L1 : is_lit base (digits base (n / base)) = true)
        by (apply digits_lit; lia).
      rewrite !(zfill_lit base); try assumption.
      * rewrite str_length_app. cbn [String.length].
        replace (S (S w) - (String.length (digits base (n / base)) + 1))%nat
          with (S w - String.length (digits base (n / base)))%nat by lia.
        now rewrite str_app_assoc.
      * rewrite is_lit_app, L1. cbn [is_lit andb].
        rewrite digit_val_digit_char by lia.
        destruct (Z.ltb_spec (n mod base) base); [reflexivity|lia].
Qed.

Lemma lit_value_bound t :
  is_lit base t = true ->
  0 <= lit_value base 0 t < base ^ Z.of_nat (String.length t).
Proof.
  induction t as [|t c IH] using string_snoc_ind; intros H.
  - simpl. lia.
  - rewrite is_lit_app in H. apply andb_true_iff in H. destruct H as [Ht Hc].
    destruct (is_lit_cons _ _ _ Hc) as (d & Hd & Hlt & _).
    pose proof (digit_val_range c d Hd) as Hr.
    specialize (IH Ht).
    rewrite lit_value_snoc, Hd, str_length_app. cbn [String.length].
    rewrite Nat.add_1_r, Nat2Z.inj_succ, Z.pow_succ_r by lia. nia.
Qed.

(** The fixed-width digits of the value of a digit string give the string
    back, up to letter case. *)
Lemma fixed_digits_of_value t :
  is_lit base t = true ->
  upper (fixed_digits (String.length t) base (lit_value base 0 t)) = upper t.
Proof.
  induction t as [|t c IH] using string_snoc_ind; intros H; [reflexivity|].
  rewrite is_lit_app in H. apply andb_true_iff in H. destruct H as [Ht Hc].
  destruct (is_lit_cons _ _ _ Hc) as (d & Hd & Hlt & _).
  pose proof (digit_val_range c d Hd) as Hr.
  rewrite lit_value_snoc, Hd, str_length_app. cbn [String.length].
  rewrite Nat.add_1_r. cbn [fixed_digits].
  replace (lit_value base 0 t * base + d) with (d + lit_value base 0 t * base) by lia.
  rewrite Z.div_add, Z.mod_add by lia.
  rewrite Z.div_small, Z.mod_small by lia. cbn [Z.add].
  rewrite !upper_app, (IH Ht). f_equal. cbn [upper].
  rewrite (upper_digit_char c d Hd ltac:(lia)). reflexivity.
Qed.

End Width.

End FixedWidthFacts.

Import FixedWidthFacts.

Module CanonicalFacts.

Import NetworkAddress.

Lemma hex_upper_lit c :
  is_hex_char (upper_char c) = true -> exists d, digit_val c = Some d /\ d < 16.
Proof.
  intros H. each_char c; vm_compute in H; try discriminate H;
    eexists; (split; [reflexivity|reflexivity]).
Qed.

(** What the address code needs to know of a hex digit. *)
Lemma lit_char_facts c d :
  digit_val c = Some d -> d < 16 ->
  is_hex_char c = true /\
  Ascii.eqb c "-" = false /\ Ascii.eqb c "." = false /\
  Ascii.eqb c ":" = false /\ is_space c = false.
Proof.
  intros H Hd. each_char c; vm_compute in H; try discriminate H;
    injection H as <-; try (exfalso; lia); repeat split; reflexivity.
Qed.

Lemma upper_char_sep c :
  (upper_char c = ":"%char -> c = ":"%char) /\
  (upper_char c = "-"%char -> c = "-"%char) /\
  (upper_char c = nl -> c = nl).
Proof.
  each_char c; repeat split; intros H; vm_compute in H; try discriminate H;
    reflexivity.
Qed.

Lemma upper_char_idem c : upper_char (upper_char c) = upper_char c.
Proof. each_char c; reflexivity. Qed.

Lemma upper_idem s : upper (upper s) = upper s.
Proof.
  induction s as [|c s IH]; [reflexivity|].
  cbn [upper]. now rewrite upper_char_idem, IH.
Qed.

Lemma twelve_chars s :
  String.length s = 12%nat ->
  exists c1 c2 c3 c4 c5 c6 c7 c8 c9 c10 c11 c12,
    s = String c1 (String c2 (String c3 (String c4 (String c5 (String c6
        (String c7 (String c8 (String c9 (String c10 (String c11 (String c12 ""))))))))))).
Proof.
  intros H. do 12 (destruct s as [|? s]; [discriminate H|]).
  destruct s; [|discriminate H]. repeat eexists.
Qed.

Lemma int2mac_colon_form m :
  _int2mac m
  = colon_form (zfill 12 (upper (last (split_char "x" (py_hex m)) ""))).
Proof. reflexivity. Qed.

(** For a 48-bit [m] the text [_int2mac] cuts in pairs is the 12 hex
    digits of [m], upper case. *)
Lemma int2mac_fixed m :
  0 <= m < 2 ^ 48 ->
  _int2mac m = colon_form (upper (fixed_digits 12 16 m)).
Proof.
  intros Hm. rewrite int2mac_colon_form, hex_field by lia.
  f_equal.
  rewrite <- (zfill_digits 16 ltac:(lia) ltac:(lia) 11 m) by exact Hm.
  assert (L : is_lit 16 (digits 16 m) = true) by (apply digits_lit; lia).
  rewrite !(zfill_lit 16) by (try lia; rewrite ?is_lit_upper; exact L).
  now rewrite upper_app, upper_zeros, upper_length.
Qed.

Lemma fixed_digits_value base w n :
  2 <= base -> base <= 16 -> 0 <= n < base ^ Z.of_nat (S w) ->
  lit_value base 0 (fixed_digits (S w) base n) = n.
Proof.
  intros H1 H2 Hn. rewrite <- zfill_digits by assumption.
  rewrite (zfill_lit base) by (try assumption; apply digits_lit; lia).
  rewrite lit_value_app, zeros_value, Z.mul_0_l. apply digits_value; lia.
Qed.

(** The colon form of twelve hex digits, with or without a final
    newline, matches the address pattern and holds no other delimiter. *)
Lemma colon_form_valid T tail :
  is_lit 16 T = true -> String.length T = 12%nat ->
  (tail = "" \/ tail = String nl "") ->
  _is_valid_mac (colon_form T ++ tail) = true /\
  has "-" (colon_form T ++ tail) = false /\
  has "." (colon_form T ++ tail) = false.
Proof.
  intros H Hlen Htail.
  destruct (twelve_chars T Hlen) as (c1&c2&c3&c4&c5&c6&c7&c8&c9&c10&c11&c12&->).
  clear Hlen. lit_chars is_lit_cons lit_char_facts H. clear H.
  unfold colon_form.
  cbn [upper map slice substring Nat.add Nat.sub join append].
  destruct Htail as [-> | ->]; repeat split.
  all: try (unfold _is_valid_mac; cbn [match_octets Ascii.eqb Bool.eqb orb];
            repeat (progress (use_facts; cbn [andb])); reflexivity).
  all: cbn [has]; use_facts; reflexivity.
Qed.

Lemma colon_form_upper T :
  String.length T = 12%nat -> upper (colon_form T) = colon_form (upper T).
Proof.
  intros Hlen.
  destruct (twelve_chars T Hlen) as (c1&c2&c3&c4&c5&c6&c7&c8&c9&c10&c11&c12&->).
  reflexivity.
Qed.

Lemma colon_form_digits T :
  is_lit 16 T = true -> String.length T = 12%nat ->
  replace ":" "" (colon_form T) = T.
Proof.
  intros H Hlen. unfold colon_form.
  pose proof (pairs_of_twelve T "" H Hlen) as P.
  rewrite app_empty_r in P. exact P.
Qed.

Lemma int_strip_newline base T :
  base <= 16 -> is_lit base T = true -> T <> "" ->
  int_strip (T ++ String nl "") = T.
Proof.
  intros Hb H Hne.
  assert (R : forall u, is_lit base u = true -> u <> "" ->
                   int_rstrip (u ++ String nl "") = u).
  { induction u as [|c u IH]; intros Ht Hn; [congruence|].
    destruct (is_lit_cons _ _ _ Ht) as (d & Hd & Hlt & Hr).
    destruct (digit_val_special c d Hd ltac:(lia)) as (Hsp & _).
    apply int_space_is_space in Hsp.
    destruct u as [|c2 u].
    - cbn. rewrite Hsp. reflexivity.
    - change (int_rstrip (String c (String c2 u) ++ String nl ""))
        with (match int_rstrip (String c2 u ++ String nl "") with
              | "" => if is_int_space c then "" else String c ""
              | String x y => String c (String x y)
              end).
      rewrite IH by (assumption || congruence). reflexivity. }
  unfold int_strip.
  destruct T as [|c T]; [congruence|].
  destruct (is_lit_cons _ _ _ H) as (d & Hd & Hlt & Hr).
  destruct (digit_val_special c d Hd ltac:(lia)) as (Hsp & _).
  apply int_space_is_space in Hsp.
  cbn [append int_lstrip]. rewrite Hsp.
  now apply (R (String c T)).
Qed.

Lemma py_int_newline base T :
  base <= 16 -> is_lit base T = true -> T <> "" ->
  py_int base (T ++ String nl "") = Some (lit_value base 0 T).
Proof.
  intros Hb H Hne. rewrite <- (py_int_lit base T Hb H Hne).
  unfold py_int. rewrite (int_strip_newline base T Hb H Hne), (int_strip_lit base T Hb H).
  reflexivity.
Qed.

(** The integer read from a colon form is the value of its twelve
    digits. *)
Lemma mac2int_colon_form T tail :
  is_lit 16 T = true -> String.length T = 12%nat ->
  (tail = "" \/ tail = String nl "") ->
  _mac2int (colon_form T ++ tail) = Ok (lit_value 16 0 T).
Proof.
  intros H Hlen Htail. unfold _mac2int.
  rewrite replace_app, colon_form_digits by assumption.
  assert (Hne : T <> "") by (destruct T; [discriminate Hlen|congruence]).
  destruct Htail as [-> | ->].
  - cbn [replace]. rewrite app_empty_r, py_int_lit by (assumption || lia).
    reflexivity.
  - change (replace ":" "" (String nl "")) with (String nl "").
    rewrite py_int_newline by (assumption || lia). reflexivity.
Qed.

Lemma int2mac_of_value T :
  is_lit 16 T = true -> String.length T = 12%nat ->
  0 <= lit_value 16 0 T < 2 ^ 48 /\
  _int2mac (lit_value 16 0 T) = colon_form (upper T).
Proof.
  intros H Hlen.
  assert (B : 0 <= lit_value 16 0 T < 16 ^ Z.of_nat (String.length T))
    by (apply lit_value_bound; (lia || assumption)).
  rewrite Hlen in B. change (16 ^ Z.of_nat 12) with (2 ^ 48) in B.
  split; [exact B|].
  rewrite int2mac_fixed by exact B. f_equal.
  assert (F : upper (fixed_digits (String.length T) 16 (lit_value 16 0 T)) = upper T)
    by (apply fixed_digits_of_value; (lia || assumption)).
  rewrite Hlen in F. exact F.
Qed.

(** One round of the address pattern. *)
Lemma match_octets_S k s r :
  match_octets (S k) s = Some r ->
  exists a b d s', s = String a (String b (String d s')) /\
    is_hex_char a = true /\ is_hex_char b = true /\
    (d = ":"%char \/ d = "-"%char) /\ match_octets k s' = Some r.
Proof.
  cbn [match_octets]. destruct s as [|a [|b [|d s']]]; try discriminate.
  destruct (is_hex_char a) eqn:Ha; [|discriminate].
  destruct (is_hex_char b) eqn:Hb; [|discriminate].
  cbn [andb]. intros H. exists a, b, d, s'.
  destruct (Ascii.eqb_spec d ":") as [->|_]; [now auto 10|].
  destruct (Ascii.eqb_spec d "-") as [->|_]; [now auto 10|].
  discriminate H.
Qed.

Lemma upper_cons_inv s x r :
  upper s = String x r -> exists c s', s = String c s' /\ upper_char c = x /\ upper s' = r.
Proof.
  destruct s as [|c s']; [discriminate|].
  cbn [upper]. intros H. injection H as H1 H2. now exists c, s'.
Qed.

Lemma upper_nil_inv s : upper s = "" -> s = "".
Proof. destruct s; [reflexivity|discriminate]. Qed.

End CanonicalFacts.

Import CanonicalFacts.

Module ShapeFacts.

Import NetworkAddress.

Lemma lit_cons_intro base c d r :
  digit_val c = Some d -> d < base -> is_lit base r = true ->
  is_lit base (String c r) = true.
Proof.
  intros Hd Hlt Hr. cbn [is_lit]. rewrite Hd, Hr.
  destruct (Z.ltb_spec d base); [reflexivity|lia].
Qed.

(** The shape of a text whose upper-case form matches the address
    pattern and that holds no dash: a colon form, perhaps followed by a
    newline. *)
Lemma valid_upper_shape s :
  _is_valid_mac (upper s) = true -> has "-" s = false ->
  exists T tail, s = colon_form T ++ tail /\
    is_lit 16 T = true /\ String.length T = 12%nat /\
    (tail = "" \/ tail = String nl "").
Proof.
  unfold _is_valid_mac. intros V Hd.
  destruct (match_octets 5 (upper s)) as [r|] eqn:M; [|discriminate V].
  remember (upper s) as U eqn:E. symmetry in E.
  do 5 (octet match_octets_S upper_cons_inv hex_upper_lit upper_char_sep M E Hd).
  cbn [match_octets] in M. injection M as M. subst r.
  destruct u3 as [|a [|b r]]; try discriminate V.
  apply andb_true_iff in V as [V Vt]. apply andb_true_iff in V as [Ha Hb].
  hex_char upper_cons_inv hex_upper_lit E Ha.
  hex_char upper_cons_inv hex_upper_lit E Hb.
  eexists (String _ (String _ (String _ (String _ (String _ (String _
          (String _ (String _ (String _ (String _ (String _ (String _ "")))))))))))).
  eexists. split; [|split; [|split]].
  - unfold colon_form.
    cbn [map slice substring Nat.add Nat.sub join append]. reflexivity.
  - repeat (eapply lit_cons_intro; [eassumption|assumption|]). reflexivity.
  - reflexivity.
  - apply orb_true_iff in Vt as [Vt|Vt]; apply String.eqb_eq in Vt; rewrite Vt in E.
    + left. now apply upper_nil_inv.
    + right. apply upper_cons_inv in E as (cn & ? & -> & Hc & E).
      apply upper_nil_inv in E. subst. apply upper_char_sep in Hc. now subst.
Qed.

End ShapeFacts.

Import ShapeFacts.

Module AddressExtras.

Import NetworkAddress.

(** The twelve upper-case hex digits of a 48-bit integer. *)
Lemma hex12_facts m :
  0 <= m < 2 ^ 48 ->
  is_lit 16 (upper (fixed_digits 12 16 m)) = true /\
  String.length (upper (fixed_digits 12 16 m)) = 12%nat /\
  lit_value 16 0 (upper (fixed_digits 12 16 m)) = m.
Proof.
  intros Hm.
  assert (L : is_lit 16 (fixed_digits 12 16 m) = true)
    by (apply fixed_digits_lit; lia).
  split; [|split].
  - now rewrite is_lit_upper.
  - rewrite upper_length. apply fixed_digits_length.
  - rewrite lit_value_upper by exact L.
    apply fixed_digits_value; (lia || exact Hm).
Qed.

(** An accepted text and the address built from it. *)
Lemma init_text_shape s a :
  __init__ (PStr s) = Ok a ->
  exists T tail,
    s = colon_form T ++ tail /\ is_lit 16 T = true /\
    String.length T = 12%nat /\ (tail = "" \/ tail = String nl "") /\
    a = mk (colon_form (upper T) ++ tail) (lit_value 16 0 T).
Proof.
  intros H.
  destruct (init_ok_no_dash_or_dot s a H) as (Hd & Hp).
  cbn [__init__] in H.
  rewrite (replace_absent "-" ":" s Hd), (replace_absent "." ":" s Hp) in H.
  destruct (_is_valid_mac (upper s)) eqn:V; [|discriminate H].
  cbn [negb] in H.
  destruct (valid_upper_shape s V Hd) as (T & tail & -> & L & Len & Ht).
  exists T, tail. repeat (split; [assumption || reflexivity|]).
  rewrite (mac2int_colon_form T tail L Len Ht) in H. cbn [bind] in H.
  injection H as <-. f_equal.
  rewrite upper_app, colon_form_upper by exact Len.
  f_equal. destruct Ht as [-> | ->]; reflexivity.
Qed.

End AddressExtras.

Import NetworkAddress AddressExtras.

(** X1. For every 48-bit integer [m], the text [_int2mac m] is a valid
    address text, [_mac2int] reads [m] back from it, and constructing an
    address from that text gives the same address as constructing it from
    [m]. *)
Theorem int2mac_mac2int_round_trip (m : Z) :
  0 <= m < 2 ^ 48 ->
  _is_valid_mac (_int2mac m) = true /\
  _mac2int (_int2mac m) = Ok m /\
  __init__ (PStr (_int2mac m)) = __init__ (PInt m).
Proof.
  intros Hm.
  destruct (hex12_facts m Hm) as (L & Len & Val).
  pose proof (int2mac_fixed m Hm) as E.
  set (T := upper (fixed_digits 12 16 m)) in *.
  pose proof (app_empty_r (colon_form T)) as E0.
  destruct (colon_form_valid T "" L Len (or_introl eq_refl)) as (V & Hd & Hp).
  pose proof (mac2int_colon_form T "" L Len (or_introl eq_refl)) as M.
  rewrite E0 in V, Hd, Hp, M. rewrite Val in M.
  assert (U : upper (colon_form T) = colon_form T).
  { rewrite colon_form_upper by exact Len. unfold T. now rewrite upper_idem. }
  rewrite E. split; [exact V|]. split; [exact M|].
  cbn [__init__].
  rewrite (replace_absent "-" ":" _ Hd), (replace_absent "." ":" _ Hp), U, V, M.
  cbn [negb bind]. now rewrite E.
Qed.

Lemma int2mac_mac2int_round_trip_witness :
  0 <= 0x0014D1ABCDEF < 2 ^ 48 /\
  _mac2int (_int2mac 0x0014D1ABCDEF) = Ok 0x0014D1ABCDEF.
Proof.
  split; [lia|].
  apply (int2mac_mac2int_round_trip 0x0014D1ABCDEF). lia.
Defined.

(** X2. Every address constructed from a text holds a 48-bit integer and
    the upper-case form of the text; that string is the canonical text of
    the integer, followed by a newline when the accepted text ended with
    one. *)
Theorem init_text_synchronized (s : string) (a : t) :
  __init__ (PStr s) = Ok a ->
  0 <= integer a < 2 ^ 48 /\
  string_ a = upper s /\
  (string_ a = _int2mac (integer a) \/
   string_ a = _int2mac (integer a) ++ String nl "") /\
  (String.length s = 17%nat -> string_ a = _int2mac (integer a)).
Proof.
  intros H.
  destruct (init_text_shape s a H) as (T & tail & -> & L & Len & Ht & ->).
  destruct (int2mac_of_value T L Len) as (B & E).
  cbn [integer string_ _int_repr _str_repr]. rewrite E.
  split; [exact B|]. split; [|split].
  - rewrite upper_app, colon_form_upper by exact Len.
    f_equal. destruct Ht as [-> | ->]; reflexivity.
  - destruct Ht as [-> | ->]; [left; apply app_empty_r|right; reflexivity].
  - intros Hl. destruct Ht as [-> | ->]; [apply app_empty_r|].
    exfalso. rewrite str_length_app in Hl.
    destruct (twelve_chars T Len) as (c1&c2&c3&c4&c5&c6&c7&c8&c9&c10&c11&c12&->).
    discriminate Hl.
Qed.

Lemma init_text_synchronized_witness :
  string_ (mk "AA:BB:CC:00:1E:FF" 0xAABBCC001EFF) = _int2mac 0xAABBCC001EFF.
Proof.
  apply (init_text_synchronized "aa:bb:cc:00:1e:ff" (mk "AA:BB:CC:00:1E:FF" 0xAABBCC001EFF));
    reflexivity.
Defined.

(** An accepted text that ends with a newline leaves the newline in the
    stored string. *)
Example init_keeps_final_newline :
  __init__ (PStr ("aa:bb:cc:00:1e:ff" ++ String nl ""))
  = Ok (mk ("AA:BB:CC:00:1E:FF" ++ String nl "") 0xAABBCC001EFF).
Proof. reflexivity. Qed.

(** X3. On an address constructed from a 17-character text, or from an
    integer, adding [n] and subtracting it again gives the address back,
    whatever [n]. *)
Theorem iadd_isub_restores (mac : pyarg) (a : t) (n : Z) :
  __init__ mac = Ok a ->
  match mac with
  | PStr s => String.length s = 17%nat
  | _ => True
  end ->
  __isub__ (__iadd__ a n) n = a.
Proof.
  intros H Hm.
  assert (S : string_ a = _int2mac (integer a)).
  { destruct mac as [m|s|].
    - cbn [__init__] in H. injection H as <-. reflexivity.
    - now apply (init_text_synchronized s a H).
    - discriminate H. }
  unfold __isub__, __iadd__, set_integer. cbn [integer _int_repr].
  replace (integer a + n - n) with (integer a) by lia.
  rewrite <- S. now destruct a.
Qed.

Lemma iadd_isub_restores_witness :
  __isub__ (__iadd__ (mk "AA:BB:CC:00:1E:FF" 0xAABBCC001EFF) (2 ^ 50)) (2 ^ 50)
  = mk "AA:BB:CC:00:1E:FF" 0xAABBCC001EFF.
Proof.
  apply (iadd_isub_restores (PStr "aa:bb:cc:00:1e:ff")); reflexivity.
Defined.

Module OctetFacts.

Import NetworkAddress EnhancedWPSpin.

(** The text [hex] leaves after its [x], for either sign. *)
Lemma hex_field_abs m :
  last (split_char "x" (py_hex m)) "" = digits 16 (Z.abs m).
Proof.
  destruct (Z.ltb_spec m 0) as [Hn|Hp].
  - unfold py_hex. destruct (Z.ltb_spec m 0); [|lia].
    rewrite Z.abs_neq by lia.
    cbn [append split_char Ascii.eqb Bool.eqb].
    rewrite (split_char_lit 16 "x" (digits 16 (- m)));
      [reflexivity|lia|apply digits_lit; lia|now left].
  - rewrite Z.abs_eq by lia. now apply hex_field.
Qed.

Lemma length_split (s : string) (n : nat) :
  (n <= String.length s)%nat ->
  exists a b, s = a ++ b /\ String.length a = n.
Proof.
  revert s. induction n as [|n IH]; intros s H.
  - exists "", s. split; reflexivity.
  - destruct s as [|c s]; [simpl in H; lia|].
    destruct (IH s) as (a & b & -> & Ha); [simpl in H; lia|].
    exists (String c a), b. split; [reflexivity|]. simpl. now rewrite Ha.
Qed.

Lemma colon_form_prefix T rest :
  String.length T = 12%nat -> colon_form (T ++ rest) = colon_form T.
Proof.
  intros Hlen.
  destruct (twelve_chars T Hlen) as (c1&c2&c3&c4&c5&c6&c7&c8&c9&c10&c11&c12&->).
  unfold colon_form.
  cbn [map slice substring Nat.add Nat.sub join append].
  destruct rest; reflexivity.
Qed.

(** Whatever the integer, [_int2mac] gives the colon form of twelve hex
    digits. *)
Lemma int2mac_text m :
  exists T, _int2mac m = colon_form T /\ is_lit 16 T = true /\
            String.length T = 12%nat.
Proof.
  rewrite int2mac_colon_form, hex_field_abs.
  set (W := upper (digits 16 (Z.abs m))).
  assert (L : is_lit 16 W = true)
    by (unfold W; rewrite is_lit_upper; apply digits_lit; lia).
  rewrite (zfill_lit 16) by (lia || exact L).
  set (Z12 := zeros (12 - String.length W) ++ W).
  assert (LZ : is_lit 16 Z12 = true)
    by (unfold Z12; rewrite is_lit_app, L, zeros_lit by lia; reflexivity).
  destruct (length_split Z12 12) as (a & b & E & Ha).
  { unfold Z12. rewrite str_length_app, zeros_length. lia. }
  exists a. rewrite E in LZ |- *. rewrite is_lit_app in LZ.
  apply andb_true_iff in LZ as [La _].
  split; [now apply colon_form_prefix|]. split; assumption.
Qed.

Lemma two_digit_value a b da db :
  digit_val a = Some da -> da < 16 -> digit_val b = Some db -> db < 16 ->
  (py_int 16 (String a (String b "")) = Some (da * 16 + db) /\
   py_int 16 (String a (String b (String nl ""))) = Some (da * 16 + db)) /\
  0 <= da * 16 + db < 256.
Proof.
  intros Ha La Hb Lb.
  assert (L : is_lit 16 (String a (String b "")) = true).
  { cbn [is_lit]. rewrite Ha, Hb.
    destruct (Z.ltb_spec da 16); [|lia]. destruct (Z.ltb_spec db 16); [|lia].
    reflexivity. }
  assert (V : lit_value 16 0 (String a (String b "")) = da * 16 + db).
  { cbn [lit_value]. rewrite Ha, Hb. lia. }
  pose proof (digit_val_range a da Ha). pose proof (digit_val_range b db Hb).
  split; [split|lia].
  - rewrite py_int_lit by (lia || exact L || discriminate). now rewrite V.
  - change (String a (String b (String nl "")))
      with (String a (String b "") ++ String nl "").
    rewrite py_int_newline by (lia || exact L || discriminate). now rewrite V.
Qed.

(** The six fields of a colon form, read in base 16, are six bytes. *)
Lemma colon_form_octets T tail :
  is_lit 16 T = true -> String.length T = 12%nat ->
  (tail = "" \/ tail = String nl "") ->
  exists b0 b1 b2 b3 b4 b5,
    octets (split_char ":" (colon_form T ++ tail)) = Ok [b0; b1; b2; b3; b4; b5] /\
    Forall (fun b => 0 <= b < 256) [b0; b1; b2; b3; b4; b5].
Proof.
  intros H Hlen Htail.
  destruct (twelve_chars T Hlen) as (c1&c2&c3&c4&c5&c6&c7&c8&c9&c10&c11&c12&->).
  clear Hlen.
  repeat match type of H with
         | is_lit _ (String ?c _) = true =>
             let d := fresh "d" in let Hd := fresh "Hd" in
             let Hlt := fresh "Hlt" in let F := fresh "F" in
             apply is_lit_cons in H; destruct H as (d & Hd & Hlt & H);
             pose proof (no_colon c d Hd Hlt) as F
         end.
  clear H.
  destruct (two_digit_value c1 c2 _ _ Hd Hlt Hd0 Hlt0) as ((P1 & _) & R1).
  destruct (two_digit_value c3 c4 _ _ Hd1 Hlt1 Hd2 Hlt2) as ((P2 & _) & R2).
  destruct (two_digit_value c5 c6 _ _ Hd3 Hlt3 Hd4 Hlt4) as ((P3 & _) & R3).
  destruct (two_digit_value c7 c8 _ _ Hd5 Hlt5 Hd6 Hlt6) as ((P4 & _) & R4).
  destruct (two_digit_value c9 c10 _ _ Hd7 Hlt7 Hd8 Hlt8) as ((P5 & _) & R5).
  destruct (two_digit_value c11 c12 _ _ Hd9 Hlt9 Hd10 Hlt10) as ((P6 & P6n) & R6).
  do 6 eexists.
  unfold colon_form.
  cbn [map slice substring Nat.add Nat.sub join append].
  destruct Htail as [-> | ->];
    cbn [append split_char Ascii.eqb Bool.eqb];
    rewrite F, F0, F1, F2, F3, F4, F5, F6, F7, F8, F9, F10;
    change (Ascii.eqb nl ":") with false;
    cbn [octets]; rewrite P1, P2, P3, P4, P5, ?P6, ?P6n; cbn [of_option bind];
    (split; [reflexivity|]);
    repeat (apply Forall_cons; [assumption|]); apply Forall_nil.
Qed.

(** Every constructed address has a string of six byte fields. *)
Lemma init_octets mac a :
  __init__ mac = Ok a ->
  exists b0 b1 b2 b3 b4 b5,
    octets (split_char ":" (string_ a)) = Ok [b0; b1; b2; b3; b4; b5] /\
    Forall (fun b => 0 <= b < 256) [b0; b1; b2; b3; b4; b5].
Proof.
  intros H. destruct mac as [m|s|]; [| |discriminate H].
  - cbn [__init__] in H. injection H as <-. cbn [string_ _str_repr].
    destruct (int2mac_text m) as (T & -> & L & Len).
    rewrite <- (app_empty_r (colon_form T)).
    apply colon_form_octets; auto.
  - destruct (init_text_shape s a H) as (T & tail & _ & L & Len & Ht & ->).
    cbn [string_ _str_repr].
    apply colon_form_octets; auto.
    + now rewrite is_lit_upper.
    + now rewrite upper_length.
Qed.

End OctetFacts.

Import OctetFacts.

Module GeneratorFacts.

Import NetworkAddress EnhancedWPSpin.

Lemma pinDLink_range a :
  exists p, pinDLink a = Ok (VInt p) /\ 1000000 <= p < 10000000.
Proof.
  unfold pinDLink. cbv zeta.
  match goal with |- context [?x mod 10000000] => set (X := x mod 10000000) end.
  assert (HX : 0 <= X < 10000000) by (apply Z.mod_pos_bound; lia).
  eexists. split; [reflexivity|].
  destruct (Z.ltb_spec X 1000000); [|lia].
  assert (0 <= X mod 9 < 9) by (apply Z.mod_pos_bound; lia). lia.
Qed.

Lemma pinASUS_digit_ok b0 b1 b2 b3 b4 b5 i :
  Forall (fun b => 0 <= b < 256) [b0; b1; b2; b3; b4; b5] -> (i < 7)%nat ->
  exists d, 0 <= d < 10 /\
    pinASUS_digit [b0; b1; b2; b3; b4; b5] i = Ok (String (digit_char d) "").
Proof.
  intros F Hi.
  repeat match goal with
         | F : Forall _ (_ :: _) |- _ => apply Forall_cons_iff in F as [? F]
         end.
  assert (G : forall x k, 0 <= x -> 0 <= k ->
            0 <= x mod (10 - k mod 7) < 10).
  { intros x k Hx Hk.
    assert (0 <= k mod 7 < 7) by (apply Z.mod_pos_bound; lia).
    assert (0 <= x mod (10 - k mod 7) < 10 - k mod 7)
      by (apply Z.mod_pos_bound; lia).
    lia. }
  do 7 (destruct i as [|i];
        [unfold pinASUS_digit;
         cbn [item nth_error Nat.modulo Nat.divmod fst snd Nat.sub of_option bind];
         eexists; (split; [|rewrite py_str_digit; [reflexivity|]]);
         apply G; lia|]).
  lia.
Qed.

Lemma snoc_digit_lit s d :
  is_lit 10 s = true -> 0 <= d < 10 ->
  is_lit 10 (s ++ String (digit_char d) "") = true /\
  String.length (s ++ String (digit_char d) "") = S (String.length s).
Proof.
  intros L Hd. rewrite is_lit_app, L, str_length_app. cbn [is_lit andb String.length].
  rewrite digit_val_digit_char by lia.
  destruct (Z.ltb_spec d 10); [|lia]. split; [reflexivity|lia].
Qed.

Lemma pinASUS_loop_ok b0 b1 b2 b3 b4 b5 :
  Forall (fun b => 0 <= b < 256) [b0; b1; b2; b3; b4; b5] ->
  forall k start pin,
    (start + k <= 7)%nat -> is_lit 10 pin = true ->
    exists pin',
      pinASUS_loop [b0; b1; b2; b3; b4; b5] (seq start k) pin = Ok pin' /\
      is_lit 10 pin' = true /\
      String.length pin' = (String.length pin + k)%nat.
Proof.
  intros F. induction k as [|k IH]; intros start pin Hk L.
  - exists pin. cbn [seq pinASUS_loop]. repeat split; [assumption|lia].
  - cbn [seq pinASUS_loop].
    destruct (pinASUS_digit_ok b0 b1 b2 b3 b4 b5 start F ltac:(lia)) as (d & Hd & ->).
    cbn [bind].
    destruct (snoc_digit_lit pin d L Hd) as (L' & Len').
    destruct (IH (S start) _ ltac:(lia) L') as (pin' & -> & L2 & Len2).
    exists pin'. repeat split; [assumption|lia].
Qed.

Lemma lit10_bound s :
  is_lit 10 s = true -> 0 <= lit_value 10 0 s < 10 ^ Z.of_nat (String.length s).
Proof. intros L. apply lit_value_bound; (lia || assumption). Qed.

(** Every address-based algorithm returns an integer on every constructed
    address. *)
Lemma pinASUS_total mac a :
  __init__ mac = Ok a -> exists v, pinASUS a = Ok (VInt v) /\ 0 <= v < 10000000.
Proof.
  intros H. destruct (init_octets mac a H) as (b0&b1&b2&b3&b4&b5&E&F).
  unfold pinASUS. rewrite E. cbn [bind].
  destruct (pinASUS_loop_ok b0 b1 b2 b3 b4 b5 F 7 0 "" ltac:(lia) eq_refl)
    as (pin & -> & L & Len).
  cbn [bind]. cbn [String.length Nat.add] in Len.
  rewrite py_int_lit by (lia || assumption || (intros ->; discriminate Len)).
  cbn [of_option bind]. eexists. split; [reflexivity|].
  pose proof (lit10_bound pin L) as B. rewrite Len in B. exact B.
Qed.

Lemma pinAirocon_total mac a :
  __init__ mac = Ok a -> exists v, pinAirocon a = Ok (VInt v).
Proof.
  intros H. destruct (init_octets mac a H) as (b0&b1&b2&b3&b4&b5&E&F).
  unfold pinAirocon. rewrite E. cbn [bind item nth_error of_option].
  eexists. reflexivity.
Qed.

Lemma lookup_In k d v : lookup k d = Some v -> In (k, v) d.
Proof.
  induction d as [|[k' v'] d IH]; [discriminate|].
  cbn [lookup]. destruct (String.eqb_spec k k') as [->|_].
  - intros [= ->]. now left.
  - intros H. right. now apply IH.
Qed.

(** What each registered algorithm returns on a constructed address: the
    empty string for [pinEmpty], an integer for every other id. *)
Lemma gen_total mac a id alg :
  __init__ mac = Ok a -> lookup id algos = Some alg ->
  (id = "pinEmpty" /\ gen alg a = Ok (VStr "")) \/
  (String.eqb id "pinEmpty" = false /\ exists raw, gen alg a = Ok (VInt raw)).
Proof.
  intros H Hl. apply lookup_In in Hl. unfold algos in Hl.
  destruct (pinASUS_total mac a H) as (vA & EA & _).
  destruct (pinAirocon_total mac a H) as (vR & ER).
  destruct (pinDLink_range a) as (vD & ED & _).
  destruct (pinDLink_range (__iadd__ a 1)) as (vD1 & ED1 & _).
  do 7 (destruct Hl as [Hl|Hl];
          [injection Hl as <- <-;
           right; split;
           [reflexivity
           |cbn [gen static]; unfold pin24, pin28, pin32, pinDLink1; eauto]|]).
  destruct Hl as [Hl|Hl];
    [injection Hl as <- <-; left; split; reflexivity|].
  repeat (destruct Hl as [Hl|Hl];
          [injection Hl as <- <-;
           right; split; [reflexivity|cbn [gen static]; eauto]|]).
  destruct Hl.
Qed.

(** The text [generate] builds from an integer: eight digits whose value
    is the integer reduced modulo 10,000,000 followed by its checksum
    digit. *)
Lemma pin_text raw :
  let p := raw mod 10000000 in
  exists s,
    (c <- checksum p ;; Ok (VStr (zfill 8 (py_str p ++ py_str c)))) = Ok (VStr s) /\
    String.length s = 8%nat /\ is_lit 10 s = true /\
    lit_value 10 0 s = p * 10 + wps_checksum p.
Proof.
  intros p.
  assert (Hp : 0 <= p < 10000000) by (apply Z.mod_pos_bound; lia).
  pose proof (wps_checksum_range p) as Hc.
  rewrite checksum_7digit by lia. cbn [bind].
  rewrite (py_str_digit (wps_checksum p)) by exact Hc.
  rewrite py_str_nonneg by lia.
  assert (L : is_lit 10 (digits 10 p) = true) by (apply digits_lit; lia).
  destruct (snoc_digit_lit _ _ L Hc) as (L' & Len').
  assert (B : (String.length (digits 10 p) <= 7)%nat)
    by (apply (digits_length_bound 10); (lia || exact Hp)).
  eexists. split; [reflexivity|].
  rewrite (zfill_lit 10) by (lia || exact L').
  split; [|split].
  - rewrite str_length_app, zeros_length, Len'. lia.
  - rewrite is_lit_app, zeros_lit, L' by lia. reflexivity.
  - rewrite lit_value_app, zeros_value, Z.mul_0_l, lit_value_app.
    rewrite digits_value by lia. cbn [lit_value].
    rewrite digit_val_digit_char by lia. reflexivity.
Qed.

End GeneratorFacts.

Import GeneratorFacts.

Module PinListFacts.

Import NetworkAddress EnhancedWPSpin PinLists Shapes.

Lemma generate_registered mac a id alg :
  __init__ mac = Ok a -> lookup id algos = Some alg ->
  exists s, generate id mac = Ok (VStr s) /\
    if String.eqb id "pinEmpty" then s = ""
    else exists raw,
        gen alg a = Ok (VInt raw) /\
        String.length s = 8%nat /\ is_lit 10 s = true /\
        lit_value 10 0 s
        = (raw mod 10000000) * 10 + wps_checksum (raw mod 10000000).
Proof.
  intros H Hl. unfold generate, generate_body. rewrite H. cbn [bind]. rewrite Hl.
  destruct (gen_total mac a id alg H Hl) as [(-> & ->)|(Hne & raw & ->)].
  - cbn [bind]. change ("pinEmpty" =? "pinEmpty")%string with true.
    cbn [try_except]. now exists "".
  - cbn [bind]. rewrite Hne.
    destruct (pin_text raw) as (s & -> & Len & L & V).
    cbn [try_except]. exists s. split; [reflexivity|]. exists raw. auto.
Qed.

Lemma generate_rejected mac e id :
  __init__ mac = Raise e -> generate id mac = Ok VNone.
Proof. intros H. unfold generate, generate_body. now rewrite H. Qed.

Lemma generate_unregistered mac id :
  lookup id algos = None -> generate id mac = Ok VNone.
Proof.
  intros Hl. unfold generate, generate_body.
  destruct (init_ok_or_raise mac) as [[a ->]|[e ->]]; [|reflexivity].
  cbn [bind]. now rewrite Hl.
Qed.

Lemma generate_registered_shape mac a id alg :
  __init__ mac = Ok a -> lookup id algos = Some alg ->
  exists v, generate id mac = Ok v /\ is_none v = false /\ pin_shaped v.
Proof.
  intros H Hl. destruct (generate_registered mac a id alg H Hl) as (s & -> & Hs).
  exists (VStr s). split; [reflexivity|]. split; [reflexivity|].
  exists s. split; [reflexivity|].
  destruct (String.eqb id "pinEmpty"); [now left|].
  destruct Hs as (raw & _ & Len & L & _). now right.
Qed.

Lemma getList_loop_accepted mac a gs :
  __init__ mac = Ok a ->
  forall items acc,
    Forall (fun e => lookup (fst e) algos <> None) items ->
    exists l, getList_loop items mac gs acc = Ok (acc ++ l)%list /\
              List.length l = List.length (kept gs items) /\
              Forall pin_shaped l.
Proof.
  intros H. induction items as [|[ID al] r IH]; intros acc F.
  - exists []. cbn [getList_loop]. rewrite app_nil_r. repeat split. constructor.
  - apply Forall_cons_iff in F as [Hreg F]. cbn [fst] in Hreg.
    cbn [getList_loop kept filter snd].
    destruct (mode_eqb (amode al) ALGO_STATIC && negb gs)%bool.
    + cbn [negb]. apply IH, F.
    + cbn [negb].
      destruct (lookup ID algos) as [alg|] eqn:Hl; [|congruence].
      destruct (generate_registered_shape mac a ID alg H Hl) as (v & -> & Hn & Hs).
      rewrite Hn.
      destruct (IH (acc ++ [v])%list F) as (l & -> & Len & Fl).
      exists (v :: l). rewrite <- app_assoc. split; [reflexivity|].
      split; [cbn [List.length]; fold (kept gs r); now rewrite Len|].
      now constructor.
Qed.

Lemma getList_loop_rejected mac e gs :
  __init__ mac = Raise e ->
  forall items acc, getList_loop items mac gs acc = Ok acc.
Proof.
  intros H. induction items as [|[ID al] r IH]; intros acc; [reflexivity|].
  cbn [getList_loop]. rewrite (generate_rejected mac e ID H). cbn [is_none].
  destruct (_ && _)%bool; apply IH.
Qed.

Lemma getAll_getList_loop mac gs :
  forall items acc,
    match getAll_loop items mac gs acc with
    | Ok l => getList_loop items mac gs (map item_pin acc) = Ok (map item_pin l)
    | Raise e => getList_loop items mac gs (map item_pin acc) = Raise e
    | KeyboardInterrupt =>
        getList_loop items mac gs (map item_pin acc) = KeyboardInterrupt
    | OutOfFuel => getList_loop items mac gs (map item_pin acc) = OutOfFuel
    end.
Proof.
  induction items as [|[ID al] r IH]; intros acc; [reflexivity|].
  cbn [getAll_loop getList_loop].
  destruct (_ && _)%bool; [apply IH|].
  destruct (generate ID mac) as [pin|e| |]; try reflexivity.
  destruct (is_none pin); [apply IH|].
  specialize (IH (acc ++ [mk_item ID (item_name_of al) pin])%list).
  rewrite map_app in IH. exact IH.
Qed.

Lemma registry_registered :
  Forall (fun e => lookup (fst e) algos <> None) algos.
Proof. unfold algos. repeat (constructor; [discriminate|]). constructor. Qed.

End PinListFacts.

Import NetworkAddress EnhancedWPSpin PinLists Shapes PinListFacts.

(** X4. Whatever the address, [pinDLink] and [pinDLink1] return a
    seven-digit integer. *)
Theorem pinDLink_seven_digits (a : NetworkAddress.t) :
  exists p q,
    pinDLink a = Ok (VInt p) /\ pinDLink1 a = Ok (VInt q) /\
    1000000 <= p < 10000000 /\ 1000000 <= q < 10000000.
Proof.
  destruct (pinDLink_range a) as (p & Ep & Hp).
  destruct (pinDLink_range (__iadd__ a 1)) as (q & Eq & Hq).
  exists p, q. auto.
Qed.

(** X5. On a MAC the constructor accepts and a registered algorithm id,
    [generate] returns a string: the empty one for [pinEmpty]; otherwise
    eight decimal digits, whose value is the algorithm's integer reduced
    modulo 10,000,000, followed by the checksum digit of that reduced
    value.  Shorter values are padded with zeros on the left. *)
Theorem generate_registered_pin
  (mac : pyarg) (a : NetworkAddress.t) (id : string) (alg : algo) :
  __init__ mac = Ok a -> lookup id algos = Some alg ->
  exists s, generate id mac = Ok (VStr s) /\
    if String.eqb id "pinEmpty" then s = ""
    else exists raw,
        gen alg a = Ok (VInt raw) /\
        String.length s = 8%nat /\ is_lit 10 s = true /\
        lit_value 10 0 s
        = (raw mod 10000000) * 10 + wps_checksum (raw mod 10000000).
Proof. apply generate_registered. Qed.

Lemma generate_registered_pin_witness :
  exists s, generate "pinUR825AC" (PStr "d4:bf:7f:50:00:01") = Ok (VStr s) /\
    exists raw,
      gen (static "UR-825AC" 529417) (mk "D4:BF:7F:50:00:01" 0xD4BF7F500001)
      = Ok (VInt raw) /\
      String.length s = 8%nat /\ is_lit 10 s = true /\
      lit_value 10 0 s
      = (raw mod 10000000) * 10 + wps_checksum (raw mod 10000000).
Proof.
  apply (generate_registered_pin (PStr "d4:bf:7f:50:00:01")
           (mk "D4:BF:7F:50:00:01" 0xD4BF7F500001) "pinUR825AC"
           (static "UR-825AC" 529417)); reflexivity.
Defined.

(** X6. [generate] always returns, and it returns [None] exactly when the
    algorithm id is not registered or the constructor refuses the MAC. *)
Theorem generate_none_iff (id : string) (mac : pyarg) :
  (exists v, generate id mac = Ok v) /\
  (generate id mac = Ok VNone <->
   lookup id algos = None \/ exists e, __init__ mac = Raise e).
Proof.
  destruct (lookup id algos) as [alg|] eqn:Hl.
  - destruct (init_ok_or_raise mac) as [[a H]|[e H]].
    + destruct (generate_registered mac a id alg H Hl) as (s & E & _).
      rewrite E. split; [eauto|]. split; [discriminate|].
      intros [C|[e C]]; [discriminate C|congruence].
    + rewrite (generate_rejected mac e id H). split; [eauto|].
      split; [eauto|reflexivity].
  - rewrite (generate_unregistered mac id Hl). split; [eauto|].
    split; [auto|reflexivity].
Qed.

(** X7. On an accepted MAC [getList] returns one PIN per registered
    algorithm, 30 in all, or the 8 of the algorithms that are not static
    when [get_static] is false; each is the empty string or eight decimal
    digits. *)
Theorem getList_accepted (mac : pyarg) (a : NetworkAddress.t) (get_static : bool) :
  __init__ mac = Ok a ->
  exists l, getList mac get_static = Ok l /\
    List.length l = (if get_static then 30 else 8)%nat /\
    Forall pin_shaped l.
Proof.
  intros H.
  destruct (getList_loop_accepted mac a get_static H algos [] registry_registered)
    as (l & E & Len & F).
  exists l. split; [exact E|]. split; [|exact F].
  rewrite Len. destruct get_static; reflexivity.
Qed.

Lemma getList_accepted_witness :
  exists l, getList (PInt 0x0014D1ABCDEF) false = Ok l /\
    List.length l = 8%nat /\ Forall pin_shaped l.
Proof.
  apply (getList_accepted (PInt 0x0014D1ABCDEF)
           (mk (_int2mac 0x0014D1ABCDEF) 0x0014D1ABCDEF) false).
  reflexivity.
Defined.

(** X8. On a MAC the constructor refuses, [getList] returns the empty
    list: every algorithm's failure is absorbed. *)
Theorem getList_rejected (mac : pyarg) (e : exn) (get_static : bool) :
  __init__ mac = Raise e -> getList mac get_static = Ok [].
Proof. intros H. apply (getList_loop_rejected mac e get_static H). Qed.

Lemma getList_rejected_witness :
  getList (PStr "00-14-D1-AB-CD-EF") true = Ok [].
Proof.
  apply (getList_rejected (PStr "00-14-D1-AB-CD-EF")
           (ValueError "invalid literal for int() with base 16") true).
  reflexivity.
Defined.

(** X9. The PINs of [getAll] are those of [getList], in the same order. *)
Theorem getAll_pins_are_getList (mac : pyarg) (get_static : bool) :
  match getAll mac get_static with
  | Ok l => getList mac get_static = Ok (map item_pin l)
  | Raise e => getList mac get_static = Raise e
  | KeyboardInterrupt => getList mac get_static = KeyboardInterrupt
  | OutOfFuel => getList mac get_static = OutOfFuel
  end.
Proof. apply (getAll_getList_loop mac get_static algos []). Qed.

(** X10. A static algorithm gives the same PIN on every accepted MAC. *)
Theorem static_pin_ignores_mac
  (id : string) (alg : algo) (mac1 mac2 : pyarg) (a1 a2 : NetworkAddress.t) :
  lookup id algos = Some alg -> amode alg = ALGO_STATIC ->
  __init__ mac1 = Ok a1 -> __init__ mac2 = Ok a2 ->
  generate id mac1 = generate id mac2.
Proof.
  intros Hl Hm H1 H2. unfold generate, generate_body.
  rewrite H1, H2. cbn [bind]. rewrite Hl.
  assert (G : gen alg a1 = gen alg a2).
  { apply lookup_In in Hl. unfold algos in Hl.
    repeat (destruct Hl as [Hl|Hl];
            [injection Hl as <- <-; first [discriminate Hm|reflexivity]|]).
    destruct Hl. }
  now rewrite G.
Qed.

Lemma static_pin_ignores_mac_witness :
  generate "pinCisco" (PInt 5) = generate "pinCisco" (PStr "00:14:d1:ab:cd:ef").
Proof.
  apply (static_pin_ignores_mac "pinCisco" (static "Cisco" 1234567)
           (PInt 5) (PStr "00:14:d1:ab:cd:ef")
           (mk (_int2mac 5) 5) (mk "00:14:D1:AB:CD:EF" 0x0014D1ABCDEF));
    reflexivity.
Defined.

Module SuggestFacts.

Import NetworkAddress EnhancedWPSpin PinLists Suggest Shapes PinListFacts.

Lemma suggest_loop_matching mac : forall table acc,
  suggest_loop mac table acc = (acc ++ matching mac table)%list.
Proof.
  induction table as [|[id masks] r IH]; intros acc.
  - cbn. now rewrite app_nil_r.
  - cbn [suggest_loop]. rewrite IH. unfold matching. cbn [filter snd].
    destruct (any_mask mac masks); [|reflexivity].
    cbn [map fst]. now rewrite <- app_assoc.
Qed.

Lemma suggest_matching mac :
  _suggest mac = matching (upper (replace ":" "" mac)) algorithms.
Proof. unfold _suggest. now rewrite suggest_loop_matching. Qed.

Lemma matching_incl mac table id :
  In id (matching mac table) -> In id (map fst table).
Proof.
  unfold matching. intros H. apply in_map_iff in H as ([i m] & <- & Hin).
  apply filter_In in Hin as [Hin _]. now apply in_map.
Qed.

Lemma matching_NoDup mac table :
  NoDup (map fst table) -> NoDup (matching mac table).
Proof.
  induction table as [|[id masks] r IH]; intros H; [constructor|].
  cbn [map fst] in H. apply NoDup_cons_iff in H as [Hn H].
  unfold matching. cbn [filter snd].
  destruct (any_mask mac masks); [|now apply IH].
  cbn [map fst]. constructor; [|now apply IH].
  intros C. apply Hn. now apply (matching_incl mac r).
Qed.

Lemma matching_length mac table :
  (List.length (matching mac table) <= List.length table)%nat.
Proof. unfold matching. rewrite length_map. apply filter_length_le. Qed.

Lemma table_ids : map fst algorithms = map fst algos.
Proof. reflexivity. Qed.

Lemma registry_NoDup : NoDup (map fst algos).
Proof.
  unfold algos. cbn [map fst].
  repeat (constructor;
          [cbn [In]; intros C;
           repeat (destruct C as [C|C]; [discriminate C|]); exact C|]).
  constructor.
Qed.

Lemma lookup_fst id d : In id (map fst d) -> lookup id d <> None.
Proof.
  induction d as [|[k v] d IH]; [intros []|].
  cbn [map fst In lookup]. intros [->|H].
  - now rewrite String.eqb_refl.
  - destruct (String.eqb id k); [discriminate|now apply IH].
Qed.

Lemma upper_char_colon c : Ascii.eqb (upper_char c) ":" = Ascii.eqb c ":".
Proof. each_char c; reflexivity. Qed.

Lemma replace_colon_upper s :
  replace ":" "" (upper s) = upper (replace ":" "" s).
Proof.
  induction s as [|c s IH]; [reflexivity|].
  cbn [upper replace]. rewrite upper_char_colon.
  destruct (Ascii.eqb c ":"); cbn [append upper]; now rewrite IH.
Qed.

Lemma replace_colon_idem s :
  replace ":" "" (replace ":" "" s) = replace ":" "" s.
Proof.
  induction s as [|c s IH]; [reflexivity|].
  cbn [replace]. destruct (Ascii.eqb c ":") eqn:E; cbn [append]; [exact IH|].
  cbn [replace]. now rewrite E, IH.
Qed.

Lemma startswith_prefix p : forall n s,
  (String.length p <= n)%nat ->
  startswith p (substring 0 n s) = startswith p s.
Proof.
  induction p as [|a p IH]; intros n s H; [now destruct (substring 0 n s), s|].
  cbn [String.length] in H. destruct n as [|n]; [lia|].
  destruct s as [|b s]; [reflexivity|].
  cbn [substring startswith]. now rewrite IH by lia.
Qed.

Lemma any_mask_prefix n mac masks :
  Forall (fun m => (String.length m <= n)%nat) masks ->
  any_mask (substring 0 n mac) masks = any_mask mac masks.
Proof.
  induction 1 as [|m r Hm _ IH]; [reflexivity|].
  cbn [any_mask]. now rewrite startswith_prefix, IH.
Qed.

Lemma matching_prefix n mac table :
  Forall (fun e => Forall (fun m => (String.length m <= n)%nat) (snd e)) table ->
  matching (substring 0 n mac) table = matching mac table.
Proof.
  unfold matching. induction 1 as [|[id masks] r Hm _ IH]; [reflexivity|].
  cbn [filter snd]. cbn [snd] in Hm. rewrite (any_mask_prefix n mac masks Hm).
  destruct (any_mask mac masks); cbn [map fst]; now rewrite IH.
Qed.

Lemma masks_at_most_8 :
  Forall (fun e => Forall (fun m => (String.length m <= 8)%nat) (snd e)) algorithms.
Proof.
  assert (D : forall l, forallb (fun m => Nat.leb (String.length m) 8) l = true ->
                   Forall (fun m => (String.length m <= 8)%nat) l).
  { intros l H. apply Forall_forall. intros m Hin.
    rewrite forallb_forall in H. now apply Nat.leb_le, H. }
  apply Forall_forall. intros e Hin. apply D.
  assert (A : forallb (fun e => forallb (fun m => Nat.leb (String.length m) 8) (snd e))
                      algorithms = true) by (vm_compute; reflexivity).
  rewrite forallb_forall in A. now apply A.
Qed.

Lemma suggested_pins_accepted mac a :
  __init__ (PStr mac) = Ok a ->
  forall ids acc,
    Forall (fun id => lookup id algos <> None) ids ->
    exists l, suggested_pins ids mac acc = Ok (acc ++ l)%list /\
              List.length l = List.length ids /\ Forall pin_shaped l /\
              (forall id r, ids = id :: r ->
                 exists v, generate id (PStr mac) = Ok v /\ hd VNone l = v).
Proof.
  intros H. induction ids as [|id r IH]; intros acc F.
  - exists []. cbn [suggested_pins]. rewrite app_nil_r.
    repeat split; [constructor|discriminate].
  - apply Forall_cons_iff in F as [Hreg F].
    cbn [suggested_pins].
    destruct (lookup id algos) as [alg|] eqn:Hl; [|congruence].
    destruct (generate_registered_shape (PStr mac) a id alg H Hl)
      as (v & E & Hn & Hs).
    rewrite E. cbn [bind]. rewrite Hn.
    destruct (IH (acc ++ [v])%list F) as (l & -> & Len & Fl & _).
    exists (v :: l). rewrite <- app_assoc. split; [reflexivity|].
    split; [cbn [List.length]; now rewrite Len|].
    split; [now constructor|].
    intros id' r' [= <- <-]. exists v. split; [exact E|reflexivity].
Qed.

Lemma suggested_pins_rejected mac e :
  __init__ (PStr mac) = Raise e ->
  forall ids acc, suggested_pins ids mac acc = Ok acc.
Proof.
  intros H. induction ids as [|id r IH]; intros acc; [reflexivity|].
  cbn [suggested_pins]. rewrite (generate_rejected (PStr mac) e id H).
  cbn [bind is_none]. apply IH.
Qed.

Lemma suggest_registered mac :
  Forall (fun id => lookup id algos <> None) (_suggest mac).
Proof.
  apply Forall_forall. intros id Hin. rewrite suggest_matching in Hin.
  apply matching_incl in Hin. rewrite table_ids in Hin. now apply lookup_fst.
Qed.

End SuggestFacts.

Import NetworkAddress EnhancedWPSpin PinLists Suggest Shapes PinListFacts SuggestFacts.

(** X11. The ids [_suggest] returns are registered algorithm ids, each at
    most once, so that [self.algos[ID]] of [getSuggested] finds every one
    of them. *)
Theorem suggest_ids_registered (mac : string) :
  NoDup (_suggest mac) /\
  Forall (fun id => exists alg, lookup id algos = Some alg) (_suggest mac) /\
  (List.length (_suggest mac) <= 30)%nat.
Proof.
  split; [|split].
  - rewrite suggest_matching. apply matching_NoDup.
    rewrite table_ids. apply registry_NoDup.
  - eapply Forall_impl; [|apply suggest_registered].
    intros id H. cbn beta in H. destruct (lookup id algos); [eauto|congruence].
  - rewrite suggest_matching. apply (matching_length _ algorithms).
Qed.

(** X12. The suggestion looks at the hex digits only: letter case and
    colons of the MAC text do not change it. *)
Theorem suggest_ignores_case_and_colons (mac : string) :
  _suggest (upper mac) = _suggest mac /\
  _suggest (replace ":" "" mac) = _suggest mac.
Proof.
  unfold _suggest. cbv zeta. split.
  - now rewrite replace_colon_upper, upper_idem.
  - now rewrite replace_colon_idem.
Qed.

(** X13. The suggestion depends on the first eight hex digits of the MAC
    only: no mask of the table is longer. *)
Theorem suggest_reads_eight_digits (mac1 mac2 : string) :
  substring 0 8 (upper (replace ":" "" mac1))
  = substring 0 8 (upper (replace ":" "" mac2)) ->
  _suggest mac1 = _suggest mac2.
Proof.
  intros H. rewrite !suggest_matching.
  rewrite <- (matching_prefix 8 (upper (replace ":" "" mac1)) _ masks_at_most_8).
  rewrite <- (matching_prefix 8 (upper (replace ":" "" mac2)) _ masks_at_most_8).
  now rewrite H.
Qed.

Lemma suggest_reads_eight_digits_witness :
  _suggest "D4:BF:7F:60:00:01" = _suggest "d4bf7f60ffff".
Proof.
  apply (suggest_reads_eight_digits "D4:BF:7F:60:00:01" "d4bf7f60ffff").
  reflexivity.
Defined.

(** X14. On a MAC text the constructor accepts, [getSuggestedList]
    returns one PIN for each suggested algorithm, each the empty string
    or eight decimal digits; on a text it refuses, the empty list. *)
Theorem getSuggestedList_one_pin_per_suggestion (mac : string) :
  match __init__ (PStr mac) with
  | Ok _ =>
      exists l, getSuggestedList mac = Ok l /\
        List.length l = List.length (_suggest mac) /\ Forall pin_shaped l
  | _ => getSuggestedList mac = Ok []
  end.
Proof.
  unfold getSuggestedList.
  pose proof (suggest_registered mac) as R.
  revert R. generalize (_suggest mac). intros ids R.
  destruct (init_ok_or_raise (PStr mac)) as [[a H]|[e H]]; rewrite H.
  - destruct (suggested_pins_accepted mac a H ids [] R) as (l & E & Len & F & _).
    exists l. rewrite E. repeat split; assumption.
  - rewrite (suggested_pins_rejected mac e H). reflexivity.
Qed.

(** X15. [getLikely] returns the PIN of the first suggested algorithm,
    and [None] when the MAC text is refused or matches no mask. *)
Theorem getLikely_first_suggestion (mac : string) :
  match __init__ (PStr mac), _suggest mac with
  | Ok _, id :: _ =>
      exists s, generate id (PStr mac) = Ok (VStr s) /\
                getLikely mac = Ok (VStr s)
  | _, _ => getLikely mac = Ok VNone
  end.
Proof.
  unfold getLikely, getSuggestedList.
  pose proof (suggest_registered mac) as R.
  revert R. generalize (_suggest mac). intros ids R.
  destruct (init_ok_or_raise (PStr mac)) as [[a H]|[e H]]; rewrite H.
  - destruct (suggested_pins_accepted mac a H ids [] R) as (l & E & Len & F & Hd).
    rewrite E. clear E. cbn [try_except bind app].
    destruct ids as [|id r].
    + destruct l; [reflexivity|discriminate Len].
    + destruct (Hd id r eq_refl) as (v & Ev & Hv).
      destruct l as [|p l]; [discriminate Len|]. cbn [hd] in Hv. subst p.
      apply Forall_cons_iff in F as [(s & -> & _) _].
      exists s. split; [exact Ev|reflexivity].
  - rewrite (suggested_pins_rejected mac e H). reflexivity.
Qed.

(** X16. The PIN [single_connection] starts from in pixie mode, when no
    stored PIN is used, is always eight decimal digits: an empty likely
    PIN, like a missing one, is replaced by 12345670. *)
Theorem likely_or_default_eight_digits (bssid : string) :
  exists s, likely_or_default bssid = Ok (VStr s) /\
            String.length s = 8%nat /\ is_lit 10 s = true.
Proof.
  unfold likely_or_default, getLikely, getSuggestedList.
  pose proof (suggest_registered bssid) as R.
  revert R. generalize (_suggest bssid). intros ids R.
  destruct (init_ok_or_raise (PStr bssid)) as [[a H]|[e H]].
  - destruct (suggested_pins_accepted bssid a H ids [] R) as (l & E & _ & F & _).
    rewrite E. clear E. cbn [try_except bind app].
    destruct l as [|p l].
    + exists "12345670". repeat split; reflexivity.
    + apply Forall_cons_iff in F as [(s & -> & Hs) _].
      cbn [try_except bind val_truthy].
      destruct Hs as [->|[Len L]].
      * exists "12345670". repeat split; reflexivity.
      * destruct s as [|c s]; [discriminate Len|]. cbn [String.eqb negb].
        exists (String c s). repeat split; assumption || reflexivity.
  - rewrite (suggested_pins_rejected bssid e H).
    exists "12345670". repeat split; reflexivity.
Qed.

(** The empty PIN is what [getLikely] gives for an address known for it
    only; [single_connection] then starts from 12345670. *)
Example empty_likely_pin_replaced :
  _suggest "E4:6F:13:00:00:01" = ["pinEmpty"] /\
  getLikely "E4:6F:13:00:00:01" = Ok (VStr "") /\
  likely_or_default "E4:6F:13:00:00:01" = Ok (VStr "12345670").
Proof. repeat split; vm_compute; reflexivity. Qed.

Module ClassifierFacts.

Import ConnectionStatus Companion Handshake.

Section Lines.

Variable interface : string.
Variables decode_essid decode_psk : string -> option string.

Lemma field_sized_set n v :
  Nat.eqb (String.length v) (n * 2) = true -> field_sized n v = true.
Proof. intros H. unfold field_sized. rewrite H. apply orb_true_r. Qed.

Lemma handle_sized line st :
  sized (pixie_creds st) = true ->
  fst (handle_line interface decode_essid decode_psk line st) = true ->
  sized (pixie_creds (snd (handle_line interface decode_essid decode_psk line st)))
  = true.
Proof.
  remember (handle_line interface decode_essid decode_psk line st) as r eqn:E.
  intros S H.
  walk E; subst r; cbn in H |- *; try discriminate; try exact S.
  all: unfold sized in *; cbn;
    repeat match goal with
           | S : (_ && _)%bool = true |- _ => apply andb_true_iff in S as [S ?]
           end;
    repeat (apply andb_true_iff; split); try assumption;
    now apply field_sized_set.
Qed.

Lemma handle_failed line st :
  fst (handle_line interface decode_essid decode_psk line st) = false ->
  pixie_creds (snd (handle_line interface decode_essid decode_psk line st))
  = pixie_creds st \/
  status (connection_status
            (snd (handle_line interface decode_essid decode_psk line st)))
  = status (connection_status st).
Proof.
  remember (handle_line interface decode_essid decode_psk line st) as r eqn:E.
  intros H.
  walk E; subst r; cbn in H |- *; try discriminate; auto.
Qed.

Lemma handle_wpas_sized input st :
  sized (pixie_creds st) = true ->
  fst (__handle_wpas interface decode_essid decode_psk input st) = true ->
  sized (pixie_creds (snd (__handle_wpas interface decode_essid decode_psk input st))) = true.
Proof.
  destruct input as [[|c l]|]; cbn [__handle_wpas fst snd];
    try discriminate. apply handle_sized.
Qed.

Lemma handle_wpas_failed input st :
  fst (__handle_wpas interface decode_essid decode_psk input st) = false ->
  pixie_creds (snd (__handle_wpas interface decode_essid decode_psk input st))
  = pixie_creds st \/
  status (connection_status (snd (__handle_wpas interface decode_essid decode_psk input st)))
  = status (connection_status st).
Proof.
  destruct input as [[|c l]|]; cbn [__handle_wpas fst snd]; auto.
  apply handle_failed.
Qed.

Lemma pump_sized trace : forall st,
  sized (pixie_creds st) = true ->
  terminal (status (connection_status st)) = false ->
  terminal (status (connection_status
                      (pump interface decode_essid decode_psk trace st))) = true ->
  sized (pixie_creds (pump interface decode_essid decode_psk trace st)) = true.
Proof.
  induction trace as [|line rest IH]; intros st S T H.
  - cbn in H |- *. congruence.
  - cbn [pump] in H |- *.
    pose proof (handle_wpas_sized (Some line) st S) as HS.
    pose proof (handle_wpas_failed (Some line) st) as HF.
    destruct (__handle_wpas interface decode_essid decode_psk (Some line) st)
      as [r st1].
    cbn [fst snd] in HS, HF.
    destruct r; cbn [negb] in H |- *.
    + destruct (terminal (status (connection_status st1))) eqn:T1; auto.
    + destruct (HF eq_refl) as [E|E]; [now rewrite E|]. congruence.
Qed.

End Lines.

Lemma has_replace_same c s : has c (replace c "" s) = false.
Proof.
  induction s as [|a s IH]; [reflexivity|].
  cbn [replace]. destruct (Ascii.eqb a c) eqn:E; [exact IH|].
  cbn [has]. now rewrite E, IH.
Qed.

Lemma has_upper_blank s : has " " (upper s) = has " " s.
Proof.
  induction s as [|a s IH]; [reflexivity|].
  cbn [upper has]. rewrite IH. f_equal. each_char a; reflexivity.
Qed.

(** The fields [split(c, maxsplit)] cuts off hold no [c]. *)
Lemma split_char_max_fields c : forall s m i,
  (i < m)%nat -> has c (nth i (split_char_max c m s) "") = false.
Proof.
  induction s as [|a s IH]; intros m i Hi.
  - destruct m; [lia|]. cbn [split_char_max]. destruct i as [|[|i]]; reflexivity.
  - destruct m as [|m]; [lia|]. cbn [split_char_max].
    destruct (Ascii.eqb a c) eqn:E.
    + destruct i as [|i]; [reflexivity|]. cbn [nth]. apply IH. lia.
    + pose proof (IH (S m) O ltac:(lia)) as H0.
      pose proof (fun j (Hj : (S j < S m)%nat) => IH (S m) (S j) Hj) as HS.
      destruct (split_char_max c (S m) s) as [|f fs].
      * destruct i as [|[|i]]; cbn [nth has]; now rewrite ?E.
      * destruct i as [|i]; cbn [nth has].
        -- cbn [nth] in H0. now rewrite E, H0.
        -- apply (HS i). lia.
Qed.

Lemma has_upper_colon s : has ":" (upper s) = has ":" s.
Proof.
  induction s as [|a s IH]; [reflexivity|].
  cbn [upper has]. rewrite IH. f_equal. each_char a; reflexivity.
Qed.

End ClassifierFacts.

Import ClassifierFacts.
Import ConnectionStatus Companion Handshake.

(** X17. What one line can change.  A line that starts with ["WPS: "]
    leaves the network name alone and can set the status only to
    [WSC_NACK] or [GOT_PSK]; any other line leaves the hexdump fields, the
    message number and the network key alone. *)
Theorem line_frame
  (interface : string) (decode_essid decode_psk : string -> option string)
  (line : string) (st : state) :
  let st' := snd (handle_line interface decode_essid decode_psk line st) in
  if startswith "WPS: " line
  then essid (connection_status st') = essid (connection_status st) /\
       (status (connection_status st') = status (connection_status st) \/
        status (connection_status st') = WSC_NACK \/
        status (connection_status st') = GOT_PSK)
  else pixie_creds st' = pixie_creds st /\
       last_m_message (connection_status st')
       = last_m_message (connection_status st) /\
       wpa_psk (connection_status st') = wpa_psk (connection_status st).
Proof.
  cbv zeta.
  remember (handle_line interface decode_essid decode_psk line st) as r eqn:E.
  destruct (startswith "WPS: " line) eqn:W.
  - walk E; try discriminate; subst r; cbn; auto.
  - walk E; try discriminate; subst r; cbn; auto.
Qed.

(** X18. A line sets the status to [WPS_FAIL] only when some status was
    set before it: while the status is still empty, a [WPS-FAIL] line is
    not taken as a failure. *)
Theorem wps_fail_needs_prior_status
  (interface : string) (decode_essid decode_psk : string -> option string)
  (line : string) (st : state) :
  status (connection_status
            (snd (handle_line interface decode_essid decode_psk line st)))
  = WPS_FAIL ->
  status (connection_status st) <> Unset.
Proof.
  remember (handle_line interface decode_essid decode_psk line st) as r eqn:E.
  intros H U.
  walk E; subst r; cbn in H; try congruence.
  rewrite U in *. cbn in *. rewrite andb_false_r in *. discriminate.
Qed.

Lemma wps_fail_needs_prior_status_witness :
  status (connection_status
            (mkst PixiewpsData.init (ConnectionStatus.mk scanning 0 "" "")))
  <> Unset.
Proof.
  apply (wps_fail_needs_prior_status "wlan0" Some Some
           "<3>WPS-FAIL msg=8 config_error=18"
           (mkst PixiewpsData.init (ConnectionStatus.mk scanning 0 "" ""))).
  reflexivity.
Defined.

(** X19. A session that ends with the status [WSC_NACK], [GOT_PSK] or
    [WPS_FAIL] holds no hexdump field of a wrong length: each one is empty
    or has exactly the hex digits of its mandated number of bytes. *)
Theorem terminal_session_fields_sized
  (interface : string) (decode_essid decode_psk : string -> option string)
  (reply : option string) (trace : list string) :
  let st := __wps_connection interface decode_essid decode_psk reply trace in
  terminal (status (connection_status st)) = true ->
  sized (pixie_creds st) = true.
Proof.
  cbv zeta. unfold __wps_connection.
  destruct reply as [r|]; [|discriminate].
  destruct (negb (contains "OK" r)); [reflexivity|].
  now apply pump_sized.
Qed.

Lemma terminal_session_fields_sized_witness :
  sized (pixie_creds
           (__wps_connection "wlan0" Some Some (Some "OK")
              ["WPS: Enrollee Nonce - hexdump(len=16):" ++ hexdump 16;
               "WPS: Building Message M4"; "WPS: Received WSC_NACK"])) = true.
Proof.
  apply (terminal_session_fields_sized "wlan0" Some Some (Some "OK")
           ["WPS: Enrollee Nonce - hexdump(len=16):" ++ hexdump 16;
            "WPS: Building Message M4"; "WPS: Received WSC_NACK"]).
  reflexivity.
Defined.

(** X20. The text [get_hex] extracts holds no blank, no colon and no
    lower-case letter. *)
Theorem get_hex_clean (line : string) :
  has " " (get_hex line) = false /\
  has ":" (get_hex line) = false /\
  upper (get_hex line) = get_hex line.
Proof.
  unfold get_hex. cbv zeta.
  destruct (3 <=? List.length (split_char_max ":" 3 line))%nat;
    [|repeat split; reflexivity].
  split; [|split].
  - rewrite has_upper_blank. apply has_replace_same.
  - rewrite has_upper_colon, has_replace_other by discriminate.
    apply split_char_max_fields. lia.
  - apply upper_idem.
Qed.

Module PhaseFacts.

Import Bruteforce ConnectionStatus CandidateFacts EngineFacts.

Lemma seven_then_checksum s p :
  is_lit 10 s = true -> String.length s = 7%nat -> lit_value 10 0 s = p ->
  valid_pin (s ++ py_str (wps_checksum p)) = true.
Proof.
  intros L Len V. pose proof (wps_checksum_range p) as Hc.
  rewrite py_str_digit by exact Hc. unfold valid_pin.
  rewrite str_length_app, Len, is_lit_app, L, lit_value_app, V.
  cbn [String.length Nat.add Nat.eqb is_lit lit_value andb].
  rewrite digit_val_digit_char by lia.
  destruct (Z.ltb_spec (wps_checksum p) 10); [|lia]. cbn [andb].
  apply Z.eqb_eq.
  assert (D : (p * 10 + wps_checksum p) / 10 = p)
    by (Z.div_mod_to_equations; lia).
  assert (M : (p * 10 + wps_checksum p) mod 10 = wps_checksum p)
    by (Z.div_mod_to_equations; lia).
  now rewrite D, M.
Qed.

Lemma pin2_valid k s :
  0 <= k < 10000 -> 0 <= s < 1000 -> valid_pin (pin2 k s) = true.
Proof.
  intros Hk Hs. unfold pin2. rewrite <- str_app_assoc.
  apply seven_then_checksum.
  - rewrite is_lit_app, !cand_lit by lia. reflexivity.
  - rewrite str_length_app, (cand_length 3), (cand_length 2) by (simpl; lia).
    reflexivity.
  - rewrite lit_value_app, lit_value_shift, !cand_value by lia.
    rewrite (cand_length 2) by (simpl; lia). reflexivity.
Qed.

Lemma pin1_pin2 k : pin1 k = pin2 k 0.
Proof. unfold pin1, pin2. now rewrite Z.add_0_r. Qed.

Lemma pin1_valid k : 0 <= k < 10000 -> valid_pin (pin1 k) = true.
Proof. intros Hk. rewrite pin1_pin2. apply pin2_valid; lia. Qed.

Section Runs.

Variable sc : nat -> string -> outcome.

Lemma all_valid_snoc st cs p :
  all_valid (attempts st) -> valid_pin p = true ->
  all_valid (attempts (mkbf (mask st) cs (attempts st ++ [p]))).
Proof.
  unfold all_valid. cbn [attempts]. intros H Hp.
  apply Forall_app. split; [exact H|]. now constructor.
Qed.

(** How phase 1 can end, and that it submits well-formed PINs only. *)
Lemma first_half_ends fuel : forall k st r st',
  0 <= k ->
  __first_half_bruteforce sc fuel (cand 4 k) st = (r, st') ->
  (all_valid (attempts st) -> all_valid (attempts st')) /\
  match r with
  | Ok (RStr x) => exists k', k <= k' < 10000 /\ x = cand 4 k'
  | Ok RFalse | KeyboardInterrupt | OutOfFuel => True
  | Raise _ => False
  end.
Proof.
  induction fuel as [|fuel IH]; intros k st r st' Hk H.
  - cbn in H. injection H as <- <-. auto.
  - destruct (Z.lt_ge_cases k 10000) as [Hlt|Hge].
    + rewrite first_half_step in H by lia.
      destruct (sc _ _) as [cs|]; cbn [first_half_after] in H.
      * pose proof (fun V => all_valid_snoc st cs (pin1 k) V
                               (pin1_valid k ltac:(lia))) as V1.
        destruct (isFirstHalfValid cs).
        -- injection H as <- <-. split; [exact V1|].
           exists k. split; [lia|reflexivity].
        -- destruct (status_eqb (status cs) WPS_FAIL).
           ++ destruct (IH k _ r st' Hk H) as (V' & R). auto.
           ++ destruct (IH (k + 1) _ r st' ltac:(lia) H) as (V' & R).
              split; [auto|]. destruct r as [[x|]| | |]; auto.
              destruct R as (k' & Hk' & ->). exists k'. split; [lia|reflexivity].
      * injection H as <- <-. auto.
    + rewrite first_half_exhausted in H by lia. injection H as <- <-. auto.
Qed.

Lemma second_half_ends fuel : forall k s st r st',
  0 <= k < 10000 -> 0 <= s ->
  __second_half_bruteforce sc fuel (cand 4 k) (cand 3 s) st = (r, st') ->
  (all_valid (attempts st) -> all_valid (attempts st')) /\
  match r with Raise _ => False | _ => True end.
Proof.
  induction fuel as [|fuel IH]; intros k s st r st' Hk Hs H.
  - cbn in H. injection H as <- <-. auto.
  - destruct (Z.lt_ge_cases s 1000) as [Hlt|Hge].
    + rewrite second_half_step in H by lia.
      destruct (sc _ _) as [cs|]; cbn [second_half_after] in H.
      * pose proof (fun V => all_valid_snoc st cs (pin2 k s) V
                      (pin2_valid k s ltac:(lia) ltac:(lia))) as V1.
        destruct (6 <? last_m_message cs).
        -- injection H as <- <-. auto.
        -- destruct (status_eqb (status cs) WPS_FAIL).
           ++ destruct (IH k s _ r st' Hk Hs H) as (V' & R). auto.
           ++ destruct (IH k (s + 1) _ r st' Hk ltac:(lia) H) as (V' & R). auto.
      * injection H as <- <-. auto.
    + rewrite second_half_exhausted in H by lia. injection H as <- <-. auto.
Qed.

Lemma cand4_length k : 0 <= k < 10000 -> String.length (cand 4 k) = 4%nat.
Proof. intros H. apply (cand_length 3). simpl. lia. Qed.

Lemma cand3_length s : 0 <= s < 1000 -> String.length (cand 3 s) = 3%nat.
Proof. intros H. apply (cand_length 2). simpl. lia. Qed.

Lemma phases_first k st :
  0 <= k < 10000 -> forall fuel,
  phases sc fuel (cand 4 k) st
  = match __first_half_bruteforce sc fuel (cand 4 k) st with
    | (Ok (RStr f_half), st1) =>
        if (PixiewpsData.truthy f_half &&
            negb (status_eqb (status (connection_status st1)) GOT_PSK))%bool
        then __second_half_bruteforce sc fuel f_half "001" st1
        else (Ok (RStr f_half), st1)
    | other => other
    end.
Proof. intros Hk fuel. unfold phases. now rewrite cand4_length. Qed.

Lemma phases_ends fuel k st r st' :
  0 <= k < 10000 ->
  phases sc fuel (cand 4 k) st = (r, st') ->
  (all_valid (attempts st) -> all_valid (attempts st')) /\
  match r with Raise _ => False | _ => True end.
Proof.
  intros Hk H. rewrite phases_first in H by exact Hk.
  destruct (__first_half_bruteforce sc fuel (cand 4 k) st) as [r1 st1] eqn:E1.
  destruct (first_half_ends fuel k st r1 st1 ltac:(lia) E1) as (V1 & R1).
  destruct r1 as [[x|]|e| |]; try (injection H as <- <-; auto; fail).
  destruct R1 as (k' & Hk' & ->).
  destruct (_ && _)%bool.
  - change "001" with (cand 3 1) in H.
    destruct (second_half_ends fuel k' 1 st1 r st' ltac:(lia) ltac:(lia) H)
      as (V2 & R2). auto.
  - injection H as <- <-. auto.
Qed.

(** [n] second-half candidates in a row, from [s], each rejected by an
    attempt that neither passes message 6 nor ends in [WPS_FAIL]. *)
Lemma second_half_advance k n : forall s st fuel,
  0 <= k < 10000 -> 0 <= s -> s + Z.of_nat n <= 1000 ->
  (forall i, (i < n)%nat -> exists cs,
      sc (List.length (attempts st) + i) (pin2 k (s + Z.of_nat i)) = Finished cs /\
      last_m_message cs <= 6 /\ status cs <> WPS_FAIL) ->
  exists st',
    __second_half_bruteforce sc (n + fuel) (cand 4 k) (cand 3 s) st
    = __second_half_bruteforce sc fuel (cand 4 k) (cand 3 (s + Z.of_nat n)) st' /\
    attempts st' = (attempts st ++ map (pin2 k) (upto s n))%list /\
    mask st' = match n with
               | O => mask st
               | S _ => cand 4 k ++ cand 3 (s + Z.of_nat n)
               end.
Proof.
  induction n as [|n IH]; intros s st fuel Hk Hs Hn H.
  - exists st. rewrite Z.add_0_r, app_nil_r. auto.
  - destruct (H O ltac:(lia)) as (cs & Hsc & Hv & Hst).
    rewrite Nat.add_0_r, Z.add_0_r in Hsc.
    cbn [Nat.add]. rewrite second_half_step by lia. rewrite Hsc.
    cbn [second_half_after].
    destruct (Z.ltb_spec 6 (last_m_message cs)); [lia|].
    destruct (status_eqb (status cs) WPS_FAIL) eqn:E;
      [apply status_eqb_eq in E; contradiction|].
    set (st1 := registerAttempt _ _).
    destruct (IH (s + 1) st1 fuel Hk ltac:(lia) ltac:(lia)) as (st' & Hrun & Hatt & Hmask).
    { intros i Hi. destruct (H (S i) ltac:(lia)) as (cs' & Hsc' & Hrest).
      exists cs'. split; [|exact Hrest].
      subst st1. cbn [registerAttempt attempts]. rewrite length_app. cbn [List.length].
      replace (List.length (attempts st) + 1 + i)%nat
        with (List.length (attempts st) + S i)%nat by lia.
      replace (s + 1 + Z.of_nat i) with (s + Z.of_nat (S i)) by lia. exact Hsc'. }
    exists st'. replace (s + Z.of_nat (S n)) with (s + 1 + Z.of_nat n) by lia.
    split; [exact Hrun|]. split.
    + rewrite Hatt. subst st1. cbn [registerAttempt attempts].
      rewrite upto_succ, <- app_assoc. reflexivity.
    + rewrite Hmask. destruct n; [|reflexivity].
      subst st1. cbn [registerAttempt mask]. do 2 f_equal. lia.
Qed.

Lemma phases_second k s st fuel :
  0 <= k < 10000 -> 0 <= s < 1000 ->
  phases sc fuel (cand 4 k ++ cand 3 s) st
  = __second_half_bruteforce sc fuel (cand 4 k) (cand 3 s) st.
Proof.
  intros Hk Hs. unfold phases.
  rewrite str_length_app, cand4_length, cand3_length by lia.
  cbn [Nat.add Nat.eqb Nat.sub]. unfold slice. cbn [Nat.sub].
  rewrite <- (cand4_length k Hk) at 1. rewrite substring_app_l.
  rewrite <- (cand4_length k Hk) at 2. rewrite <- (cand3_length s Hs) at 3.
  now rewrite substring_app_r.
Qed.

(** Without [WPS_FAIL], phase 1 from candidate [k] is over after at most
    [10000 - k] attempts. *)
Lemma first_half_total d : forall k st,
  (forall n pin cs, sc n pin = Finished cs -> status cs <> WPS_FAIL) ->
  0 <= k <= 10000 -> 10000 - k < Z.of_nat d ->
  exists r st',
    __first_half_bruteforce sc d (cand 4 k) st = (r, st') /\
    r <> OutOfFuel /\
    Z.of_nat (List.length (attempts st'))
    <= Z.of_nat (List.length (attempts st)) + (10000 - k).
Proof.
  induction d as [|d IH]; intros k st NF Hk Hd; [lia|].
  destruct (Z.eq_dec k 10000) as [->|Hne].
  - rewrite first_half_exhausted by lia. exists (Ok RFalse), st.
    repeat split; [discriminate|lia].
  - rewrite first_half_step by lia.
    destruct (sc _ _) as [cs|] eqn:E; cbn [first_half_after].
    + destruct (isFirstHalfValid cs).
      * eexists _, _. split; [reflexivity|]. split; [discriminate|].
        cbn [attempts]. rewrite length_app. cbn [List.length]. lia.
      * destruct (status_eqb (status cs) WPS_FAIL) eqn:F;
          [apply status_eqb_eq in F; now apply NF in E|].
        destruct (IH (k + 1)
                    (registerAttempt (mkbf (mask st) cs (attempts st ++ [pin1 k]))
                                     (cand 4 (k + 1))) NF ltac:(lia) ltac:(lia))
          as (r & st' & -> & Hr & Hl).
        exists r, st'. split; [reflexivity|]. split; [exact Hr|].
        cbn [registerAttempt attempts] in Hl. rewrite length_app in Hl.
        cbn [List.length] in Hl. lia.
    + exists KeyboardInterrupt, st. repeat split; [discriminate|lia].
Qed.

Lemma second_half_total d : forall k s st,
  (forall n pin cs, sc n pin = Finished cs -> status cs <> WPS_FAIL) ->
  0 <= k < 10000 -> 0 <= s <= 1000 -> 1000 - s < Z.of_nat d ->
  exists r st',
    __second_half_bruteforce sc d (cand 4 k) (cand 3 s) st = (r, st') /\
    r <> OutOfFuel /\
    Z.of_nat (List.length (attempts st'))
    <= Z.of_nat (List.length (attempts st)) + (1000 - s).
Proof.
  induction d as [|d IH]; intros k s st NF Hk Hs Hd; [lia|].
  destruct (Z.eq_dec s 1000) as [->|Hne].
  - rewrite second_half_exhausted by lia. exists (Ok RFalse), st.
    repeat split; [discriminate|lia].
  - rewrite second_half_step by lia.
    destruct (sc _ _) as [cs|] eqn:E; cbn [second_half_after].
    + destruct (6 <? last_m_message cs).
      * eexists _, _. split; [reflexivity|]. split; [discriminate|].
        cbn [attempts]. rewrite length_app. cbn [List.length]. lia.
      * destruct (status_eqb (status cs) WPS_FAIL) eqn:F;
          [apply status_eqb_eq in F; now apply NF in E|].
        destruct (IH k (s + 1)
                    (registerAttempt (mkbf (mask st) cs (attempts st ++ [pin2 k s]))
                                     (cand 4 k ++ cand 3 (s + 1)))
                    NF Hk ltac:(lia) ltac:(lia))
          as (r & st' & -> & Hr & Hl).
        exists r, st'. split; [reflexivity|]. split; [exact Hr|].
        cbn [registerAttempt attempts] in Hl. rewrite length_app in Hl.
        cbn [List.length] in Hl. lia.
    + exists KeyboardInterrupt, st. repeat split; [discriminate|lia].
Qed.

Lemma phases_total d k st :
  (forall n pin cs, sc n pin = Finished cs -> status cs <> WPS_FAIL) ->
  0 <= k < 10000 -> 10000 - k < Z.of_nat d -> 999 < Z.of_nat d ->
  exists r st',
    phases sc d (cand 4 k) st = (r, st') /\ r <> OutOfFuel /\
    Z.of_nat (List.length (attempts st'))
    <= Z.of_nat (List.length (attempts st)) + (10000 - k) + 999.
Proof.
  intros NF Hk Hd1 Hd2. rewrite phases_first by exact Hk.
  destruct (first_half_total d k st NF ltac:(lia) Hd1) as (r1 & st1 & E1 & N1 & L1).
  destruct (first_half_ends d k st r1 st1 ltac:(lia) E1) as (_ & R1).
  rewrite E1.
  destruct r1 as [[x|]|e| |];
    try (exists r1; eexists; split; [reflexivity|split; [assumption|lia]]; fail);
    try (eexists _, _; split; [reflexivity|split; [discriminate|lia]]; fail).
  - destruct R1 as (k' & Hk' & ->).
    destruct (_ && _)%bool.
    + change "001" with (cand 3 1).
      destruct (second_half_total d k' 1 st1 NF ltac:(lia) ltac:(lia) ltac:(lia))
        as (r & st' & -> & Hr & Hl).
      exists r, st'. split; [reflexivity|]. split; [exact Hr|lia].
    + eexists _, _. split; [reflexivity|]. split; [discriminate|lia].
  - congruence.
Qed.

End Runs.

End PhaseFacts.

Import Bruteforce ConnectionStatus CandidateFacts EngineFacts PhaseFacts.

(** X21. Phase 2 entered at second half "001": when every attempt is
    rejected (message 6 not passed, no [WPS_FAIL]) it makes exactly the
    999 attempts on second halves 001..999, in increasing order, and
    returns [False]; the mask it leaves is the first half followed by
    "1000". *)
Theorem phase2_exhausts_after_999
  (sc : nat -> string -> outcome) (k : Z) (st : bf) (fuel : nat) :
  0 <= k < 10000 ->
  (forall i, Z.of_nat i < 999 -> exists cs,
      sc (List.length (attempts st) + i)%nat (pin2 k (1 + Z.of_nat i)) = Finished cs /\
      last_m_message cs <= 6 /\ status cs <> WPS_FAIL) ->
  exists st',
    __second_half_bruteforce sc (Z.to_nat 1000 + fuel) (cand 4 k) "001" st
    = (Ok RFalse, st') /\
    attempts st' = (attempts st ++ map (pin2 k) (upto 1 (Z.to_nat 999)))%list /\
    mask st' = cand 4 k ++ "1000".
Proof.
  intros Hk H.
  destruct (second_half_advance sc k (Z.to_nat 999) 1 st (S fuel) Hk ltac:(lia) ltac:(lia))
    as (st' & Hrun & Hatt & Hmask).
  { intros i Hi. apply H. lia. }
  exists st'. change "001" with (cand 3 1).
  replace (Z.to_nat 1000 + fuel)%nat with (Z.to_nat 999 + S fuel)%nat by lia.
  rewrite Hrun, second_half_exhausted by lia.
  split; [reflexivity|]. split; [exact Hatt|].
  rewrite Hmask. reflexivity.
Qed.

Lemma phase2_exhausts_after_999_witness :
  exists st',
    __second_half_bruteforce (Simulated.session SimulatedMore.channel_always_nack)
      (Z.to_nat 1000 + 0) (cand 4 1234) "001" (st_init "1234")
    = (Ok RFalse, st') /\
    attempts st'
    = (attempts (st_init "1234") ++ map (pin2 1234) (upto 1 (Z.to_nat 999)))%list /\
    mask st' = cand 4 1234 ++ "1000".
Proof.
  apply (phase2_exhausts_after_999
           (Simulated.session SimulatedMore.channel_always_nack) 1234 (st_init "1234") 0).
  - lia.
  - intros i Hi. eexists. split; [reflexivity|]. split; [vm_compute|]; discriminate.
Defined.

(** X22. When every first half is rejected, a run from the default mask
    makes the 10000 attempts on 0000..9999, returns [False] and saves the
    mask "10000"; a run resumed from that saved session makes no attempt
    at all. *)
Theorem phase1_exhaustion_ends_search
  (sc : nat -> string -> outcome) (fuel : nat) (restore : bool) :
  (forall i, Z.of_nat i < 10000 -> exists cs,
      sc i (pin1 (Z.of_nat i)) = Finished cs /\
      isFirstHalfValid cs = false /\ status cs <> WPS_FAIL) ->
  let r := smart_bruteforce sc (Z.to_nat 10001 + fuel) None None restore in
  ended r = Ok RFalse /\ saved r = Some "10000" /\
  attempts (final r) = map pin1 (upto 0 (Z.to_nat 10000)) /\
  forall sc' fuel',
    let r' := smart_bruteforce sc' fuel' None (saved r) true in
    ended r' = Ok RFalse /\ attempts (final r') = [].
Proof.
  intros H. cbv zeta.
  destruct (first_half_advance sc (Z.to_nat 10000) 0 (st_init "0000") (S fuel)
              ltac:(lia) ltac:(lia)) as (st' & Hrun & Hatt & Hmask).
  { intros i Hi. cbn [st_init attempts List.length Nat.add Z.add]. apply H. lia. }
  replace (Z.to_nat 10000 + S fuel)%nat with (Z.to_nat 10001 + fuel)%nat in Hrun by lia.
  rewrite first_half_exhausted in Hrun by lia.
  assert (M : mask st' = "10000") by (rewrite Hmask; reflexivity).
  unfold smart_bruteforce, initial_mask. cbv zeta.
  change (phases sc (Z.to_nat 10001 + fuel) "0000" (mkbf "0000" init []))
    with (phases sc (Z.to_nat 10001 + fuel) (cand 4 0) (st_init "0000")).
  rewrite phases_first by lia. rewrite Hrun. cbn [ended saved final]. rewrite M.
  split; [reflexivity|]. split; [reflexivity|]. split; [exact Hatt|].
  intros sc' fuel'. split; reflexivity.
Qed.

Lemma phase1_exhaustion_ends_search_witness :
  saved (smart_bruteforce (Simulated.session SimulatedMore.channel_always_nack)
           (Z.to_nat 10001 + 0) None None false) = Some "10000".
Proof.
  apply (phase1_exhaustion_ends_search
           (Simulated.session SimulatedMore.channel_always_nack) 0 false).
  intros i Hi. eexists. split; [reflexivity|]. split; [vm_compute; reflexivity|discriminate].
Defined.

(** X23. From a mask of four decimal digits, or of seven when a search
    is resumed in phase 2, every PIN the phases submit is a well-formed
    WPS PIN: eight decimal digits, the last one the checksum of the first
    seven.  This holds of the attempts made however the phases end. *)
Theorem submitted_pins_are_valid
  (sc : nat -> string -> outcome) (fuel : nat) (m : string) (k s : Z)
  (st : bf) (r : res ret) (st' : bf) :
  0 <= k < 10000 -> 0 <= s < 1000 ->
  m = cand 4 k \/ m = cand 4 k ++ cand 3 s ->
  phases sc fuel m st = (r, st') ->
  all_valid (attempts st) ->
  all_valid (attempts st').
Proof.
  intros Hk Hs [->| ->] H V.
  - destruct (phases_ends sc fuel k st r st' Hk H) as (V' & R). auto.
  - rewrite phases_second in H by assumption.
    destruct (second_half_ends sc fuel k s st r st' Hk ltac:(lia) H) as (V' & R).
    auto.
Qed.

Lemma submitted_pins_are_valid_witness :
  all_valid
    (attempts
       (snd (phases (Simulated.session Simulated.channel_1234) 3 (cand 4 1233)
               (st_init (cand 4 1233))))).
Proof.
  apply (submitted_pins_are_valid (Simulated.session Simulated.channel_1234) 3
           (cand 4 1233) 1233 0 (st_init (cand 4 1233))
           (fst (phases (Simulated.session Simulated.channel_1234) 3 (cand 4 1233)
                   (st_init (cand 4 1233))))).
  - lia.
  - lia.
  - left. reflexivity.
  - apply surjective_pairing.
  - constructor.
Defined.

(** A start mask that [int] accepts but that is not made of digits goes
    into the PIN as it is. *)
Example signed_mask_gives_malformed_pin :
  attempts (snd (phases (Simulated.session SimulatedMore.channel_always_nack) 1
                   "+123" (st_init "+123")))
  = ["+1230000"] /\
  valid_pin "+1230000" = false.
Proof. split; vm_compute; reflexivity. Qed.

(** X24. Phase 2 interrupted after [n >= 1] rejected second halves leaves
    the seven-character mask of the candidate whose attempt was
    interrupted, and the phases started from that mask resume phase 2 at
    that candidate. *)
Theorem phase2_interrupt_resumes
  (sc : nat -> string -> outcome) (k : Z) (n : nat) (st : bf) (fuel : nat) :
  0 <= k < 10000 -> (1 <= n)%nat -> 1 + Z.of_nat n < 1000 ->
  (forall i, (i < n)%nat -> exists cs,
      sc (List.length (attempts st) + i)%nat (pin2 k (1 + Z.of_nat i)) = Finished cs /\
      last_m_message cs <= 6 /\ status cs <> WPS_FAIL) ->
  sc (List.length (attempts st) + n)%nat (pin2 k (1 + Z.of_nat n)) = Interrupted ->
  exists st',
    __second_half_bruteforce sc (n + S fuel) (cand 4 k) "001" st
    = (KeyboardInterrupt, st') /\
    attempts st' = (attempts st ++ map (pin2 k) (upto 1 n))%list /\
    mask st' = cand 4 k ++ cand 3 (1 + Z.of_nat n) /\
    forall sc' fuel' st0,
      phases sc' fuel' (mask st') st0
      = __second_half_bruteforce sc' fuel' (cand 4 k) (cand 3 (1 + Z.of_nat n)) st0.
Proof.
  intros Hk Hn Hlt H Hint.
  destruct (second_half_advance sc k n 1 st (S fuel) Hk ltac:(lia) ltac:(lia) H)
    as (st' & Hrun & Hatt & Hmask).
  exists st'. change "001" with (cand 3 1).
  rewrite Hrun, second_half_step by lia.
  assert (L : List.length (attempts st') = (List.length (attempts st) + n)%nat)
    by (rewrite Hatt, length_app, length_map, upto_length; reflexivity).
  rewrite L, Hint. cbn [second_half_after].
  assert (M : mask st' = cand 4 k ++ cand 3 (1 + Z.of_nat n))
    by (rewrite Hmask; destruct n; [lia|reflexivity]).
  split; [reflexivity|]. split; [exact Hatt|]. split; [exact M|].
  intros sc' fuel' st0. rewrite M. apply phases_second; lia.
Qed.

Lemma phase2_interrupt_resumes_witness :
  exists st',
    __second_half_bruteforce (Simulated.session Simulated.channel_interrupt_at_3)
      (3 + 1) (cand 4 1234) "001" (st_init "1234")
    = (KeyboardInterrupt, st') /\
    attempts st' = (attempts (st_init "1234") ++ map (pin2 1234) (upto 1 3))%list /\
    mask st' = cand 4 1234 ++ cand 3 (1 + Z.of_nat 3) /\
    forall sc' fuel' st0,
      phases sc' fuel' (mask st') st0
      = __second_half_bruteforce sc' fuel' (cand 4 1234) (cand 3 (1 + Z.of_nat 3)) st0.
Proof.
  apply (phase2_interrupt_resumes
           (Simulated.session Simulated.channel_interrupt_at_3) 1234 3 (st_init "1234") 0).
  - lia.
  - lia.
  - simpl. lia.
  - intros i Hi. do 3 (destruct i as [|i]; [eexists; split; [reflexivity|];
                        split; [vm_compute|]; discriminate|]). lia.
  - reflexivity.
Defined.

(** An interruption during the first attempt of phase 2 leaves the
    four-character mask of phase 1: the resumed run starts in phase 1
    again, on the first half already found. *)
Example phase2_first_attempt_interrupted :
  forall st', __second_half_bruteforce (fun _ _ => Interrupted) 1 "1234" "001"
                (st_init "1234") = (KeyboardInterrupt, st') ->
  mask st' = "1234".
Proof. intros st' H. vm_compute in H. now injection H as <-. Qed.

(** X25. When no attempt ends in [WPS_FAIL], a run from the default mask
    makes at most 10999 attempts: the loops of the two phases do not go
    on for ever, 10001 iterations are enough for them to end. *)
Theorem run_ends_without_wps_fail
  (sc : nat -> string -> outcome) (fuel : nat) (restore : bool) :
  (forall n pin cs, sc n pin = Finished cs -> status cs <> WPS_FAIL) ->
  let r := smart_bruteforce sc (Z.to_nat 10001 + fuel) None None restore in
  ended r <> OutOfFuel /\
  Z.of_nat (List.length (attempts (final r))) <= 10999.
Proof.
  intros NF. cbv zeta.
  unfold smart_bruteforce, initial_mask. cbv zeta.
  change (phases sc (Z.to_nat 10001 + fuel) "0000" (mkbf "0000" init []))
    with (phases sc (Z.to_nat 10001 + fuel) (cand 4 0) (st_init "0000")).
  destruct (phases_total sc (Z.to_nat 10001 + fuel) 0 (st_init "0000") NF
              ltac:(lia) ltac:(lia) ltac:(lia)) as (r & st' & E & Hr & Hl).
  rewrite E. cbn [st_init attempts List.length] in Hl.
  destruct r as [x|e| |]; cbn [ended saved final];
    (split; [congruence|lia]).
Qed.

Lemma run_ends_without_wps_fail_witness :
  ended (smart_bruteforce (Simulated.session Simulated.channel_1234)
           (Z.to_nat 10001 + 0) None None false) <> OutOfFuel /\
  Z.of_nat (List.length (attempts (final
     (smart_bruteforce (Simulated.session Simulated.channel_1234)
        (Z.to_nat 10001 + 0) None None false)))) <= 10999.
Proof.
  apply (run_ends_without_wps_fail (Simulated.session Simulated.channel_1234) 0 false).
  intros n pin cs H. unfold Simulated.session, session_of, Simulated.channel_1234 in H.
  injection H as <-.
  destruct (String.eqb (substring 0 4 pin) "1234"); vm_compute; discriminate.
Defined.

Module HelperFacts.

Import Pipe PixieOutput Scanner.

Lemma app_snoc_prefix (p q s : string) c :
  p ++ q = s ++ String c "" -> q <> "" -> exists q', s = p ++ q'.
Proof.
  revert s. induction p as [|a p IH]; intros s H Hq.
  - now exists s.
  - destruct s as [|b s].
    + cbn in H. injection H as _ H. destruct p; [|discriminate H].
      cbn in H. congruence.
    + cbn in H. injection H as -> H.
      destruct (IH s H Hq) as (q' & ->). now exists q'.
Qed.

Lemma recvuntil_loop_spec what : forall pipe s,
  (forall p q, s = p ++ q -> p <> "" -> contains what p = false) ->
  (exists t rest,
      recvuntil_loop pipe what s = s ++ t /\ pipe = t ++ rest /\
      (contains what (recvuntil_loop pipe what s) = true \/ rest = "")) /\
  (forall p q, recvuntil_loop pipe what s = p ++ q -> q <> "" -> p <> "" ->
               contains what p = false).
Proof.
  induction pipe as [|inp rest IH]; intros s Hs.
  - cbn [recvuntil_loop]. split.
    + exists "", "". rewrite app_empty_r. auto.
    + intros p q E _ Hp. now apply (Hs p q).
  - cbn [recvuntil_loop]. cbv zeta.
    destruct (contains what (s ++ String inp "")) eqn:C.
    + split.
      * exists (String inp ""), rest. auto.
      * intros p q E Hq Hp.
        destruct (app_snoc_prefix p q s inp (eq_sym E) Hq) as (q' & ->).
        now apply (Hs p q').
    + destruct (IH (s ++ String inp "")) as ((t & rest' & E & -> & Hc) & Hmin).
      { intros p q E Hp. destruct q as [|c q].
        - rewrite app_empty_r in E. now subst p.
        - destruct (app_snoc_prefix p (String c q) s inp (eq_sym E) ltac:(discriminate))
            as (q' & ->).
          now apply (Hs p q'). }
      split; [|exact Hmin].
      exists (String inp t), rest'. split; [|split].
      * rewrite E, str_app_assoc. reflexivity.
      * reflexivity.
      * exact Hc.
Qed.

Lemma split_char_last c s : has c (last (split_char c s) "") = false.
Proof.
  induction s as [|a s IH]; [reflexivity|].
  cbn [split_char]. destruct (Ascii.eqb a c) eqn:E.
  - destruct (split_char c s) as [|f fs] eqn:S; [reflexivity|]. exact IH.
  - destruct (split_char c s) as [|f fs] eqn:S.
    + cbn. now rewrite E.
    + destruct fs as [|g gs]; [|exact IH].
      cbn [last] in IH |- *. cbn [has]. now rewrite E, IH.
Qed.

Lemma substring_length n s :
  String.length (substring 0 n s) = Nat.min n (String.length s).
Proof.
  revert s. induction n as [|n IH]; intros s.
  - now destruct s.
  - destruct s as [|c s]; [reflexivity|]. cbn. now rewrite IH.
Qed.

Lemma last_cons (l : list string) : forall m d, last l m = last (m :: l) d.
Proof.
  induction l as [|x l IH]; intros m d; [reflexivity|].
  change (last (m :: x :: l) d) with (last (x :: l) d).
  destruct l as [|y l]; [reflexivity|].
  change (last (x :: y :: l) m) with (last (y :: l) m).
  change (last (x :: y :: l) d) with (last (y :: l) d).
  exact (IH m d).
Qed.

Lemma register_invariant l : forall b,
  0 <= BruteforceStatus.counter b < 5 ->
  let b' := fold_left BruteforceStatus.registerAttempt l b in
  BruteforceStatus.counter b'
  = (BruteforceStatus.counter b + Z.of_nat (List.length l)) mod 5 /\
  Z.of_nat (List.length (BruteforceStatus.displayed b'))
  = Z.of_nat (List.length (BruteforceStatus.displayed b))
    + (BruteforceStatus.counter b + Z.of_nat (List.length l)) / 5 /\
  BruteforceStatus.mask b' = last l (BruteforceStatus.mask b).
Proof.
  induction l as [|m l IH]; intros b Hb; cbv zeta.
  - cbn [fold_left List.length last]. rewrite Z.add_0_r.
    rewrite Z.mod_small, Z.div_small by lia. repeat split; lia.
  - cbn [fold_left]. unfold BruteforceStatus.registerAttempt at 2 4 6.
    cbv zeta. unfold BruteforceStatus.statistics_period.
    destruct (Z.eqb_spec (BruteforceStatus.counter b + 1) 5) as [E|E].
    + destruct (IH (BruteforceStatus.mk m 0 (BruteforceStatus.displayed b ++ [m]))
                  ltac:(cbn; lia)) as (H1 & H2 & H3).
      cbn [BruteforceStatus.counter BruteforceStatus.displayed BruteforceStatus.mask] in *.
      rewrite H1, H2, H3, length_app, !Z.add_0_l. cbn [List.length].
      replace (BruteforceStatus.counter b + Z.of_nat (S (List.length l)))
        with (Z.of_nat (List.length l) + 1 * 5) by lia.
      rewrite Z.mod_add, Z.div_add by lia.
      split; [reflexivity|]. split; [lia|]. apply last_cons.
    + destruct (IH (BruteforceStatus.mk m (BruteforceStatus.counter b + 1)
                      (BruteforceStatus.displayed b)) ltac:(cbn; lia)) as (H1 & H2 & H3).
      cbn [BruteforceStatus.counter BruteforceStatus.displayed BruteforceStatus.mask] in *.
      rewrite H1, H2, H3.
      replace (BruteforceStatus.counter b + 1 + Z.of_nat (List.length l))
        with (BruteforceStatus.counter b + Z.of_nat (S (List.length l))) by lia.
      split; [reflexivity|]. split; [reflexivity|]. apply last_cons.
Qed.

End HelperFacts.

Import HelperFacts.
Import Pipe PixieOutput Scanner.

(** X26. [recvuntil] returns the shortest non-empty beginning of the
    stream that holds [what], or the whole stream when there is none. *)
Theorem recvuntil_shortest_prefix (pipe what : string) :
  (exists rest,
      pipe = recvuntil pipe what ++ rest /\
      (contains what (recvuntil pipe what) = true \/ rest = "")) /\
  (forall p q, recvuntil pipe what = p ++ q -> q <> "" -> p <> "" ->
               contains what p = false).
Proof.
  unfold recvuntil.
  destruct (recvuntil_loop_spec what pipe "") as ((t & rest & E & -> & Hc) & Hmin).
  { intros [|c p] q E Hp; [congruence|discriminate E]. }
  split; [|exact Hmin].
  exists rest. split; [now rewrite E|exact Hc].
Qed.

(** X27. The PIN [__runPixiewps] returns comes from the first output line
    that holds both marks, [[+]] and [WPS pin]: that line holds them, no
    line before it does; the PIN holds no colon and is never the text
    [<empty>]. *)
Theorem runPixiewps_pin (returncode : Z) (lines : list string) (pin : string) :
  __runPixiewps returncode lines = Bruteforce.RStr pin ->
  returncode = 0 /\ has ":" pin = false /\ pin <> "<empty>" /\
  exists before line after,
    lines = (before ++ line :: after)%list /\ pin = pin_of_line line /\
    (contains "[+]" line && contains "WPS pin" line)%bool = true /\
    Forall (fun l => (contains "[+]" l && contains "WPS pin" l)%bool = false) before.
Proof.
  unfold __runPixiewps. destruct (Z.eqb_spec returncode 0) as [->|_]; [|discriminate].
  intros H.
  assert (S : exists before line after,
             lines = (before ++ line :: after)%list /\ pin = pin_of_line line /\
             (contains "[+]" line && contains "WPS pin" line)%bool = true /\
             Forall (fun l => (contains "[+]" l && contains "WPS pin" l)%bool = false)
                    before).
  { induction lines as [|l r IH]; [discriminate H|].
    cbn [scan] in H.
    destruct (contains "[+]" l && contains "WPS pin" l)%bool eqn:C.
    - injection H as <-. exists [], l, r.
      split; [reflexivity|]. split; [reflexivity|]. split; [exact C|constructor].
    - destruct (IH H) as (b & ln & a & -> & Hp & Hc & F).
      exists (l :: b), ln, a.
      split; [reflexivity|]. split; [exact Hp|]. split; [exact Hc|].
      apply Forall_cons; assumption. }
  split; [reflexivity|].
  destruct S as (b & ln & a & E & -> & Hc & F).
  split; [|split; [|eauto 10]].
  - unfold pin_of_line. cbv zeta.
    destruct (String.eqb _ "<empty>"); [reflexivity|].
    unfold strip. rewrite has_rstrip, has_lstrip by reflexivity.
    apply split_char_last.
  - unfold pin_of_line. cbv zeta.
    destruct (String.eqb_spec (strip (last (split_char ":" ln) "")) "<empty>");
      [discriminate|assumption].
Qed.

Lemma runPixiewps_pin_witness :
  has ":" "12345670" = false /\
  exists before line after,
    [" [*] Mode: 1"; " [+] WPS pin:    12345670"] = (before ++ line :: after)%list /\
    "12345670" = pin_of_line line /\
    (contains "[+]" line && contains "WPS pin" line)%bool = true /\
    Forall (fun l => (contains "[+]" l && contains "WPS pin" l)%bool = false) before.
Proof.
  destruct (runPixiewps_pin 0 [" [*] Mode: 1"; " [+] WPS pin:    12345670"] "12345670")
    as (_ & H1 & _ & H2).
  - reflexivity.
  - split; [exact H1|exact H2].
Defined.

(** X28. The security type does not depend on the order of the RSN and
    WPA lines of a network, and a repeated line changes nothing. *)
Theorem security_type_order_independent (sec : string) :
  handle_securityType (handle_securityType sec RSN) WPA
  = handle_securityType (handle_securityType sec WPA) RSN /\
  handle_securityType (handle_securityType sec RSN) RSN
  = handle_securityType sec RSN /\
  handle_securityType (handle_securityType sec WPA) WPA
  = handle_securityType sec WPA.
Proof.
  unfold handle_securityType.
  destruct (String.eqb_spec sec "WEP") as [->|N1]; [repeat split; reflexivity|].
  destruct (String.eqb_spec sec "WPA") as [->|N2]; [repeat split; reflexivity|].
  destruct (String.eqb_spec sec "WPA2") as [->|N3]; [repeat split; reflexivity|].
  apply String.eqb_neq in N1, N2, N3. rewrite N1, N2, N3. auto.
Qed.

(** X29. When the postfix is not longer than the width, [truncateStr]
    returns a text of at most that width: the input itself when it fits,
    otherwise exactly [length] characters that end with the postfix. *)
Theorem truncateStr_length (s : string) (length : nat) (postfix : string) :
  (String.length postfix <= length)%nat ->
  String.length (truncateStr s length postfix)
  = Nat.min (String.length s) length.
Proof.
  intros H. unfold truncateStr.
  destruct (Nat.ltb_spec length (String.length s)) as [L|L]; [|lia].
  cbv zeta. unfold slice_to.
  destruct (Z.ltb_spec (Z.of_nat length - Z.of_nat (String.length postfix)) 0); [lia|].
  rewrite str_length_app, substring_length. lia.
Qed.

Lemma truncateStr_length_witness :
  String.length (truncateStr "a rather long network name" 8 "..") = Nat.min 26 8.
Proof. apply (truncateStr_length "a rather long network name" 8 ".."). simpl. lia. Defined.

(** X30. After any number of registered attempts the counter is that
    number modulo 5, [display_status] has been called once for every five
    attempts, and the mask is the one registered last. *)
Theorem registerAttempt_every_fifth (masks : list string) :
  let b := fold_left BruteforceStatus.registerAttempt masks BruteforceStatus.init in
  BruteforceStatus.counter b = Z.of_nat (List.length masks) mod 5 /\
  Z.of_nat (List.length (BruteforceStatus.displayed b))
  = Z.of_nat (List.length masks) / 5 /\
  BruteforceStatus.mask b = last masks "".
Proof.
  destruct (register_invariant masks BruteforceStatus.init ltac:(cbn; lia))
    as (H1 & H2 & H3).
  cbv zeta. rewrite H1, H2, H3. cbn. auto.
Qed.
